(** * Children's dynamic weight model (child_weight.cpp)

    A shallow embedding of the class [Child] of child_weight.cpp: the
    reference curves, the growth kernels, the energy partition, the intake
    models, the mass derivative [dMass] and the fixed-step driver [rk4],
    followed by the properties of these functions.

    Numbers.  A C++ [double] is read as a real number and an [int] as an
    integer: rounding, infinities, NaN and integer overflow are outside the
    model.  The two places where the code turns a quotient by [dt] into an
    [int] ([floor(days/dt)] and [floor(365*(t(0) - age(0))/dt)]) are guarded:
    with [dt = 0] the quotient is not a finite number and has no integer
    value.

    Containers.  A [NumericVector] is a list of reals.  A [NumericMatrix] is
    the list of the slices the code works with: rows for [EIntake], [Mass]
    and the reference tables, columns for the trajectories of [rk4].  The
    Rcpp accessors are modelled as Rcpp defines them:
    - [v(i)] goes through [Vector::offset], and [M(i,_)] and [M(_,j)] build a
      [MatrixRow] or [MatrixColumn]; all three compare the index with the
      extent first and throw [index_out_of_bounds] when it is outside;
    - [M(i,j)] reads the entry without a check;
    - assigning a vector to a row or a column of a matrix copies as many
      entries as the row or column has ([take nind] below);
    - the elementwise (sugar) operators are pointwise on the common prefix of
      their operands, which is what Rcpp computes whenever the operands are
      long enough for the reads it makes.
    A C++ exception ends the call that raised it and every caller up to the
    caller of the method: the methods return a [result]. *)

From Stdlib Require Import Reals Lra Lia ZArith String.
From stdpp Require Import base list.

Open Scope R_scope.

(** ** Errors *)

Inductive error : Type :=
| index_out_of_bounds   (* thrown by a checked Rcpp accessor *)
| negative_extent       (* a vector or matrix allocated with a negative size *)
| not_an_int.           (* conversion to int of a value that is not finite *)

Inductive result (T : Type) : Type :=
| Ok (x : T)
| Err (e : error).

Arguments Ok {T} x.
Arguments Err {T} e.

Definition bind {T U : Type} (m : result T) (k : T -> result U) : result U :=
  match m with
  | Ok x => k x
  | Err e => Err e
  end.

Notation "'do' x <- m ; k" := (bind m (fun x => k))
  (at level 10, x name, m at level 100, k at level 200).

(** ** Vectors and matrices *)

Abbreviation NumericVector := (list R).
Abbreviation NumericMatrix := (list (list R)).

(** Checked read of slot [i]: [v(i)], [M(i,_)] and [M(_,j)] with an index
    that is a loop counter or a literal. *)
Definition get {T : Type} (l : list T) (i : nat) : result T :=
  match l !! i with
  | Some x => Ok x
  | None => Err index_out_of_bounds
  end.

(** The same with a computed [int] index, which may be negative. *)
Definition getZ {T : Type} (l : list T) (i : Z) : result T :=
  if (i <? 0)%Z then Err index_out_of_bounds else get l (Z.to_nat i).

(** Checked write of slot [i]: [v(i) = x], [M(_,j) = x]. *)
Definition set {T : Type} (l : list T) (i : nat) (x : T) : result (list T) :=
  do _ <- get l i; Ok (<[i := x]> l).

(** Unchecked element read [M(i,j)] of a matrix kept by rows. *)
Definition elem (M : NumericMatrix) (i : Z) (j : nat) : R :=
  nth j (nth (Z.to_nat i) M []) 0.

(** [NumericVector v(n)] and [NumericMatrix M(len, n)]: zero filled. *)
Definition new_vector (n : Z) : result NumericVector :=
  if (n <? 0)%Z then Err negative_extent else Ok (replicate (Z.to_nat n) 0).

Definition new_matrix (len : nat) (n : Z) : result NumericMatrix :=
  if (n <? 0)%Z then Err negative_extent
  else Ok (replicate (Z.to_nat n) (replicate len 0)).

(** [(int) floor(x / y)]. *)
Definition floor_quot (x y : R) : result Z :=
  if Req_dec_T y 0 then Err not_an_int else Ok (Int_part (x / y)).

(** The body of a loop [for (i = 0; i < n; i++) out(i) = f(i)]. *)
Fixpoint collect {T : Type} (f : nat -> result T) (idx : list nat)
  : result (list T) :=
  match idx with
  | [] => Ok []
  | i :: rest => do x <- f i; do xs <- collect f rest; Ok (x :: xs)
  end.

(** Sugar: vector with vector, scalar with vector, vector with scalar. *)
Definition vadd : NumericVector -> NumericVector -> NumericVector := zip_with Rplus.
Definition vsub : NumericVector -> NumericVector -> NumericVector := zip_with Rminus.
Definition vmul : NumericVector -> NumericVector -> NumericVector := zip_with Rmult.
Definition vdiv : NumericVector -> NumericVector -> NumericVector := zip_with Rdiv.
Definition vneg : NumericVector -> NumericVector := map Ropp.

Definition sadd (a : R) (v : NumericVector) : NumericVector := map (fun x => a + x) v.
Definition ssub (a : R) (v : NumericVector) : NumericVector := map (fun x => a - x) v.
Definition smul (a : R) (v : NumericVector) : NumericVector := map (fun x => a * x) v.
Definition sdiv (a : R) (v : NumericVector) : NumericVector := map (fun x => a / x) v.

Definition vadds (v : NumericVector) (a : R) : NumericVector := map (fun x => x + a) v.
Definition vsubs (v : NumericVector) (a : R) : NumericVector := map (fun x => x - a) v.
Definition vdivs (v : NumericVector) (a : R) : NumericVector := map (fun x => x / a) v.

Declare Scope vec_scope.
Delimit Scope vec_scope with V.
Infix ".+" := vadd (at level 50, left associativity) : vec_scope.
Infix ".-" := vsub (at level 50, left associativity) : vec_scope.
Infix ".*" := vmul (at level 40, left associativity) : vec_scope.
Infix "./" := vdiv (at level 40, left associativity) : vec_scope.
Infix "$+" := sadd (at level 50, left associativity) : vec_scope.
Infix "$-" := ssub (at level 50, left associativity) : vec_scope.
Infix "$*" := smul (at level 40, left associativity) : vec_scope.
Infix "$/" := sdiv (at level 40, left associativity) : vec_scope.
Infix "+$" := vadds (at level 50, left associativity) : vec_scope.
Infix "-$" := vsubs (at level 50, left associativity) : vec_scope.
Infix "/$" := vdivs (at level 40, left associativity) : vec_scope.
Open Scope vec_scope.

(** [pow(x, y)] of <cmath> on reals: the real power on a positive base, the
    integer power when the exponent is an integer.  (A negative base with a
    fractional exponent is NaN in C and is left at 0 here.) *)
Definition cpow (x y : R) : R :=
  if Rlt_dec 0 x then Rpower x y
  else if Req_dec_T y (IZR (Int_part y)) then powerRZ x (Int_part y)
  else 0.

Definition vexp (v : NumericVector) : NumericVector := map exp v.
Definition vpow (v : NumericVector) (y : R) : NumericVector := map (fun x => cpow x y) v.

(** [ifelse(v == k, 1.0, 0.0)]. *)
Definition indicator (v : NumericVector) (k : R) : NumericVector :=
  map (fun x => if Req_dec_T x k then 1 else 0) v.

(** ** The class *)

Record Child : Type := mkChild {
  age : NumericVector;
  sex : NumericVector;
  bmiCat : NumericVector;
  FM : NumericVector;
  FFM : NumericVector;
  dt : R;
  EIntake : NumericMatrix;          (* one row per time step *)
  check : bool;
  generalized_logistic : bool;
  K_logistic : R;
  A_logistic : R;
  Q_logistic : R;
  B_logistic : R;
  nu_logistic : R;
  C_logistic : R
}.

(** The two constructors.  The members a constructor does not assign are
    never read by the variant it selects; they are set to 0 and to the empty
    matrix here. *)
Definition Child_matrix (input_age input_sex input_bmiCat input_FFM input_FM : NumericVector)
    (input_EIntake : NumericMatrix) (input_dt : R) (checkValues : bool) : Child :=
  {| age := input_age; sex := input_sex; bmiCat := input_bmiCat;
     FM := input_FM; FFM := input_FFM; dt := input_dt;
     EIntake := input_EIntake; check := checkValues;
     generalized_logistic := false;
     K_logistic := 0; A_logistic := 0; Q_logistic := 0;
     B_logistic := 0; nu_logistic := 0; C_logistic := 0 |}.

Definition Child_logistic (input_age input_sex input_bmiCat input_FFM input_FM : NumericVector)
    (input_K input_Q input_A input_B input_nu input_C : R)
    (input_dt : R) (checkValues : bool) : Child :=
  {| age := input_age; sex := input_sex; bmiCat := input_bmiCat;
     FM := input_FM; FFM := input_FFM; dt := input_dt;
     EIntake := []; check := checkValues;
     generalized_logistic := true;
     K_logistic := input_K; A_logistic := input_A; Q_logistic := input_Q;
     B_logistic := input_B; nu_logistic := input_nu; C_logistic := input_C |}.

Section Methods.

Variable c : Child.

Local Abbreviation age := (age c).
Local Abbreviation sex := (sex c).
Local Abbreviation bmiCat := (bmiCat c).
Local Abbreviation dt := (dt c).

(** ** getParameters

    [build] runs [getParameters] once in the constructor and nothing assigns
    these members afterwards: they are functions of the inputs. *)

Definition rhoFM : R := 9.4 * 1000.0.
Definition deltamin : R := 10.0.
Definition P : R := 12.0.
Definition h : R := 10.0.

Definition nind : nat := length age.

Definition ffm_beta0 := 2.9 $* (1 $- sex) .+ 3.8 $* sex.
Definition ffm_beta1 := 2.9 $* (1 $- sex) .+ 2.3 $* sex.
Definition fm_beta0 := 1.2 $* (1 $- sex) .+ 0.56 $* sex.
Definition fm_beta1 := 0.41 $* (1 $- sex) .+ 0.74 $* sex.
Definition K := 800 $* (1 $- sex) .+ 700 $* sex.
Definition deltamax := 19 $* (1 $- sex) .+ 17 $* sex.
Definition A := 3.2 $* (1 $- sex) .+ 2.3 $* sex.
Definition B := 9.6 $* (1 $- sex) .+ 8.4 $* sex.
Definition D := 10.1 $* (1 $- sex) .+ 1.1 $* sex.
Definition tA := 4.7 $* (1 $- sex) .+ 4.5 $* sex.
Definition tB := 12.5 $* (1 $- sex) .+ 11.7 $* sex.
Definition tD := 15.0 $* (1 $- sex) .+ 16.2 $* sex.
Definition tauA := 2.5 $* (1 $- sex) .+ 1.0 $* sex.
Definition tauB := 1.0 $* (1 $- sex) .+ 0.9 $* sex.
Definition tauD := 1.5 $* (1 $- sex) .+ 0.7 $* sex.
Definition A_EB := 7.2 $* (1 $- sex) .+ 16.5 $* sex.
Definition B_EB := 30 $* (1 $- sex) .+ 47.0 $* sex.
Definition D_EB := 21 $* (1 $- sex) .+ 41.0 $* sex.
Definition tA_EB := 5.6 $* (1 $- sex) .+ 4.8 $* sex.
Definition tB_EB := 9.8 $* (1 $- sex) .+ 9.1 $* sex.
Definition tD_EB := 15.0 $* (1 $- sex) .+ 13.5 $* sex.
Definition tauA_EB := 15 $* (1 $- sex) .+ 7.0 $* sex.
Definition tauB_EB := 1.5 $* (1 $- sex) .+ 1.0 $* sex.
Definition tauD_EB := 2.0 $* (1 $- sex) .+ 1.5 $* sex.
Definition A1 := 3.2 $* (1 $- sex) .+ 2.3 $* sex.
Definition B1 := 9.6 $* (1 $- sex) .+ 8.4 $* sex.
Definition D1 := 10.0 $* (1 $- sex) .+ 1.1 $* sex.
Definition tA1 := 4.7 $* (1 $- sex) .+ 4.5 $* sex.
Definition tB1 := 12.5 $* (1 $- sex) .+ 11.7 $* sex.
Definition tD1 := 15.0 $* (1 $- sex) .+ 16.0 $* sex.
Definition tauA1 := 1.0 $* (1 $- sex) .+ 1.0 $* sex.
Definition tauB1 := 0.94 $* (1 $- sex) .+ 0.94 $* sex.
Definition tauD1 := 0.69 $* (1 $- sex) .+ 0.69 $* sex.

(** ** Growth and energy-balance kernels *)

Definition general_ode (t input_A input_B input_D input_tA input_tB input_tD
                          input_tauA input_tauB input_tauD : NumericVector)
  : NumericVector :=
  input_A .* vexp (vneg (t .- input_tA) ./ input_tauA) .+
  input_B .* vexp ((-0.5) $* vpow ((t .- input_tB) ./ input_tauB) 2) .+
  input_D .* vexp ((-0.5) $* vpow ((t .- input_tD) ./ input_tauD) 2).

Definition Growth_dynamic (t : NumericVector) : NumericVector :=
  general_ode t A B D tA tB tD tauA tauB tauD.

Definition Growth_impact (t : NumericVector) : NumericVector :=
  general_ode t A1 B1 D1 tA1 tB1 tD1 tauA1 tauB1 tauD1.

Definition EB_impact (t : NumericVector) : NumericVector :=
  general_ode t A_EB B_EB D_EB tA_EB tB_EB tD_EB tauA_EB tauB_EB tauD_EB.

(** ** Energy partition *)

Definition cRhoFFM (input_FFM : NumericVector) : NumericVector :=
  4.3 $* input_FFM +$ 837.0.

(** The vector [C] of [cP], named so that [C + FM] can be talked about. *)
Definition cP_C (FFM : NumericVector) : NumericVector :=
  10.4 $* cRhoFFM FFM /$ rhoFM.

Definition cP (FFM FM : NumericVector) : NumericVector :=
  let C := cP_C FFM in
  C ./ (C .+ FM).

Definition Delta (t : NumericVector) : NumericVector :=
  deltamin $+ (deltamax -$ deltamin) .* (1.0 $/ (1.0 $+ vpow (t /$ P) h)).

(** ** Reference curves *)

(** One row of a reference table, [ref(r,_) = under*(um*(1 - sex) + uf*sex) +
    normales*(...) + over*(...) + obese*(...)]: the four categories with their
    value for boys and for girls.  The row has [nind] entries. *)
Definition ref_row (um uf nm nf om of_ bm bf : R) : NumericVector :=
  let under := indicator bmiCat 1 in
  let normales := indicator bmiCat 2 in
  let over := indicator bmiCat 3 in
  let obese := indicator bmiCat 4 in
  take nind
    (under .* (um $* (1 $- sex) .+ uf $* sex) .+
     normales .* (nm $* (1 $- sex) .+ nf $* sex) .+
     over .* (om $* (1 $- sex) .+ of_ $* sex) .+
     obese .* (bm $* (1 $- sex) .+ bf $* sex)).

Definition ffm_ref : NumericMatrix :=
  [ ref_row 10.134 9.477   10.134 9.477   10.134 9.477   10.134 9.477;   (* 2 years old *)
    ref_row 12.099 11.494  12.099 11.494  12.099 11.494  12.099 11.494;
    ref_row 14.0 13.2      14.0 13.2      14.0 13.2      14.0 13.2;
    ref_row 13.54 12.45    14.85 13.78    16.21 15.71    18.37 18.81;
    ref_row 15.68 12.69    16.09 14.95    17.97 17.54    21.24 20.16;
    ref_row 18.85 14.42    17.84 17.13    20.14 20.15    24.47 23.31;
    ref_row 19.08 15.98    19.98 18.51    23.46 22.86    28.09 26.66;
    ref_row 20.23 19.52    22.49 20.97    25.96 25.51    30.82 30.43;
    ref_row 20.37 20.12    24.89 24.04    29.20 28.86    34.86 32.19;
    ref_row 21.89 25.15    26.92 27.03    32.76 34.25    37.89 38.15;
    ref_row 25.60 26.63    29.91 30.50    37.16 36.51    43.62 42.63;
    ref_row 30.52 26.47    34.82 34.59    43.11 40.20    47.03 45.31;
    ref_row 31.05 29.63    39.96 36.49    45.87 41.33    52.54 46.58;
    ref_row 36.28 37.05    43.25 38.77    49.94 42.44    55.78 47.64;
    ref_row 41.04 34.60    45.41 38.45    53.66 44.30    59.45 49.83;
    ref_row 44.75 36.61    47.55 39.81    55.59 44.43    61.07 48.59;
    ref_row 41.59 36.38    48.67 41.01    56.70 46.73    62.52 49.89 ].  (* 18 years old *)

Definition fm_ref : NumericMatrix :=
  [ ref_row 2.456 2.433  2.456 2.433    2.456 2.433    2.456 2.433;      (* 2 years old *)
    ref_row 2.576 2.606  2.576 2.606    2.576 2.606    2.576 2.606;
    ref_row 2.7 2.8      2.7 2.8        2.7 2.8        2.7 2.8;
    ref_row 2.05 2.33    3.10 3.72      4.13 5.19      5.60 7.58;
    ref_row 2.13 2.33    3.23 3.80      4.43 5.67      6.91 8.27;
    ref_row 2.36 2.38    3.49 4.20      5.08 6.50      8.05 9.60;
    ref_row 2.49 2.61    3.85 4.41      5.75 7.35      9.80 11.61;
    ref_row 2.49 3.36    4.25 5.00      6.41 8.39      10.41 14.26;
    ref_row 2.58 3.28    4.50 5.69      7.64 9.61      13.15 15.76;
    ref_row 2.90 4.16    4.89 6.44      8.92 12.13     14.56 19.70;
    ref_row 2.80 4.45    5.52 7.57      10.43 13.45    18.72 21.80;
    ref_row 3.65 3.63    6.86 9.41      12.58 15.76    21.70 25.10;
    ref_row 3.09 5.11    7.72 10.38     14.07 16.88    23.93 29.30;
    ref_row 4.33 5.79    8.71 11.07     16.44 17.06    26.63 28.89;
    ref_row 4.86 5.32    9.22 10.74     17.43 18.07    28.70 30.17;
    ref_row 5.29 5.68    10.04 10.78    18.74 17.86    29.78 30.29;
    ref_row 4.65 6.74    10.05 11.19    18.89 19.14    34.51 29.10 ].   (* 18 years old *)

(** The lookup loop, the same text in [FFMReference] and [FMReference]. *)
Definition reference_at (ref : NumericMatrix) (t : NumericVector) (i : nat)
  : result R :=
  do ti <- get t i;
  if Rge_dec ti 18.0 then
    Ok (elem ref 16 i)
  else
    let jmin := Int_part ti in
    let jmin := Z.max jmin 2 in
    let jmin := (jmin - 2)%Z in
    let jmax := Z.min (jmin + 1) 17 in
    let diff := ti - IZR (Int_part ti) in
    Ok (elem ref jmin i + diff * (elem ref jmax i - elem ref jmin i)).

Definition FFMReference (t : NumericVector) : result NumericVector :=
  collect (reference_at ffm_ref t) (seq 0 nind).

Definition FMReference (t : NumericVector) : result NumericVector :=
  collect (reference_at fm_ref t) (seq 0 nind).

(** ** Intake *)

Definition Intake (t : NumericVector) : result NumericVector :=
  if generalized_logistic c then
    Ok (A_logistic c $+
        (K_logistic c - A_logistic c) $/
          vpow (C_logistic c $+ Q_logistic c $* vexp ((- B_logistic c) $* t))
               (1 / nu_logistic c))
  else
    do t0 <- get t 0;
    do age0 <- get age 0;
    do timeval <- floor_quot (365.0 * (t0 - age0)) dt;
    getZ (EIntake c) timeval.

Definition IntakeReference (t : NumericVector) : result NumericVector :=
  let EB := EB_impact t in
  do FFMref <- FFMReference t;
  do FMref <- FMReference t;
  let delta := Delta t in
  let growth := Growth_dynamic t in
  let p := cP FFMref FMref in
  let rhoFFM := cRhoFFM FFMref in
  Ok (EB .+ K .+ (22.4 $+ delta) .* FFMref .+ (4.5 $+ delta) .* FMref .+
      230.0 $/ rhoFFM .* (p .* EB .+ growth) .+
      (180.0 / rhoFM) $* ((1 $- p) .* EB .- growth)).

Definition Expenditure (t FFM FM : NumericVector) : result NumericVector :=
  let delta := Delta t in
  do Iref <- IntakeReference t;
  do Intakeval <- Intake t;
  let DeltaI := Intakeval .- Iref in
  let p := cP FFM FM in
  let rhoFFM := cRhoFFM FFM in
  let growth := Growth_dynamic t in
  let Expend := K .+ (22.4 $+ delta) .* FFM .+ (4.5 $+ delta) .* FM .+
                0.24 $* DeltaI .+
                (230.0 $/ rhoFFM .* p .+ (180.0 / rhoFM) $* (1.0 $- p)) .* Intakeval .+
                growth .* (230.0 $/ rhoFFM -$ 180.0 / rhoFM) in
  Ok (Expend ./ (1.0 $+ 230.0 $/ rhoFFM .* p .+ (180.0 / rhoFM) $* (1.0 $- p))).

(** ** The mass derivative: [Mass(2, nind)], the rows dFFM and dFM *)

Definition dMass (t FFM FM : NumericVector) : result NumericMatrix :=
  let rhoFFM := cRhoFFM FFM in
  let p := cP FFM FM in
  let growth := Growth_dynamic t in
  do expend <- Expenditure t FFM FM;
  do I0 <- Intake t;
  let Mass0 := take nind ((1.0 $* p .* (I0 .- expend) .+ growth) ./ rhoFFM) in
  do I1 <- Intake t;
  let Mass1 := take nind (((1.0 $- p) .* (I1 .- expend) .- growth) /$ rhoFM) in
  Ok [Mass0; Mass1].

(** ** The Runge-Kutta driver *)

Record Arrays : Type := mkArrays {
  ModelFFM : NumericMatrix;     (* one column per recorded step *)
  ModelFM : NumericMatrix;
  ModelBW : NumericMatrix;
  AGE : NumericMatrix;
  TIME : NumericVector
}.

(** One pass through the loop body, writing step [i] from step [i-1].  The
    columns [AGE(_,i-1)], [ModelFFM(_,i-1)] and [ModelFM(_,i-1)], which the
    code reads again at every stage, are read once. *)
Definition rk4_body (i : nat) (s : Arrays) : result Arrays :=
  do a <- get (AGE s) (i - 1);
  do f <- get (ModelFFM s) (i - 1);
  do m <- get (ModelFM s) (i - 1);
  do k1 <- dMass a f m;
  do k1_0 <- get k1 0;
  do k1_1 <- get k1 1;
  do k2 <- dMass (a +$ 0.5 * dt / 365.0) (f .+ 0.5 $* k1_0) (m .+ 0.5 $* k1_1);
  do k2_0 <- get k2 0;
  do k2_1 <- get k2 1;
  do k3 <- dMass (a +$ 0.5 * dt / 365.0) (f .+ 0.5 $* k2_0) (m .+ 0.5 $* k2_1);
  do k3_0 <- get k3 0;
  do k3_1 <- get k3 1;
  do k4 <- dMass (a +$ dt / 365.0) (f .+ k3_0) (m .+ k3_1);
  do k4_0 <- get k4 0;
  do k4_1 <- get k4 1;
  do ffm <- set (ModelFFM s) i
       (take nind (f .+ dt $* (k1_0 .+ 2.0 $* k2_0 .+ 2.0 $* k3_0 .+ k4_0) /$ 6.0));
  do fm <- set (ModelFM s) i
       (take nind (m .+ dt $* (k1_1 .+ 2.0 $* k2_1 .+ 2.0 $* k3_1 .+ k4_1) /$ 6.0));
  do ffm_i <- get ffm i;
  do fm_i <- get fm i;
  do bw <- set (ModelBW s) i (take nind (ffm_i .+ fm_i));
  do time_prev <- get (TIME s) (i - 1);
  do time <- set (TIME s) i (time_prev + dt);
  do age_prev <- get (AGE s) (i - 1);
  do ages <- set (AGE s) i (take nind (age_prev +$ dt / 365.0));
  Ok {| ModelFFM := ffm; ModelFM := fm; ModelBW := bw; AGE := ages; TIME := time |}.

(** [for (int i = 1; i <= nsims; i++)]: [n] passes, starting at index [i]. *)
Fixpoint rk4_loop (n : nat) (i : nat) (s : Arrays) : result Arrays :=
  match n with
  | O => Ok s
  | S n' => do s' <- rk4_body i s; rk4_loop n' (S i) s'
  end.

Record Trajectory : Type := mkTrajectory {
  Time : NumericVector;
  Age : NumericMatrix;
  Fat_Free_Mass : NumericMatrix;
  Fat_Mass : NumericMatrix;
  Body_Weight : NumericMatrix;
  Correct_Values : bool;
  Model_Type : string
}.

Definition rk4 (days : R) : result Trajectory :=
  do nsims <- floor_quot days dt;
  do ffm <- new_matrix nind (nsims + 1);
  do fm <- new_matrix nind (nsims + 1);
  do bw <- new_matrix nind (nsims + 1);
  do ages <- new_matrix nind (nsims + 1);
  do time <- new_vector (nsims + 1);
  do ffm <- set ffm 0 (take nind (FFM c));
  do fm <- set fm 0 (take nind (FM c));
  do bw <- set bw 0 (take nind (FFM c .+ FM c));
  do time <- set time 0 0.0;
  do ages <- set ages 0 (take nind age);
  let correctVals := true in
  do s <- rk4_loop (Z.to_nat nsims) 1
            {| ModelFFM := ffm; ModelFM := fm; ModelBW := bw; AGE := ages; TIME := time |};
  Ok {| Time := TIME s; Age := AGE s; Fat_Free_Mass := ModelFFM s;
        Fat_Mass := ModelFM s; Body_Weight := ModelBW s;
        Correct_Values := correctVals; Model_Type := "Children" |}.

End Methods.


(** ** Cohorts *)

(** The constructors are meant to receive one entry per individual in every
    vector; [nind] is the size of [age]. *)
Definition cohort (c : Child) : Prop :=
  length (sex c) = nind c /\ length (bmiCat c) = nind c /\
  length (FFM c) = nind c /\ length (FM c) = nind c.

(** One boy of five years in the normal category, 15 kg of fat free mass and
    3 kg of fat mass, with a logistic intake that is the constant 1600 kcal
    (K = A), integrated with step [step]. *)
Definition boy (step : R) : Child :=
  Child_logistic [5.0] [0] [2] [15.0] [3.0] 1600 0 1600 1 1 1 step true.


(** ** The reference lookup in the words of the specification *)

(** Row 16 from 18 years on; below, the line from row [j] to row [jHigh]
    with [j = max(floor(age), 2) - 2] and [jHigh = min(j + 1, 16)]. *)
Definition interpolated (ref : NumericMatrix) (ti : R) (i : nat) : R :=
  if Rge_dec ti 18 then elem ref 16 i
  else
    let j := (Z.max (Int_part ti) 2 - 2)%Z in
    let jHigh := Z.min (j + 1) 16 in
    elem ref j i + (ti - IZR (Int_part ti)) * (elem ref jHigh i - elem ref j i).

(** ** The step in the words of the specification *)

(** The loop body with every stage evaluated at the state perturbed by [dt]
    times the previous slope (half of it for the two midpoint stages), the
    final update being that of [rk4_body]. *)
Definition rk4_body_scaled (c : Child) (i : nat) (s : Arrays) : result Arrays :=
  do a <- get (AGE s) (i - 1);
  do f <- get (ModelFFM s) (i - 1);
  do m <- get (ModelFM s) (i - 1);
  do k1 <- dMass c a f m;
  do k1_0 <- get k1 0;
  do k1_1 <- get k1 1;
  do k2 <- dMass c (a +$ 0.5 * dt c / 365.0)
             (f .+ (0.5 * dt c) $* k1_0) (m .+ (0.5 * dt c) $* k1_1);
  do k2_0 <- get k2 0;
  do k2_1 <- get k2 1;
  do k3 <- dMass c (a +$ 0.5 * dt c / 365.0)
             (f .+ (0.5 * dt c) $* k2_0) (m .+ (0.5 * dt c) $* k2_1);
  do k3_0 <- get k3 0;
  do k3_1 <- get k3 1;
  do k4 <- dMass c (a +$ dt c / 365.0) (f .+ dt c $* k3_0) (m .+ dt c $* k3_1);
  do k4_0 <- get k4 0;
  do k4_1 <- get k4 1;
  do ffm <- set (ModelFFM s) i
       (take (nind c) (f .+ dt c $* (k1_0 .+ 2.0 $* k2_0 .+ 2.0 $* k3_0 .+ k4_0) /$ 6.0));
  do fm <- set (ModelFM s) i
       (take (nind c) (m .+ dt c $* (k1_1 .+ 2.0 $* k2_1 .+ 2.0 $* k3_1 .+ k4_1) /$ 6.0));
  do ffm_i <- get ffm i;
  do fm_i <- get fm i;
  do bw <- set (ModelBW s) i (take (nind c) (ffm_i .+ fm_i));
  do time_prev <- get (TIME s) (i - 1);
  do time <- set (TIME s) i (time_prev + dt c);
  do age_prev <- get (AGE s) (i - 1);
  do ages <- set (AGE s) i (take (nind c) (age_prev +$ dt c / 365.0));
  Ok {| ModelFFM := ffm; ModelFM := fm; ModelBW := bw; AGE := ages; TIME := time |}.

(** The same boy with a tabulated intake of a single row and a step of one
    day: the fourth stage of the first step asks for the second row. *)
Definition boy_short_table : Child :=
  Child_matrix [5.0] [0] [2] [15.0] [3.0] [[1600]] 1 true.

(** One girl of eighteen years in the obese category. *)
Definition girl : Child :=
  Child_logistic [18.0] [1] [4] [50.0] [29.0] 2000 0 2000 1 1 1 1 true.

(** ** Invariants of the loop of [rk4] *)

(** All five arrays have [n] slots. *)
Definition allocated (s : Arrays) (n : nat) : Prop :=
  length (ModelFFM s) = n /\ length (ModelFM s) = n /\
  length (ModelBW s) = n /\ length (AGE s) = n /\ length (TIME s) = n.

(** Every step written so far holds body weight = FFM + FM, and no column is
    longer than the cohort. *)
Definition weight_inv (c : Child) (s : Arrays) (i : nat) : Prop :=
  forall k, (k < i)%nat ->
    exists f m, ModelFFM s !! k = Some f /\ ModelFM s !! k = Some m /\
                ModelBW s !! k = Some (f .+ m) /\
                (length f <= nind c)%nat /\ (length m <= nind c)%nat.

(** Every step written so far holds the elapsed days and the shifted ages. *)
Definition clock_inv (c : Child) (s : Arrays) (i : nat) : Prop :=
  forall k, (k < i)%nat ->
    TIME s !! k = Some (INR k * dt c) /\
    AGE s !! k = Some (age c +$ INR k * dt c / 365).

(** The arrays on entry to the loop: [n] zero-filled slots, slot 0
    overwritten with the initial state. *)
Definition initial_arrays (c : Child) (n : nat) : Arrays :=
  let zeros := replicate n (replicate (nind c) 0) in
  {| ModelFFM := <[0%nat := take (nind c) (FFM c)]> zeros;
     ModelFM := <[0%nat := take (nind c) (FM c)]> zeros;
     ModelBW := <[0%nat := take (nind c) (FFM c .+ FM c)]> zeros;
     AGE := <[0%nat := take (nind c) (age c)]> zeros;
     TIME := <[0%nat := 0.0]> (replicate n 0) |}.

(** The list that [rk4] returns for the final arrays. *)
Definition packaged (s : Arrays) : Trajectory :=
  {| Time := TIME s; Age := AGE s; Fat_Free_Mass := ModelFFM s;
     Fat_Mass := ModelFM s; Body_Weight := ModelBW s;
     Correct_Values := true; Model_Type := "Children" |}.

(** ** Further cohorts and relations used by the properties *)

(** The boy at the reference body composition of five years, fed a constant
    intake. *)
Definition fed (intake : R) : Child :=
  Child_logistic [5.0] [0] [2] [14.85] [3.10] intake 0 intake 1 1 1 1 true.

(** Step [i] of the arrays is the Runge-Kutta update of step [i - 1]: the
    four slopes are taken at the recorded state of step [i - 1], perturbed as
    the loop body perturbs it. *)
Definition updated_from_previous (c : Child) (s : Arrays) (i : nat) : Prop :=
  exists a f m k1 k2 k3 k4 k1_0 k1_1 k2_0 k2_1 k3_0 k3_1 k4_0 k4_1,
    AGE s !! (i - 1)%nat = Some a /\
    ModelFFM s !! (i - 1)%nat = Some f /\
    ModelFM s !! (i - 1)%nat = Some m /\
    dMass c a f m = Ok k1 /\
    k1 !! 0%nat = Some k1_0 /\ k1 !! 1%nat = Some k1_1 /\
    dMass c (a +$ 0.5 * dt c / 365.0) (f .+ 0.5 $* k1_0) (m .+ 0.5 $* k1_1) = Ok k2 /\
    k2 !! 0%nat = Some k2_0 /\ k2 !! 1%nat = Some k2_1 /\
    dMass c (a +$ 0.5 * dt c / 365.0) (f .+ 0.5 $* k2_0) (m .+ 0.5 $* k2_1) = Ok k3 /\
    k3 !! 0%nat = Some k3_0 /\ k3 !! 1%nat = Some k3_1 /\
    dMass c (a +$ dt c / 365.0) (f .+ k3_0) (m .+ k3_1) = Ok k4 /\
    k4 !! 0%nat = Some k4_0 /\ k4 !! 1%nat = Some k4_1 /\
    ModelFFM s !! i =
      Some (take (nind c)
              (f .+ dt c $* (k1_0 .+ 2.0 $* k2_0 .+ 2.0 $* k3_0 .+ k4_0) /$ 6.0)) /\
    ModelFM s !! i =
      Some (take (nind c)
              (m .+ dt c $* (k1_1 .+ 2.0 $* k2_1 .+ 2.0 $* k3_1 .+ k4_1) /$ 6.0)).

(** The recorded steps so far: step 0 is the initial state and every later
    step is the update of the one before. *)
Definition recurrence_inv (c : Child) (s : Arrays) (i : nat) : Prop :=
  ModelFFM s !! 0%nat = Some (take (nind c) (FFM c)) /\
  ModelFM s !! 0%nat = Some (take (nind c) (FM c)) /\
  forall k, (1 <= k < i)%nat -> updated_from_previous c s k.

(** In the tabulated variant, every step [k] written so far found row
    [k - 1], the row of its two midpoint stages. *)
Definition rows_inv (c : Child) (s : Arrays) (i : nat) : Prop :=
  clock_inv c s i /\
  forall k, (1 <= k < i)%nat -> (k <= length (EIntake c))%nat /\ (0 < nind c)%nat.

(** The boy with a tabulated intake of two rows and a step of one day. *)
Definition boy_table : Child :=
  Child_matrix [5.0] [0] [2] [15.0] [3.0] [[1600]; [1600]] 1 true.

(** The intake that [IntakeReference] gives the first individual of a cohort
    at age [t]. *)
Definition reference_intake (c : Child) (t : R) : R :=
  match IntakeReference c [t] with
  | Ok (x :: _) => x
  | _ => 0
  end.

(** The boy at the reference body composition, fed his reference intake of
    five years. *)
Definition fed_reference : Child := fed (reference_intake (boy 1) 5.0).

(** A boy whose BMI category is none of 1, 2, 3, 4. *)
Definition unclassified : Child :=
  Child_logistic [5.0] [0] [7] [15.0] [3.0] 1600 0 1600 1 1 1 1 true.

(** A girl of three years in BMI category [cat]. *)
Definition toddler (cat : R) : Child :=
  Child_logistic [3.0] [1] [cat] [11.5] [2.6] 1200 0 1200 1 1 1 1 true.

(** A boy whose logistic intake rises from 1200 kcal towards 2000 kcal. *)
Definition growing_appetite : Child :=
  Child_logistic [5.0] [0] [2] [15.0] [3.0] 2000 1 1200 1 1 1 1 true.
(** * Properties *)

(** ** The error monad and the checked accessors *)

Lemma bind_Ok_inv {T U : Type} (m : result T) (k : T -> result U) (u : U) :
  bind m k = Ok u -> exists x, m = Ok x /\ k x = Ok u.
Proof. destruct m as [x|e]; simpl; [eauto | discriminate]. Qed.

(** Peel the successful prefix of a chain of binds held in [H]. *)
Ltac bind_inv H :=
  let x := fresh "x" in
  let E := fresh "E" in
  apply bind_Ok_inv in H as (x & E & H).

Lemma get_Ok {T : Type} (l : list T) (i : nat) (x : T) :
  get l i = Ok x <-> l !! i = Some x.
Proof.
  unfold get. destruct (l !! i) as [y|]; split; intros E;
    try discriminate; injection E as ->; reflexivity.
Qed.

Lemma get_lt {T : Type} (l : list T) (i : nat) :
  (i < length l)%nat -> exists x, get l i = Ok x /\ l !! i = Some x.
Proof.
  intros Hi. destruct (lookup_lt_is_Some_2 l i Hi) as [x Hx].
  exists x. split; [now apply get_Ok | exact Hx].
Qed.

Lemma set_Ok_inv {T : Type} (l l' : list T) (i : nat) (x : T) :
  set l i x = Ok l' -> (i < length l)%nat /\ l' = <[i := x]> l.
Proof.
  unfold set. intros H. bind_inv H. apply get_Ok in E.
  split; [eapply lookup_lt_Some; eassumption | now injection H].
Qed.

Lemma set_lt {T : Type} (l : list T) (i : nat) (x : T) :
  (i < length l)%nat -> set l i x = Ok (<[i := x]> l).
Proof.
  intros Hi. unfold set. destruct (get_lt l i Hi) as (y & -> & _). reflexivity.
Qed.

Lemma new_matrix_Ok (len : nat) (n : Z) (M : NumericMatrix) :
  new_matrix len n = Ok M ->
  (0 <= n)%Z /\ M = replicate (Z.to_nat n) (replicate len 0).
Proof.
  unfold new_matrix. destruct (Z.ltb_spec n 0); [discriminate|].
  intros E; injection E as <-. split; [lia | reflexivity].
Qed.

Lemma new_vector_Ok (n : Z) (v : NumericVector) :
  new_vector n = Ok v -> (0 <= n)%Z /\ v = replicate (Z.to_nat n) 0.
Proof.
  unfold new_vector. destruct (Z.ltb_spec n 0); [discriminate|].
  intros E; injection E as <-. split; [lia | reflexivity].
Qed.

Lemma floor_quot_Ok (x y : R) (n : Z) :
  floor_quot x y = Ok n <-> y <> 0 /\ n = Int_part (x / y).
Proof.
  unfold floor_quot. destruct (Req_dec_T y 0) as [E|E]; split.
  - discriminate.
  - intros [Hy _]. contradiction.
  - intros H; injection H as <-. auto.
  - intros [_ ->]. reflexivity.
Qed.

(** [floor] of a quotient in [[0,1)] is 0. *)
Lemma Int_part_small (x y : R) : 0 <= x < y -> Int_part (x / y) = 0%Z.
Proof.
  intros [H0 H1]. symmetry. apply Int_part_spec.
  assert (Hy : 0 < y) by lra.
  assert (Hi : 0 < / y) by now apply Rinv_0_lt_compat.
  assert (Hyi : y * / y = 1) by (apply Rinv_r; lra).
  unfold Rdiv. simpl. nra.
Qed.

(** ** Sugar: sizes and entries *)

Lemma lookup_map {T U : Type} (f : T -> U) (l : list T) (i : nat) :
  map f l !! i = option_map f (l !! i).
Proof.
  revert i. induction l as [|x l IH]; intros [|i]; simpl; auto.
Qed.

Lemma lookup_map_Some {T U : Type} (f : T -> U) (l : list T) (i : nat) (y : U) :
  map f l !! i = Some y <-> exists x, l !! i = Some x /\ y = f x.
Proof.
  rewrite lookup_map. destruct (l !! i) as [x|]; simpl; split.
  - intros E; injection E as <-. eauto.
  - intros (x' & E & ->). now injection E as ->.
  - discriminate.
  - intros (x' & E & _). discriminate.
Qed.

Section Sizes.

Variables (a : R) (v w : NumericVector).

Lemma length_vadd : length (v .+ w) = (length v `min` length w)%nat.
Proof. apply length_zip_with. Qed.
Lemma length_vsub : length (v .- w) = (length v `min` length w)%nat.
Proof. apply length_zip_with. Qed.
Lemma length_vmul : length (v .* w) = (length v `min` length w)%nat.
Proof. apply length_zip_with. Qed.
Lemma length_vdiv : length (v ./ w) = (length v `min` length w)%nat.
Proof. apply length_zip_with. Qed.
Lemma length_vneg : length (vneg v) = length v.
Proof. apply length_map. Qed.
Lemma length_sadd : length (a $+ v) = length v.
Proof. apply length_map. Qed.
Lemma length_ssub : length (a $- v) = length v.
Proof. apply length_map. Qed.
Lemma length_smul : length (a $* v) = length v.
Proof. apply length_map. Qed.
Lemma length_sdiv : length (a $/ v) = length v.
Proof. apply length_map. Qed.
Lemma length_vadds : length (v +$ a) = length v.
Proof. apply length_map. Qed.
Lemma length_vsubs : length (v -$ a) = length v.
Proof. apply length_map. Qed.
Lemma length_vdivs : length (v /$ a) = length v.
Proof. apply length_map. Qed.
Lemma length_vexp : length (vexp v) = length v.
Proof. apply length_map. Qed.
Lemma length_vpow : length (vpow v a) = length v.
Proof. apply length_map. Qed.
Lemma length_indicator : length (indicator v a) = length v.
Proof. apply length_map. Qed.

End Sizes.

Create Rewrite HintDb vlen.
#[export] Hint Rewrite length_vadd length_vsub length_vmul length_vdiv length_vneg
  length_sadd length_ssub length_smul length_sdiv
  length_vadds length_vsubs length_vdivs
  length_vexp length_vpow length_indicator
  @length_take @length_replicate Nat.min_id : vlen.

(** Sizes of sugar expressions. *)
Ltac sizes := autorewrite with vlen; try lia.

Lemma take_all_le {T : Type} (n : nat) (l : list T) :
  (length l <= n)%nat -> take n l = l.
Proof. intros. now apply take_ge. Qed.

(** Equality of two minima of the same lengths: each side is below every
    length of the other. *)
Ltac min_le :=
  solve [ apply Nat.le_refl
        | etransitivity; [apply Nat.le_min_l|]; min_le
        | etransitivity; [apply Nat.le_min_r|]; min_le ].

Ltac min_eq :=
  apply Nat.le_antisymm; repeat apply Nat.min_glb; min_le.

(** Entry [i] of a sugar expression, read off the entries of its operands. *)
Section Entries.

Variables (a : R) (v w : NumericVector) (i : nat) (z : R).

Lemma lookup_vadd_inv : (v .+ w) !! i = Some z ->
  exists x y, v !! i = Some x /\ w !! i = Some y /\ z = x + y.
Proof. intros H. apply lookup_zip_with_Some in H as (x & y & -> & ? & ?). eauto. Qed.
Lemma lookup_vsub_inv : (v .- w) !! i = Some z ->
  exists x y, v !! i = Some x /\ w !! i = Some y /\ z = x - y.
Proof. intros H. apply lookup_zip_with_Some in H as (x & y & -> & ? & ?). eauto. Qed.
Lemma lookup_vmul_inv : (v .* w) !! i = Some z ->
  exists x y, v !! i = Some x /\ w !! i = Some y /\ z = x * y.
Proof. intros H. apply lookup_zip_with_Some in H as (x & y & -> & ? & ?). eauto. Qed.
Lemma lookup_vdiv_inv : (v ./ w) !! i = Some z ->
  exists x y, v !! i = Some x /\ w !! i = Some y /\ z = x / y.
Proof. intros H. apply lookup_zip_with_Some in H as (x & y & -> & ? & ?). eauto. Qed.
Lemma lookup_vneg_inv : vneg v !! i = Some z ->
  exists x, v !! i = Some x /\ z = - x.
Proof. apply lookup_map_Some. Qed.
Lemma lookup_sadd_inv : (a $+ v) !! i = Some z ->
  exists x, v !! i = Some x /\ z = a + x.
Proof. apply lookup_map_Some. Qed.
Lemma lookup_ssub_inv : (a $- v) !! i = Some z ->
  exists x, v !! i = Some x /\ z = a - x.
Proof. apply lookup_map_Some. Qed.
Lemma lookup_smul_inv : (a $* v) !! i = Some z ->
  exists x, v !! i = Some x /\ z = a * x.
Proof. apply lookup_map_Some. Qed.
Lemma lookup_sdiv_inv : (a $/ v) !! i = Some z ->
  exists x, v !! i = Some x /\ z = a / x.
Proof. apply lookup_map_Some. Qed.
Lemma lookup_vadds_inv : (v +$ a) !! i = Some z ->
  exists x, v !! i = Some x /\ z = x + a.
Proof. apply lookup_map_Some. Qed.
Lemma lookup_vsubs_inv : (v -$ a) !! i = Some z ->
  exists x, v !! i = Some x /\ z = x - a.
Proof. apply lookup_map_Some. Qed.
Lemma lookup_vdivs_inv : (v /$ a) !! i = Some z ->
  exists x, v !! i = Some x /\ z = x / a.
Proof. apply lookup_map_Some. Qed.
Lemma lookup_vexp_inv : vexp v !! i = Some z ->
  exists x, v !! i = Some x /\ z = exp x.
Proof. apply lookup_map_Some. Qed.
Lemma lookup_vpow_inv : vpow v a !! i = Some z ->
  exists x, v !! i = Some x /\ z = cpow x a.
Proof. apply lookup_map_Some. Qed.
Lemma lookup_indicator_inv : indicator v a !! i = Some z ->
  exists x, v !! i = Some x /\ z = if Req_dec_T x a then 1 else 0.
Proof. apply lookup_map_Some. Qed.

End Entries.

(** Take the entry in [H] apart down to the entries of the vectors that are
    not sugar expressions, then merge the entries read twice. *)
Ltac entries_step :=
  match goal with
  | H : (_ .+ _) !! _ = Some _ |- _ => apply lookup_vadd_inv in H as (? & ? & ? & ? & ->)
  | H : (_ .- _) !! _ = Some _ |- _ => apply lookup_vsub_inv in H as (? & ? & ? & ? & ->)
  | H : (_ .* _) !! _ = Some _ |- _ => apply lookup_vmul_inv in H as (? & ? & ? & ? & ->)
  | H : (_ ./ _) !! _ = Some _ |- _ => apply lookup_vdiv_inv in H as (? & ? & ? & ? & ->)
  | H : vneg _ !! _ = Some _ |- _ => apply lookup_vneg_inv in H as (? & ? & ->)
  | H : (_ $+ _) !! _ = Some _ |- _ => apply lookup_sadd_inv in H as (? & ? & ->)
  | H : (_ $- _) !! _ = Some _ |- _ => apply lookup_ssub_inv in H as (? & ? & ->)
  | H : (_ $* _) !! _ = Some _ |- _ => apply lookup_smul_inv in H as (? & ? & ->)
  | H : (_ $/ _) !! _ = Some _ |- _ => apply lookup_sdiv_inv in H as (? & ? & ->)
  | H : (_ +$ _) !! _ = Some _ |- _ => apply lookup_vadds_inv in H as (? & ? & ->)
  | H : (_ -$ _) !! _ = Some _ |- _ => apply lookup_vsubs_inv in H as (? & ? & ->)
  | H : (_ /$ _) !! _ = Some _ |- _ => apply lookup_vdivs_inv in H as (? & ? & ->)
  | H : vexp _ !! _ = Some _ |- _ => apply lookup_vexp_inv in H as (? & ? & ->)
  | H : vpow _ _ !! _ = Some _ |- _ => apply lookup_vpow_inv in H as (? & ? & ->)
  | H : indicator _ _ !! _ = Some _ |- _ => apply lookup_indicator_inv in H as (? & ? & ->)
  | H : take _ _ !! _ = Some _ |- _ => apply lookup_take_Some in H as [H ?]
  end.

Ltac merge_entries :=
  repeat match goal with
  | H1 : ?v !! ?i = Some ?x, H2 : ?v !! ?i = Some ?y |- _ =>
      let E := fresh in
      assert (E : y = x) by congruence; subst y; clear H2
  end.

Ltac entries := repeat entries_step; merge_entries.

(** ** The driver: what it returns without looking at the derivative *)

Lemma cohort_boy (step : R) : cohort (boy step).
Proof. repeat split. Qed.

(** C9.  Whatever the cohort, the intake variant and the horizon, the flag
    [Correct_Values] of the list returned by [rk4] is [true]: it is set
    before the loop and the loop never assigns it. *)
Theorem rk4_Correct_Values_true (c : Child) (days : R) (traj : Trajectory) :
  rk4 c days = Ok traj -> Correct_Values traj = true.
Proof.
  unfold rk4. intros H.
  do 12 bind_inv H.
  injection H as <-. reflexivity.
Qed.

(** With a horizon shorter than one step the driver allocates one column,
    fills it with the first [nind] entries of the inputs and stops. *)
Lemma rk4_single_step (c : Child) (days : R) :
  0 <= days < dt c ->
  rk4 c days =
    Ok {| Time := [0]; Age := [age c];
          Fat_Free_Mass := [take (nind c) (FFM c)];
          Fat_Mass := [take (nind c) (FM c)];
          Body_Weight := [take (nind c) (FFM c .+ FM c)];
          Correct_Values := true; Model_Type := "Children" |}.
Proof.
  intros Hd. unfold rk4.
  assert (Hq : floor_quot days (dt c) = Ok 0%Z).
  { apply floor_quot_Ok. split; [lra | symmetry; now apply Int_part_small]. }
  rewrite Hq. simpl.
  change (take (nind c) (age c)) with (take (length (age c)) (age c)).
  rewrite firstn_all.
  replace 0.0 with 0 by lra. reflexivity.
Qed.

(** C7.  For a cohort and a horizon [0 <= days < dt], [rk4] returns exactly
    one recorded step, the initial state: time 0, the initial ages, the
    initial FFM and FM, and FFM + FM as body weight. *)
Theorem rk4_horizon_below_step (c : Child) (days : R) :
  cohort c -> 0 <= days < dt c ->
  rk4 c days =
    Ok {| Time := [0]; Age := [age c];
          Fat_Free_Mass := [FFM c]; Fat_Mass := [FM c];
          Body_Weight := [FFM c .+ FM c];
          Correct_Values := true; Model_Type := "Children" |}.
Proof.
  intros (_ & _ & Hf & Hm) Hd.
  rewrite (rk4_single_step c days Hd).
  rewrite !take_ge; try reflexivity.
  - unfold vadd. rewrite length_zip_with. lia.
  - lia.
  - lia.
Qed.

Lemma rk4_horizon_below_step_witness :
  rk4 (boy 1) 0.5 =
    Ok {| Time := [0]; Age := [[5.0]];
          Fat_Free_Mass := [[15.0]]; Fat_Mass := [[3.0]];
          Body_Weight := [[15.0 + 3.0]];
          Correct_Values := true; Model_Type := "Children" |}.
Proof.
  apply (rk4_horizon_below_step (boy 1) 0.5 (cohort_boy 1)).
  simpl. lra.
Defined.


(** ** The loop body *)

(** What a successful pass of the body did to the arrays. *)
Lemma rk4_body_Ok_inv (c : Child) (i : nat) (s s' : Arrays) :
  rk4_body c i s = Ok s' ->
  exists a f m tp fi mi,
    AGE s !! (i - 1)%nat = Some a /\
    ModelFFM s !! (i - 1)%nat = Some f /\
    ModelFM s !! (i - 1)%nat = Some m /\
    TIME s !! (i - 1)%nat = Some tp /\
    (length fi <= nind c)%nat /\ (length mi <= nind c)%nat /\
    (i < length (ModelFFM s))%nat /\ (i < length (ModelFM s))%nat /\
    (i < length (ModelBW s))%nat /\ (i < length (AGE s))%nat /\
    (i < length (TIME s))%nat /\
    s' = {| ModelFFM := <[i := fi]> (ModelFFM s);
            ModelFM := <[i := mi]> (ModelFM s);
            ModelBW := <[i := fi .+ mi]> (ModelBW s);
            AGE := <[i := take (nind c) (a +$ dt c / 365.0)]> (AGE s);
            TIME := <[i := tp + dt c]> (TIME s) |}.
Proof.
  unfold rk4_body. intros H.
  bind_inv H. rename x into a, E into Ea. apply get_Ok in Ea.
  bind_inv H. rename x into f, E into Ef. apply get_Ok in Ef.
  bind_inv H. rename x into m, E into Em. apply get_Ok in Em.
  do 12 bind_inv H.
  bind_inv H. rename x11 into ffm, E11 into Effm.
  apply set_Ok_inv in Effm as [Hlf ->].
  bind_inv H. rename x11 into fm, E11 into Efm.
  apply set_Ok_inv in Efm as [Hlm ->].
  bind_inv H. rename x11 into fi, E11 into Efi. apply get_Ok in Efi.
  bind_inv H. rename x11 into mi, E11 into Emi. apply get_Ok in Emi.
  rewrite list_lookup_insert_eq in Efi by assumption.
  rewrite list_lookup_insert_eq in Emi by assumption.
  injection Efi as Efi. injection Emi as Emi.
  assert (Hfi : (length fi <= nind c)%nat) by (subst fi; sizes).
  assert (Hmi : (length mi <= nind c)%nat) by (subst mi; sizes).
  bind_inv H. rename x11 into bw, E11 into Ebw.
  apply set_Ok_inv in Ebw as [Hlb ->].
  bind_inv H. rename x11 into tp, E11 into Etp. apply get_Ok in Etp.
  bind_inv H. rename x11 into time, E11 into Etime.
  apply set_Ok_inv in Etime as [Hlt ->].
  bind_inv H. rename x11 into ap, E11 into Eap. apply get_Ok in Eap.
  bind_inv H. rename x11 into ages, E11 into Eages.
  apply set_Ok_inv in Eages as [Hla ->].
  injection H as <-.
  assert (ap = a) by congruence. subst ap.
  exists a, f, m, tp, fi, mi.
  repeat (split; [assumption|]).
  rewrite (take_all_le (nind c) (fi .+ mi)) by sizes.
  rewrite Efi, Emi. reflexivity.
Qed.

(** The four stages of a successful pass and the update built from them:
    the time of a stage is shifted by [dt], the state of a stage by the
    previous slope as it is. *)
Lemma rk4_body_stages (c : Child) (i : nat) (s s' : Arrays) :
  rk4_body c i s = Ok s' ->
  exists a f m k1 k2 k3 k4 k1_0 k1_1 k2_0 k2_1 k3_0 k3_1 k4_0 k4_1,
    AGE s !! (i - 1)%nat = Some a /\
    ModelFFM s !! (i - 1)%nat = Some f /\
    ModelFM s !! (i - 1)%nat = Some m /\
    dMass c a f m = Ok k1 /\
    k1 !! 0%nat = Some k1_0 /\ k1 !! 1%nat = Some k1_1 /\
    dMass c (a +$ 0.5 * dt c / 365.0) (f .+ 0.5 $* k1_0) (m .+ 0.5 $* k1_1) = Ok k2 /\
    k2 !! 0%nat = Some k2_0 /\ k2 !! 1%nat = Some k2_1 /\
    dMass c (a +$ 0.5 * dt c / 365.0) (f .+ 0.5 $* k2_0) (m .+ 0.5 $* k2_1) = Ok k3 /\
    k3 !! 0%nat = Some k3_0 /\ k3 !! 1%nat = Some k3_1 /\
    dMass c (a +$ dt c / 365.0) (f .+ k3_0) (m .+ k3_1) = Ok k4 /\
    k4 !! 0%nat = Some k4_0 /\ k4 !! 1%nat = Some k4_1 /\
    ModelFFM s' !! i =
      Some (take (nind c)
              (f .+ dt c $* (k1_0 .+ 2.0 $* k2_0 .+ 2.0 $* k3_0 .+ k4_0) /$ 6.0)) /\
    ModelFM s' !! i =
      Some (take (nind c)
              (m .+ dt c $* (k1_1 .+ 2.0 $* k2_1 .+ 2.0 $* k3_1 .+ k4_1) /$ 6.0)).
Proof.
  unfold rk4_body. intros H.
  bind_inv H. rename x into a, E into Ea. apply get_Ok in Ea.
  bind_inv H. rename x into f, E into Ef. apply get_Ok in Ef.
  bind_inv H. rename x into m, E into Em. apply get_Ok in Em.
  bind_inv H. rename x into k1, E into E1.
  bind_inv H. rename x into k1_0, E into E10. apply get_Ok in E10.
  bind_inv H. rename x into k1_1, E into E11. apply get_Ok in E11.
  bind_inv H. rename x into k2, E into E2.
  bind_inv H. rename x into k2_0, E into E20. apply get_Ok in E20.
  bind_inv H. rename x into k2_1, E into E21. apply get_Ok in E21.
  bind_inv H. rename x into k3, E into E3.
  bind_inv H. rename x into k3_0, E into E30. apply get_Ok in E30.
  bind_inv H. rename x into k3_1, E into E31. apply get_Ok in E31.
  bind_inv H. rename x into k4, E into E4.
  bind_inv H. rename x into k4_0, E into E40. apply get_Ok in E40.
  bind_inv H. rename x into k4_1, E into E41. apply get_Ok in E41.
  bind_inv H. rename x into ffm, E into Effm. apply set_Ok_inv in Effm as [Lf ->].
  bind_inv H. rename x into fm, E into Efm. apply set_Ok_inv in Efm as [Lm ->].
  do 7 bind_inv H. injection H as <-.
  exists a, f, m, k1, k2, k3, k4, k1_0, k1_1, k2_0, k2_1, k3_0, k3_1, k4_0, k4_1.
  cbn [ModelFFM ModelFM].
  rewrite !list_lookup_insert_eq by assumption.
  repeat (split; [assumption|]). split; reflexivity.
Qed.

Lemma rk4_body_allocated (c : Child) (i n : nat) (s s' : Arrays) :
  rk4_body c i s = Ok s' -> allocated s n -> allocated s' n /\ (i < n)%nat.
Proof.
  intros H (H1 & H2 & H3 & H4 & H5).
  apply rk4_body_Ok_inv in H
    as (a & f & m & tp & fi & mi & _ & _ & _ & _ & _ & _ & L1 & _ & _ & _ & _ & ->).
  unfold allocated; cbn [ModelFFM ModelFM ModelBW AGE TIME].
  rewrite !length_insert. repeat split; lia.
Qed.

Lemma rk4_body_weight (c : Child) (i : nat) (s s' : Arrays) :
  rk4_body c i s = Ok s' -> weight_inv c s i -> weight_inv c s' (S i).
Proof.
  intros H Inv.
  apply rk4_body_Ok_inv in H
    as (a & f & m & tp & fi & mi & _ & _ & _ & _ & Hfi & Hmi & L1 & L2 & L3 & _ & _ & ->).
  intros k Hk. cbn [ModelFFM ModelFM ModelBW AGE TIME].
  destruct (decide (k = i)) as [->|Hne].
  - exists fi, mi. rewrite !list_lookup_insert_eq by assumption. auto.
  - rewrite !list_lookup_insert_ne by congruence. apply Inv. lia.
Qed.

Lemma rk4_body_clock (c : Child) (i : nat) (s s' : Arrays) :
  (1 <= i)%nat ->
  rk4_body c i s = Ok s' -> clock_inv c s i -> clock_inv c s' (S i).
Proof.
  intros Hi H Inv.
  apply rk4_body_Ok_inv in H
    as (a & f & m & tp & fi & mi & Ha & _ & _ & Htp & _ & _ & _ & _ & _ & L4 & L5 & ->).
  intros k Hk. cbn [ModelFFM ModelFM ModelBW AGE TIME].
  destruct (decide (k = i)) as [->|Hne].
  - rewrite !list_lookup_insert_eq by assumption.
    destruct (Inv (i - 1)%nat ltac:(lia)) as [Et Ea].
    rewrite Htp in Et. injection Et as ->.
    rewrite Ha in Ea. injection Ea as ->.
    replace i with (S (i - 1)) at 2 4 by lia.
    rewrite S_INR. split.
    + f_equal. lra.
    + f_equal. rewrite take_all_le by (unfold nind; sizes).
      unfold vadds. rewrite map_map. apply map_ext. intros x. lra.
  - rewrite !list_lookup_insert_ne by congruence. apply Inv. lia.
Qed.

(** ** The loop *)

Lemma rk4_loop_inv (c : Child) (Inv : Arrays -> nat -> Prop) :
  (forall i s s', (1 <= i)%nat -> rk4_body c i s = Ok s' -> Inv s i -> Inv s' (S i)) ->
  forall n i s s',
    (1 <= i)%nat -> rk4_loop c n i s = Ok s' -> Inv s i -> Inv s' (i + n)%nat.
Proof.
  intros Step n. induction n as [|n IH]; intros i s s' Hi H HI; simpl in H.
  - injection H as <-. now rewrite Nat.add_0_r.
  - bind_inv H. replace (i + S n)%nat with (S i + n)%nat by lia.
    apply (IH (S i) x); [lia | assumption |].
    now apply (Step i s).
Qed.

Lemma rk4_loop_allocated (c : Child) (n i N : nat) (s s' : Arrays) :
  rk4_loop c n i s = Ok s' -> allocated s N -> allocated s' N.
Proof.
  revert i s. induction n as [|n IH]; intros i s H HA; simpl in H.
  - now injection H as <-.
  - bind_inv H. destruct (rk4_body_allocated c i N s x E HA) as [HA' Hlt].
    exact (IH (S i) x H HA').
Qed.

(** ** A whole run *)

Lemma vadds_0 (v : NumericVector) (a : R) : a = 0 -> v +$ a = v.
Proof.
  intros ->. unfold vadds. rewrite <- (map_id v) at 2.
  apply map_ext. intros x. lra.
Qed.

(** [rk4] is the loop run on [initial_arrays], as soon as the number of steps
    is not negative. *)
Lemma rk4_unfold (c : Child) (days : R) (nsims : Z) :
  floor_quot days (dt c) = Ok nsims -> (0 <= nsims)%Z ->
  rk4 c days =
    do s <- rk4_loop c (Z.to_nat nsims) 1 (initial_arrays c (S (Z.to_nat nsims)));
    Ok (packaged s).
Proof.
  intros Hq Hns. unfold rk4. rewrite Hq. cbn [bind].
  unfold new_matrix, new_vector.
  destruct (Z.ltb_spec (nsims + 1) 0) as [Hneg|_]; [lia|]. cbn [bind].
  replace (Z.to_nat (nsims + 1)) with (S (Z.to_nat nsims)) by lia.
  reflexivity.
Qed.

(** A run with a negative number of steps fails. *)
Lemma rk4_negative (c : Child) (days : R) (nsims : Z) :
  floor_quot days (dt c) = Ok nsims -> (nsims < 0)%Z ->
  exists e, rk4 c days = Err e.
Proof.
  intros Hq Hns. unfold rk4. rewrite Hq. cbn [bind].
  unfold new_matrix, new_vector.
  destruct (Z.ltb_spec (nsims + 1) 0) as [Hneg|Hge]; [eauto|]. cbn [bind].
  assert (nsims = (-1)%Z) as -> by lia. simpl. eauto.
Qed.

Lemma initial_allocated (c : Child) (n : nat) : allocated (initial_arrays c n) n.
Proof.
  unfold allocated, initial_arrays. cbn [ModelFFM ModelFM ModelBW AGE TIME].
  rewrite !length_insert, !length_replicate. auto.
Qed.

Lemma initial_weight_inv (c : Child) (n : nat) :
  weight_inv c (initial_arrays c (S n)) 1.
Proof.
  intros k Hk. assert (k = 0%nat) as -> by lia.
  exists (take (nind c) (FFM c)), (take (nind c) (FM c)).
  simpl. repeat split.
  - unfold vadd. now rewrite zip_with_take.
  - sizes.
  - sizes.
Qed.

Lemma initial_clock_inv (c : Child) (n : nat) :
  clock_inv c (initial_arrays c (S n)) 1.
Proof.
  intros k Hk. assert (k = 0%nat) as -> by lia. simpl. split.
  - f_equal. lra.
  - f_equal. rewrite vadds_0 by lra. apply firstn_all.
Qed.

(** A successful run is the loop started on arrays of [nsims + 1] slots whose
    slot 0 holds the initial state. *)
Lemma rk4_Ok_inv (c : Child) (days : R) (traj : Trajectory) :
  rk4 c days = Ok traj ->
  exists nsims s,
    floor_quot days (dt c) = Ok nsims /\ (0 <= nsims)%Z /\
    rk4_loop c (Z.to_nat nsims) 1 (initial_arrays c (S (Z.to_nat nsims))) = Ok s /\
    traj = packaged s.
Proof.
  intros H.
  destruct (floor_quot days (dt c)) as [nsims|e] eqn:Hq;
    [|unfold rk4 in H; rewrite Hq in H; discriminate].
  destruct (Z.ltb_spec nsims 0) as [Hneg|Hns].
  - destruct (rk4_negative c days nsims Hq Hneg) as [e He]. congruence.
  - rewrite (rk4_unfold c days nsims Hq Hns) in H.
    bind_inv H. injection H as <-. exists nsims, x. auto.
Qed.

(** C3.  In every run of [rk4], at every recorded step [0..nsims] the recorded
    body weight is the sum of the recorded fat free mass and the recorded fat
    mass, individual by individual. *)
Theorem rk4_body_weight_is_sum (c : Child) (days : R) (traj : Trajectory) :
  rk4 c days = Ok traj ->
  exists nsims,
    floor_quot days (dt c) = Ok nsims /\ (0 <= nsims)%Z /\
    length (Body_Weight traj) = S (Z.to_nat nsims) /\
    forall i, (i <= Z.to_nat nsims)%nat ->
      exists f m bw,
        Fat_Free_Mass traj !! i = Some f /\ Fat_Mass traj !! i = Some m /\
        Body_Weight traj !! i = Some bw /\ bw = f .+ m /\
        forall j x y, f !! j = Some x -> m !! j = Some y -> bw !! j = Some (x + y).
Proof.
  intros H.
  apply rk4_Ok_inv in H as (nsims & s & Hq & Hns & Hloop & ->).
  exists nsims. split; [assumption|]. split; [assumption|].
  pose proof (rk4_loop_allocated c _ _ _ _ _ Hloop (initial_allocated c _))
    as (_ & _ & Lbw & _).
  split; [exact Lbw|]. unfold packaged.
  pose proof (rk4_loop_inv c (weight_inv c)
                (fun i s s' _ => rk4_body_weight c i s s')
                _ 1%nat _ s (Nat.le_refl 1) Hloop (initial_weight_inv c _)) as Inv.
  intros i Hi. destruct (Inv i ltac:(lia)) as (f & m & Hf & Hm & Hb & _).
  exists f, m, (f .+ m). cbn [Fat_Free_Mass Fat_Mass Body_Weight].
  repeat (split; [assumption || reflexivity|]).
  intros j x y Hx Hy. unfold vadd. rewrite lookup_zip_with, Hx, Hy. reflexivity.
Qed.

(** C6.  In every run of [rk4] with [dt > 0] the recorded times are
    0, dt, 2 dt, ..., nsims dt, strictly increasing, and the recorded age of
    every individual at step [i] is the initial age plus [i * dt / 365]. *)
Theorem rk4_clock (c : Child) (days : R) (traj : Trajectory) :
  0 < dt c ->
  rk4 c days = Ok traj ->
  exists nsims,
    floor_quot days (dt c) = Ok nsims /\ (0 <= nsims)%Z /\
    Time traj = map (fun k => INR k * dt c) (seq 0 (S (Z.to_nat nsims))) /\
    (forall i j ti tj, (i < j)%nat ->
       Time traj !! i = Some ti -> Time traj !! j = Some tj -> ti < tj) /\
    forall i, (i <= Z.to_nat nsims)%nat ->
      exists a, Age traj !! i = Some a /\ length a = nind c /\
        forall j a0, age c !! j = Some a0 ->
          a !! j = Some (a0 + INR i * dt c / 365).
Proof.
  intros Hdt H.
  apply rk4_Ok_inv in H as (nsims & s & Hq & Hns & Hloop & ->).
  exists nsims. split; [assumption|]. split; [assumption|].
  pose proof (rk4_loop_allocated c _ _ _ _ _ Hloop (initial_allocated c _))
    as (_ & _ & _ & _ & Lt).
  pose proof (rk4_loop_inv c (clock_inv c) (rk4_body_clock c)
                _ 1%nat _ s (Nat.le_refl 1) Hloop (initial_clock_inv c _)) as Inv.
  unfold packaged; cbn [Time Age].
  assert (Htime : TIME s = map (fun k => INR k * dt c) (seq 0 (S (Z.to_nat nsims)))).
  { apply list_eq. intros k. rewrite lookup_map.
    destruct (decide (k < S (Z.to_nat nsims))%nat) as [Hk|Hk].
    - rewrite lookup_seq_lt by assumption. simpl.
      now destruct (Inv k ltac:(lia)) as [-> _].
    - rewrite lookup_seq_ge by lia. simpl.
      apply lookup_ge_None. lia. }
  split; [exact Htime|]. split.
  - rewrite Htime. intros i j ti tj Hij Hi Hj.
    apply lookup_map_Some in Hi as (ki & Hi & ->).
    apply lookup_map_Some in Hj as (kj & Hj & ->).
    apply lookup_seq in Hi as [-> _]. apply lookup_seq in Hj as [-> _].
    simpl. apply Rmult_lt_compat_r; [assumption | now apply lt_INR].
  - intros i Hi. destruct (Inv i ltac:(lia)) as [_ Ha].
    eexists. split; [exact Ha|]. split; [unfold nind; sizes|].
    intros j a0 Hj. unfold vadds. rewrite lookup_map, Hj. reflexivity.
Qed.

(** ** Reference curves *)

Lemma collect_Ok_inv {T : Type} (f : nat -> result T) (idx : list nat) (v : list T) :
  collect f idx = Ok v ->
  length v = length idx /\
  forall k i, idx !! k = Some i -> exists x, f i = Ok x /\ v !! k = Some x.
Proof.
  revert v. induction idx as [|i0 idx IH]; intros v H; simpl in H.
  - injection H as <-. split; [reflexivity|]. intros k i Hk. discriminate.
  - bind_inv H. bind_inv H. injection H as <-.
    destruct (IH x0 E0) as [Hlen Hall]. split; [simpl; now rewrite Hlen|].
    intros [|k] i Hk; simpl in Hk.
    + injection Hk as <-. eauto.
    + apply (Hall k i Hk).
Qed.

Lemma collect_total {T : Type} (f : nat -> result T) (idx : list nat) :
  (forall i, i ∈ idx -> exists x, f i = Ok x) ->
  exists v, collect f idx = Ok v.
Proof.
  induction idx as [|i0 idx IH]; intros Hf; simpl.
  - eauto.
  - destruct (Hf i0) as [x ->]; [left|]. simpl.
    destruct IH as [v ->]; [intros i Hi; apply Hf; now right|].
    simpl. eauto.
Qed.

(** Below 18 years the upper row never passes row 16, so clamping at 17 (the
    code) and at 16 (the specification) select the same row. *)
Lemma upper_row_clamp (ti : R) :
  ~ ti >= 18 ->
  let j := (Z.max (Int_part ti) 2 - 2)%Z in
  Z.min (j + 1) 17 = Z.min (j + 1) 16 /\ (0 <= j <= 15)%Z.
Proof.
  intros Hlt j.
  destruct (base_Int_part ti) as [Hle _].
  assert (Hi : IZR (Int_part ti) < 18) by lra.
  apply lt_IZR in Hi. subst j. clear Hle. revert Hi. generalize (Int_part ti). intros z Hz. lia.
Qed.

Lemma reference_at_interpolated (ref : NumericMatrix)
      (t : NumericVector) (i : nat) (ti : R) :
  t !! i = Some ti ->
  reference_at ref t i = Ok (interpolated ref ti i).
Proof.
  intros Ht. unfold reference_at, interpolated.
  apply get_Ok in Ht. rewrite Ht. simpl.
  replace 18.0 with 18 by lra.
  destruct (Rge_dec ti 18) as [Hge|Hlt]; [reflexivity|].
  destruct (upper_row_clamp ti Hlt) as [-> _]. reflexivity.
Qed.

Lemma reference_column (c : Child) (ref : NumericMatrix) (t : NumericVector) :
  (nind c <= length t)%nat ->
  exists v, collect (reference_at ref t) (seq 0 (nind c)) = Ok v /\
    length v = nind c /\
    forall i ti, (i < nind c)%nat -> t !! i = Some ti ->
      v !! i = Some (interpolated ref ti i).
Proof.
  intros Hlen.
  destruct (collect_total (reference_at ref t) (seq 0 (nind c))) as [v Hv].
  { intros i Hi. apply elem_of_seq in Hi.
    destruct (lookup_lt_is_Some_2 t i ltac:(lia)) as [ti Hti].
    rewrite (reference_at_interpolated ref t i ti Hti). eauto. }
  exists v. split; [exact Hv|].
  destruct (collect_Ok_inv _ _ _ Hv) as [Hl Hall].
  rewrite length_seq in Hl. split; [exact Hl|].
  intros i ti Hi Hti.
  destruct (Hall i i) as (x & Hx & Hvi).
  { now apply lookup_seq. }
  rewrite (reference_at_interpolated ref t i ti Hti) in Hx.
  now injection Hx as <-.
Qed.

Lemma interpolated_at_2 (ref : NumericMatrix) (i : nat) :
  interpolated ref 2 i = elem ref 0 i.
Proof.
  unfold interpolated.
  destruct (Rge_dec 2 18) as [Hge|_]; [lra|].
  assert (E : Int_part 2 = 2%Z) by (symmetry; apply Int_part_spec; lra).
  rewrite E. change (Z.max 2 2 - 2)%Z with 0%Z. cbv zeta. ring.
Qed.

Lemma interpolated_from_18 (ref : NumericMatrix) (ti : R) (i : nat) :
  ti >= 18 -> interpolated ref ti i = elem ref 16 i.
Proof.
  intros H. unfold interpolated. destruct (Rge_dec ti 18); [reflexivity | contradiction].
Qed.

(** C2.  [FFMReference] and [FMReference] return, for individual [i] of an
    age vector [t], row 16 of their table when [t(i) >= 18] and otherwise
    [row j + (t(i) - floor t(i)) * (row jHigh - row j)] with
    [j = max(floor t(i), 2) - 2] and [jHigh = min(j + 1, 16)]; at [t(i) = 2]
    this is row 0 and from 18 on it is row 16. *)
Theorem reference_curves_interpolate (c : Child) (t : NumericVector) :
  (nind c <= length t)%nat ->
  exists vf vm,
    FFMReference c t = Ok vf /\ FMReference c t = Ok vm /\
    length vf = nind c /\ length vm = nind c /\
    forall i ti, (i < nind c)%nat -> t !! i = Some ti ->
      vf !! i = Some (interpolated (ffm_ref c) ti i) /\
      vm !! i = Some (interpolated (fm_ref c) ti i) /\
      (ti = 2 -> vf !! i = Some (elem (ffm_ref c) 0 i) /\
                 vm !! i = Some (elem (fm_ref c) 0 i)) /\
      (ti >= 18 -> vf !! i = Some (elem (ffm_ref c) 16 i) /\
                   vm !! i = Some (elem (fm_ref c) 16 i)).
Proof.
  intros Hlen.
  destruct (reference_column c (ffm_ref c) t Hlen) as (vf & Hvf & Lf & Hf).
  destruct (reference_column c (fm_ref c) t Hlen) as (vm & Hvm & Lm & Hm).
  exists vf, vm. repeat (split; [assumption|]).
  intros i ti Hi Hti.
  specialize (Hf i ti Hi Hti). specialize (Hm i ti Hi Hti).
  repeat split; try assumption.
  - subst ti. now rewrite Hf, interpolated_at_2.
  - subst ti. now rewrite Hm, interpolated_at_2.
  - now rewrite Hf, interpolated_from_18.
  - now rewrite Hm, interpolated_from_18.
Qed.

(** ** Energy partition *)

(** The fraction [C / (C + m)] for a positive [C] and a mass [m >= 0]. *)
Lemma fraction_bounds (C m : R) : 0 < C -> 0 <= m -> 0 < C / (C + m) <= 1.
Proof.
  intros HC Hm.
  assert (Hi : 0 < / (C + m)) by (apply Rinv_0_lt_compat; lra).
  assert (Hu : (C + m) * / (C + m) = 1) by (apply Rinv_r; lra).
  unfold Rdiv. split; nra.
Qed.

(** C10.  For an individual with [FFM >= 0] and [FM >= 0] the constant
    [C = 10.4 * (4.3 * FFM + 837) / 9400] of [cP] is positive, the
    denominator [C + FM] is positive, and the fraction returned by [cP] lies
    in (0, 1]. *)
Theorem cP_fraction_bounds (FFM FM : NumericVector) (i : nat) (f m : R) :
  FFM !! i = Some f -> FM !! i = Some m -> 0 <= f -> 0 <= m ->
  let C := 10.4 * (4.3 * f + 837) / 9400 in
  0 < C /\ 0 < C + m /\
  cP_C FFM !! i = Some C /\
  (cP_C FFM .+ FM) !! i = Some (C + m) /\
  cP FFM FM !! i = Some (C / (C + m)) /\
  0 < C / (C + m) <= 1.
Proof.
  intros Hf Hm Hf0 Hm0 C.
  assert (HC : 0 < C) by (unfold C; lra).
  assert (HCe : cP_C FFM !! i = Some C).
  { unfold cP_C, cRhoFFM, vdivs, smul, vadds, rhoFM.
    rewrite !lookup_map, Hf. simpl. f_equal. unfold C. lra. }
  assert (Hd : (cP_C FFM .+ FM) !! i = Some (C + m)).
  { unfold vadd. now rewrite lookup_zip_with, HCe, Hm. }
  repeat split; try assumption; try lra.
  - unfold cP, vdiv. cbv zeta. now rewrite lookup_zip_with, HCe, Hd.
  - now apply fraction_bounds.
  - now apply fraction_bounds.
Qed.

(** ** Intake *)

Lemma cpow_pos_base (x y : R) : 0 < x -> cpow x y = Rpower x y.
Proof. intros Hx. unfold cpow. destruct (Rlt_dec 0 x); [reflexivity | contradiction]. Qed.

Lemma Intake_logistic (c : Child) (t : NumericVector) :
  generalized_logistic c = true ->
  Intake c t =
    Ok (map (fun ti => A_logistic c + (K_logistic c - A_logistic c) /
                         cpow (C_logistic c + Q_logistic c * exp (- B_logistic c * ti))
                              (1 / nu_logistic c)) t).
Proof.
  intros Hg. unfold Intake. rewrite Hg. f_equal.
  unfold sadd, sdiv, vpow, smul, vexp. now rewrite !map_map.
Qed.

(** C8.  In the generalized-logistic variant with [Q = 0], [C > 0] and
    [nu <> 0], the intake of every individual at every age is the constant
    [A + (K - A) / C^(1/nu)]. *)
Theorem Intake_logistic_constant (c : Child) (t : NumericVector) :
  generalized_logistic c = true ->
  Q_logistic c = 0 -> 0 < C_logistic c -> nu_logistic c <> 0 ->
  exists v, Intake c t = Ok v /\ length v = length t /\
    forall i, (i < length t)%nat ->
      v !! i = Some (A_logistic c + (K_logistic c - A_logistic c) /
                       Rpower (C_logistic c) (1 / nu_logistic c)).
Proof.
  intros Hg HQ HC Hnu. rewrite (Intake_logistic c t Hg).
  eexists. split; [reflexivity|]. split; [apply length_map|].
  intros i Hi. destruct (lookup_lt_is_Some_2 t i Hi) as [ti Hti].
  rewrite lookup_map, Hti. simpl. f_equal.
  rewrite HQ, Rmult_0_l, Rplus_0_r.
  now rewrite cpow_pos_base.
Qed.

Lemma getZ_Ok {T : Type} (l : list T) (z : Z) (x : T) :
  getZ l z = Ok x <-> (0 <= z < Z.of_nat (length l))%Z /\ l !! Z.to_nat z = Some x.
Proof.
  unfold getZ. destruct (Z.ltb_spec z 0) as [Hneg|Hpos].
  - split; [discriminate | lia].
  - rewrite get_Ok. split.
    + intros H. split; [|exact H]. apply lookup_lt_Some in H. lia.
    + now intros [_ H].
Qed.

Lemma getZ_out {T : Type} (l : list T) (z : Z) :
  ~ (0 <= z < Z.of_nat (length l))%Z -> getZ l z = Err index_out_of_bounds.
Proof.
  intros H. unfold getZ. destruct (Z.ltb_spec z 0) as [Hneg|Hpos]; [reflexivity|].
  unfold get. rewrite (proj2 (lookup_ge_None l (Z.to_nat z))); [reflexivity | lia].
Qed.

(** C5.  In the tabulated variant the row index
    [floor(365 * (t(0) - age(0)) / dt)] is compared with the rows of the
    intake matrix by the row accessor before any entry is read: a result is
    returned only for an index inside the matrix, and it is that row; for an
    index outside, [index_out_of_bounds] is reported to the caller. *)
Theorem Intake_table_checked (c : Child) (t : NumericVector) :
  generalized_logistic c = false ->
  (forall row, Intake c t = Ok row ->
     exists t0 age0,
       t !! 0%nat = Some t0 /\ age c !! 0%nat = Some age0 /\ dt c <> 0 /\
       let timeval := Int_part (365 * (t0 - age0) / dt c) in
       (0 <= timeval < Z.of_nat (length (EIntake c)))%Z /\
       EIntake c !! Z.to_nat timeval = Some row) /\
  (forall t0 age0,
     t !! 0%nat = Some t0 -> age c !! 0%nat = Some age0 -> dt c <> 0 ->
     let timeval := Int_part (365 * (t0 - age0) / dt c) in
     ~ (0 <= timeval < Z.of_nat (length (EIntake c)))%Z ->
     Intake c t = Err index_out_of_bounds).
Proof.
  intros Hg. unfold Intake. rewrite Hg. replace 365.0 with 365 by lra. split.
  - intros row H.
    bind_inv H. rename x into t0. apply get_Ok in E.
    bind_inv H. rename x into age0. apply get_Ok in E0.
    bind_inv H. apply floor_quot_Ok in E1 as [Hdt ->].
    apply getZ_Ok in H as [Hin Hrow].
    exists t0, age0. auto.
  - intros t0 age0 Ht Ha Hdt Hout.
    apply get_Ok in Ht. apply get_Ok in Ha. rewrite Ht, Ha. simpl.
    rewrite (proj2 (floor_quot_Ok _ _ _)) by (split; [assumption | reflexivity]).
    simpl. now apply getZ_out.
Qed.

(** ** Expenditure *)

(** The algebra behind the division: if [E * (1 + w) = base + w * I + r] then
    [E = base + w * (I - E) + r]. *)
Lemma closure_algebra (base w I r : R) :
  1 + w <> 0 ->
  let E := (base + w * I + r) / (1 + w) in
  E = base + w * (I - E) + r.
Proof. intros Hw E. unfold E. field. exact Hw. Qed.

(** C4.  [Expenditure] returns one value for every individual that has an
    entry in all the vectors it combines, and that value [E] closes the
    energy balance: with a nonzero denominator
    [1 + 230/rhoFFM*p + 180/rhoFM*(1-p)],
    [E = K + (22.4+delta)*FFM + (4.5+delta)*FM + 0.24*(Intake - IntakeReference)
         + (230/rhoFFM*p + 180/rhoFM*(1-p))*(Intake - E)
         + growth*(230/rhoFFM - 180/rhoFM)]. *)
Theorem Expenditure_closes_balance (c : Child) (t FFM FM Ev : NumericVector) :
  Expenditure c t FFM FM = Ok Ev ->
  exists Iref Ival,
    IntakeReference c t = Ok Iref /\ Intake c t = Ok Ival /\
    length Ev = (length (sex c) `min` (length t `min` (length FFM `min`
                 (length FM `min` (length Ival `min` length Iref)))))%nat /\
    forall i, (i < length Ev)%nat ->
      exists E k delta f m I Ir p rho g,
        Ev !! i = Some E /\
        K c !! i = Some k /\ Delta c t !! i = Some delta /\
        FFM !! i = Some f /\ FM !! i = Some m /\
        Ival !! i = Some I /\ Iref !! i = Some Ir /\
        cP FFM FM !! i = Some p /\ cRhoFFM FFM !! i = Some rho /\
        Growth_dynamic c t !! i = Some g /\
        (1 + 230 / rho * p + 180 / rhoFM * (1 - p) <> 0 ->
         E = k + (22.4 + delta) * f + (4.5 + delta) * m + 0.24 * (I - Ir) +
             (230 / rho * p + 180 / rhoFM * (1 - p)) * (I - E) +
             g * (230 / rho - 180 / rhoFM)).
Proof.
  unfold Expenditure. intros H.
  bind_inv H. rename x into Iref, E into HIref.
  bind_inv H. rename x into Ival, E into HIval.
  injection H as <-.
  exists Iref, Ival. split; [assumption|]. split; [assumption|].
  split.
  { unfold K, Delta, deltamax, cP, cP_C, cRhoFFM, Growth_dynamic, general_ode,
      A, B, D, tA, tB, tD, tauA, tauB, tauD.
    cbv zeta. autorewrite with vlen. min_eq. }
  intros i Hi.
  destruct (lookup_lt_is_Some_2 _ i Hi) as [E HE].
  exists E. pose proof (eq_sym HE) as HE'. entries.
  do 9 eexists. split; [symmetry; exact HE'|]. repeat (split; [eassumption|]).
  intros Hden.
  replace 230.0 with 230 by lra. replace 180.0 with 180 by lra.
  replace 1.0 with 1 by lra.
  match goal with
  | |- ?lhs = _ =>
      match lhs with
      | (?k + ?bf + ?bm + ?th + ?w * ?I + ?g * ?d) / _ =>
          pose proof (closure_algebra (k + bf + bm + th) w I (g * d)) as Hc
      end
  end.
  cbv zeta in Hc.
  match type of Hc with ?P -> _ => assert (Hp : P) by lra end.
  specialize (Hc Hp).
  match goal with
  | |- ?lhs = ?rhs => 
      match type of Hc with ?l = ?r => 
        replace lhs with l by (f_equal; lra); rewrite Hc at 1; lra
      end
  end.
Qed.

(** ** Runs of the logistic variant always return *)

Lemma FFMReference_total (c : Child) (t : NumericVector) :
  (nind c <= length t)%nat ->
  exists v, FFMReference c t = Ok v /\ length v = nind c.
Proof.
  intros H. destruct (reference_column c (ffm_ref c) t H) as (v & Hv & Hl & _). eauto.
Qed.

Lemma FMReference_total (c : Child) (t : NumericVector) :
  (nind c <= length t)%nat ->
  exists v, FMReference c t = Ok v /\ length v = nind c.
Proof.
  intros H. destruct (reference_column c (fm_ref c) t H) as (v & Hv & Hl & _). eauto.
Qed.

Lemma IntakeReference_total (c : Child) (t : NumericVector) :
  (nind c <= length t)%nat -> exists v, IntakeReference c t = Ok v.
Proof.
  intros H. unfold IntakeReference.
  destruct (FFMReference_total c t H) as (vf & -> & _).
  destruct (FMReference_total c t H) as (vm & -> & _).
  simpl. eauto.
Qed.

Lemma Expenditure_logistic_total (c : Child) (t FFM FM : NumericVector) :
  generalized_logistic c = true -> (nind c <= length t)%nat ->
  exists v, Expenditure c t FFM FM = Ok v.
Proof.
  intros Hg H. unfold Expenditure.
  destruct (IntakeReference_total c t H) as (vr & ->).
  rewrite (Intake_logistic c t Hg). simpl. eauto.
Qed.

Lemma dMass_logistic_total (c : Child) (t FFM FM : NumericVector) :
  generalized_logistic c = true -> (nind c <= length t)%nat ->
  exists r0 r1, dMass c t FFM FM = Ok [r0; r1].
Proof.
  intros Hg H. unfold dMass.
  destruct (Expenditure_logistic_total c t FFM FM Hg H) as (ve & ->).
  rewrite (Intake_logistic c t Hg). simpl. eauto.
Qed.

Lemma rk4_body_logistic_total (c : Child) (i N : nat) (s : Arrays) :
  generalized_logistic c = true ->
  (1 <= i < N)%nat -> allocated s N -> clock_inv c s i ->
  exists s', rk4_body c i s = Ok s'.
Proof.
  intros Hg Hi (L1 & L2 & L3 & L4 & L5) HC.
  destruct (HC (i - 1)%nat ltac:(lia)) as [Ht Ha].
  destruct (get_lt (ModelFFM s) (i - 1)) as (f & Ef & _); [lia|].
  destruct (get_lt (ModelFM s) (i - 1)) as (m & Em & _); [lia|].
  apply get_Ok in Ht, Ha.
  unfold rk4_body. rewrite Ha, Ef, Em. cbn [bind].
  set (a := age c +$ INR (i - 1) * dt c / 365) in *.
  assert (La : length a = nind c) by (unfold a, nind; sizes).
  destruct (dMass_logistic_total c a f m Hg) as (k1_0 & k1_1 & ->); [lia|].
  cbn [bind]. change (get [k1_0; k1_1] 0) with (Ok k1_0).
  change (get [k1_0; k1_1] 1) with (Ok k1_1). cbn [bind].
  destruct (dMass_logistic_total c (a +$ 0.5 * dt c / 365.0)
              (f .+ 0.5 $* k1_0) (m .+ 0.5 $* k1_1) Hg) as (k2_0 & k2_1 & ->); [sizes|].
  cbn [bind]. change (get [k2_0; k2_1] 0) with (Ok k2_0).
  change (get [k2_0; k2_1] 1) with (Ok k2_1). cbn [bind].
  destruct (dMass_logistic_total c (a +$ 0.5 * dt c / 365.0)
              (f .+ 0.5 $* k2_0) (m .+ 0.5 $* k2_1) Hg) as (k3_0 & k3_1 & ->); [sizes|].
  cbn [bind]. change (get [k3_0; k3_1] 0) with (Ok k3_0).
  change (get [k3_0; k3_1] 1) with (Ok k3_1). cbn [bind].
  destruct (dMass_logistic_total c (a +$ dt c / 365.0)
              (f .+ k3_0) (m .+ k3_1) Hg) as (k4_0 & k4_1 & ->); [sizes|].
  cbn [bind]. change (get [k4_0; k4_1] 0) with (Ok k4_0).
  change (get [k4_0; k4_1] 1) with (Ok k4_1). cbn [bind].
  rewrite !set_lt by lia. cbn [bind].
  unfold get at 1 2. rewrite !list_lookup_insert_eq by lia. cbn [bind].
  rewrite set_lt by lia. cbn [bind].
  rewrite Ht. cbn [bind]. rewrite set_lt by lia. cbn [bind]. eauto.
Qed.

Lemma rk4_loop_logistic_total (c : Child) (n i N : nat) (s : Arrays) :
  generalized_logistic c = true ->
  (1 <= i)%nat -> (i + n <= N)%nat -> allocated s N -> clock_inv c s i ->
  exists s', rk4_loop c n i s = Ok s'.
Proof.
  intros Hg. revert i s. induction n as [|n IH]; intros i s Hi HN HA HC; simpl.
  - eauto.
  - destruct (rk4_body_logistic_total c i N s Hg ltac:(lia) HA HC) as [s1 E].
    rewrite E. cbn [bind].
    apply IH; [lia | lia | |].
    + now apply (rk4_body_allocated c i N s s1).
    + now apply (rk4_body_clock c i s s1).
Qed.

(** With a generalized-logistic intake, a step that is not zero and a number
    of steps that is not negative, [rk4] returns a trajectory. *)
Lemma rk4_logistic_total (c : Child) (days : R) :
  generalized_logistic c = true -> dt c <> 0 ->
  (0 <= Int_part (days / dt c))%Z ->
  exists traj, rk4 c days = Ok traj.
Proof.
  intros Hg Hdt Hns.
  assert (Hq : floor_quot days (dt c) = Ok (Int_part (days / dt c)))
    by (apply floor_quot_Ok; auto).
  rewrite (rk4_unfold c days _ Hq Hns).
  destruct (rk4_loop_logistic_total c (Z.to_nat (Int_part (days / dt c))) 1
              (S (Z.to_nat (Int_part (days / dt c))))
              (initial_arrays c (S (Z.to_nat (Int_part (days / dt c))))) Hg)
    as [s ->]; try lia.
  - apply initial_allocated.
  - apply initial_clock_inv.
  - simpl. eauto.
Qed.

(** ** Runs of the tabulated variant: an index outside the table ends the run *)

Lemma dMass_Intake_Ok (c : Child) (t FFM FM row : NumericVector) :
  Intake c t = Ok row -> (nind c <= length t)%nat ->
  exists r0 r1, dMass c t FFM FM = Ok [r0; r1].
Proof.
  intros HI Hlen. unfold dMass, Expenditure.
  destruct (IntakeReference_total c t Hlen) as [vr ->].
  rewrite HI. simpl. eauto.
Qed.

(** The error of [Intake] is the error of the derivative. *)
Lemma dMass_Intake_Err (c : Child) (t FFM FM : NumericVector) (e : error) :
  Intake c t = Err e -> (nind c <= length t)%nat ->
  dMass c t FFM FM = Err e.
Proof.
  intros HI Hlen. unfold dMass, Expenditure.
  destruct (IntakeReference_total c t Hlen) as [vr ->].
  rewrite HI. reflexivity.
Qed.

Lemma Intake_table_row (c : Child) (t0 age0 : R) (t rest : NumericVector) (z : Z) :
  generalized_logistic c = false -> dt c = 1 ->
  age c = age0 :: rest ->
  365 * (t0 - age0) - 1 < IZR z <= 365 * (t0 - age0) ->
  Intake c (t0 :: t) = getZ (EIntake c) z.
Proof.
  intros Hg Hdt Ha Hz. unfold Intake. rewrite Hg, Ha, Hdt. cbn [get lookup bind].
  simpl. unfold floor_quot. destruct (Req_dec_T 1 0) as [E|_]; [lra|].
  cbn [bind]. f_equal. symmetry. apply Int_part_spec.
  replace (365.0 * (t0 - age0) / 1) with (365 * (t0 - age0)) by (unfold Rdiv; lra).
  lra.
Qed.

(** One day with a step of one day on a table of one row: the run stops with
    [index_out_of_bounds] at the fourth stage. *)
Lemma boy_short_table_fails : rk4 boy_short_table 1 = Err index_out_of_bounds.
Proof.
  assert (Hq : floor_quot 1 (dt boy_short_table) = Ok 1%Z).
  { apply floor_quot_Ok. simpl. split; [lra|].
    apply Int_part_spec. simpl. lra. }
  rewrite (rk4_unfold boy_short_table 1 1 Hq ltac:(lia)).
  change (Z.to_nat 1) with 1%nat. cbn [rk4_loop].
  unfold rk4_body, initial_arrays.
  change (nind boy_short_table) with 1%nat.
  cbn [ModelFFM ModelFM ModelBW AGE TIME Nat.sub replicate].
  cbn [get lookup list_lookup insert list_insert bind boy_short_table Child_matrix
       age FFM FM dt take firstn].
  assert (I0 : forall d, 0 <= d <= 0.5 / 365 ->
            Intake boy_short_table [5.0 + d] = Ok [1600]).
  { intros d Hd.
    rewrite (Intake_table_row boy_short_table (5.0 + d) 5.0 [] [] 0)
      by first [reflexivity | lra].
    reflexivity. }
  assert (E1 : Intake boy_short_table [5.0] = Ok [1600]).
  { replace 5.0 with (5.0 + 0) at 1 by lra. apply I0. lra. }
  destruct (dMass_Intake_Ok boy_short_table [5.0] [15.0] [3.0] _ E1)
    as (k1_0 & k1_1 & ->); [unfold nind; simpl; lia|].
  cbn [bind get lookup list_lookup].
  cbn [vadds map].
  assert (E2 : Intake boy_short_table [5.0 + 0.5 * 1 / 365.0] = Ok [1600])
    by (apply I0; lra).
  destruct (dMass_Intake_Ok boy_short_table [5.0 + 0.5 * 1 / 365.0]
              ([15.0] .+ 0.5 $* k1_0) ([3.0] .+ 0.5 $* k1_1) _ E2)
    as (k2_0 & k2_1 & ->); [unfold nind; simpl; lia|].
  cbn [bind get lookup list_lookup].
  destruct (dMass_Intake_Ok boy_short_table [5.0 + 0.5 * 1 / 365.0]
              ([15.0] .+ 0.5 $* k2_0) ([3.0] .+ 0.5 $* k2_1) _ E2)
    as (k3_0 & k3_1 & ->); [unfold nind; simpl; lia|].
  cbn [bind get lookup list_lookup].
  rewrite (dMass_Intake_Err boy_short_table [5.0 + 1 / 365.0] _ _ index_out_of_bounds);
    [reflexivity | | unfold nind; simpl; lia].
  rewrite (Intake_table_row boy_short_table (5.0 + 1 / 365.0) 5.0 [] [] 1)
    by first [reflexivity | lra].
  reflexivity.
Qed.

(** ** The derivative of the boy between five and six years *)

Lemma Int_part_IZR (z : Z) : Int_part (IZR z) = z.
Proof. symmetry. apply Int_part_spec. lra. Qed.

Lemma exp_le_1 (x : R) : x <= 0 -> exp x <= 1.
Proof.
  intros [Hlt | ->].
  - left. rewrite <- exp_0. now apply exp_increasing.
  - rewrite exp_0. lra.
Qed.

Lemma exp_le_3' (x : R) : x <= 1 -> exp x <= 3.
Proof.
  intros [Hlt | ->].
  - apply Rle_trans with (exp 1); [left; now apply exp_increasing | apply exp_le_3].
  - apply exp_le_3.
Qed.

Lemma cpow_pos (x y : R) : 0 < x -> 0 < cpow x y.
Proof. intros Hx. rewrite cpow_pos_base by assumption. apply exp_pos. Qed.

Lemma cpow_2_nonneg (x : R) : 0 <= cpow x 2.
Proof.
  unfold cpow. destruct (Rlt_dec 0 x) as [Hx|Hx].
  - left. apply exp_pos.
  - rewrite (Int_part_IZR 2).
    destruct (Req_dec_T 2 2) as [_|E]; [|lra].
    simpl. nra.
Qed.

(** A kernel with positive amplitudes lies between 0 and the sum of the
    amplitudes, the first one weighted by a bound of its exponential. *)
Lemma kernel_bounds (a b d x y z e : R) :
  0 < a -> 0 < b -> 0 < d -> exp x <= e ->
  0 < a * exp x + b * exp (-0.5 * cpow y 2) + d * exp (-0.5 * cpow z 2)
    <= a * e + b + d.
Proof.
  intros Ha Hb Hd Hx.
  pose proof (exp_pos x).
  pose proof (cpow_2_nonneg y). pose proof (cpow_2_nonneg z).
  pose proof (exp_pos (-0.5 * cpow y 2)).
  pose proof (exp_pos (-0.5 * cpow z 2)).
  pose proof (exp_le_1 (-0.5 * cpow y 2) ltac:(lra)).
  pose proof (exp_le_1 (-0.5 * cpow z 2) ltac:(lra)).
  split; nra.
Qed.

Lemma ref_row_boy (step um uf nm nf om of_ bm bf : R) :
  exists x, ref_row (boy step) um uf nm nf om of_ bm bf = [x] /\ x = nm.
Proof.
  unfold ref_row, indicator, nind, boy, Child_logistic.
  cbn [age sex bmiCat length map zip_with take vadd vmul smul ssub firstn].
  destruct (Req_dec_T 2 1) as [E1|_]; [lra|].
  destruct (Req_dec_T 2 2) as [_|E2]; [|lra].
  destruct (Req_dec_T 2 3) as [E3|_]; [lra|].
  destruct (Req_dec_T 2 4) as [E4|_]; [lra|].
  eexists. split; [reflexivity|]. lra.
Qed.

(** Between 5 and 6 years the references of the boy lie on the line from the
    row of 5 years to the row of 6 years. *)
Lemma boy_references (step t : R) :
  5 <= t < 6 ->
  FFMReference (boy step) [t] = Ok [14.85 + (t - 5) * (16.09 - 14.85)] /\
  FMReference (boy step) [t] = Ok [3.10 + (t - 5) * (3.23 - 3.10)].
Proof.
  intros Ht.
  assert (H5 : Int_part t = 5%Z) by (symmetry; apply Int_part_spec; lra).
  unfold FFMReference, FMReference.
  change (nind (boy step)) with 1%nat. cbn [seq collect].
  rewrite !(reference_at_interpolated _ [t] 0%nat t) by reflexivity.
  cbn [bind]. unfold interpolated.
  destruct (Rge_dec t 18) as [Hge|_]; [lra|].
  rewrite H5. change (Z.max 5 2 - 2)%Z with 3%Z. cbv zeta.
  change (Z.min (3 + 1) 16) with 4%Z.
  unfold elem, ffm_ref, fm_ref.
  change (Z.to_nat 3) with 3%nat. change (Z.to_nat 4) with 4%nat. cbn [nth].
  destruct (ref_row_boy step 13.54 12.45 14.85 13.78 16.21 15.71 18.37 18.81) as (x3 & -> & ->).
  destruct (ref_row_boy step 15.68 12.69 16.09 14.95 17.97 17.54 21.24 20.16) as (x4 & -> & ->).
  destruct (ref_row_boy step 2.05 2.33 3.10 3.72 4.13 5.19 5.60 7.58) as (y3 & -> & ->).
  destruct (ref_row_boy step 2.13 2.33 3.23 3.80 4.43 5.67 6.91 8.27) as (y4 & -> & ->).
  cbn [nth]. split; reflexivity.
Qed.

Ltac boy_base :=
  repeat match goal with
  | H : age (boy _) !! 0%nat = Some _ |- _ => injection H as <-
  | H : sex (boy _) !! 0%nat = Some _ |- _ => injection H as <-
  | H : bmiCat (boy _) !! 0%nat = Some _ |- _ => injection H as <-
  | H : [_] !! 0%nat = Some _ |- _ => injection H as <-
  end.

Lemma boy_growth (step t g : R) :
  5 <= t -> Growth_dynamic (boy step) [t] !! 0%nat = Some g -> 0 < g <= 22.9.
Proof.
  unfold Growth_dynamic, general_ode, A, B, D, tA, tB, tD, tauA, tauB, tauD.
  intros Ht H. entries. boy_base.
  match goal with
  | |- 0 < ?a * exp ?x + ?b * exp (_ * cpow ?y 2) + ?d * exp (_ * cpow ?z 2) <= _ =>
      pose proof (kernel_bounds a b d x y z 1) as K
  end.
  assert (Hx : - (t - (4.7 * (1 - 0) + 4.5 * 0)) / (2.5 * (1 - 0) + 1.0 * 0) <= 0).
  { replace (2.5 * (1 - 0) + 1.0 * 0) with 2.5 by lra.
    unfold Rdiv. assert (0 < / 2.5) by (apply Rinv_0_lt_compat; lra). nra. }
  specialize (K ltac:(lra) ltac:(lra) ltac:(lra) (exp_le_1 _ Hx)). lra.
Qed.

Lemma boy_EB (step t eb : R) :
  5 <= t -> EB_impact (boy step) [t] !! 0%nat = Some eb -> 0 < eb <= 72.6.
Proof.
  unfold EB_impact, general_ode, A_EB, B_EB, D_EB, tA_EB, tB_EB, tD_EB,
    tauA_EB, tauB_EB, tauD_EB.
  intros Ht H. entries. boy_base.
  match goal with
  | |- 0 < ?a * exp ?x + ?b * exp (_ * cpow ?y 2) + ?d * exp (_ * cpow ?z 2) <= _ =>
      pose proof (kernel_bounds a b d x y z 3) as K
  end.
  assert (Hx : - (t - (5.6 * (1 - 0) + 4.8 * 0)) / (15 * (1 - 0) + 7.0 * 0) <= 1).
  { replace (15 * (1 - 0) + 7.0 * 0) with 15 by lra.
    unfold Rdiv. assert (0 < / 15 < 1) by (split; [apply Rinv_0_lt_compat|]; lra).
    nra. }
  specialize (K ltac:(lra) ltac:(lra) ltac:(lra) (exp_le_3' _ Hx)). lra.
Qed.

Lemma boy_delta (step t delta : R) :
  5 <= t -> Delta (boy step) [t] !! 0%nat = Some delta -> 10 <= delta <= 19.
Proof.
  unfold Delta, deltamax, deltamin, P, h.
  intros Ht H. entries. boy_base.
  assert (Hp : 0 < cpow (t / 12.0) 10.0).
  { apply cpow_pos. unfold Rdiv.
    assert (0 < / 12.0) by (apply Rinv_0_lt_compat; lra). nra. }
  set (w := cpow (t / 12.0) 10.0) in *.
  pose proof (fraction_bounds 1 w ltac:(lra) ltac:(lra)) as Hf.
  replace (1.0 / (1.0 + w)) with (1 / (1 + w)) by (f_equal; lra).
  nra.
Qed.

Lemma singleton_of_length {T : Type} (l : list T) :
  length l = 1%nat -> exists x, l = [x] /\ l !! 0%nat = Some x.
Proof.
  destruct l as [|x [|y l]]; simpl; intros H; try discriminate. eauto.
Qed.

Lemma boy_atoms (step t : R) :
  5 <= t ->
  exists g delta eb,
    Growth_dynamic (boy step) [t] = [g] /\
    Delta (boy step) [t] = [delta] /\
    EB_impact (boy step) [t] = [eb] /\
    0 < g <= 22.9 /\ 10 <= delta <= 19 /\ 0 < eb <= 72.6.
Proof.
  intros Ht.
  destruct (singleton_of_length (Growth_dynamic (boy step) [t])) as (g & Eg & Hg);
    [reflexivity|].
  destruct (singleton_of_length (Delta (boy step) [t])) as (delta & Ed & Hd);
    [reflexivity|].
  destruct (singleton_of_length (EB_impact (boy step) [t])) as (eb & Ee & He);
    [reflexivity|].
  exists g, delta, eb. repeat (split; [assumption|]).
  split; [exact (boy_growth step t g Ht Hg)|].
  split; [exact (boy_delta step t delta Ht Hd) | exact (boy_EB step t eb Ht He)].
Qed.

Lemma boy_Intake (step : R) (t : NumericVector) :
  Intake (boy step) t = Ok (map (fun _ => 1600) t).
Proof.
  rewrite Intake_logistic by reflexivity. f_equal. apply map_ext. intros ti.
  cbn [boy Child_logistic A_logistic K_logistic]. unfold Rdiv. ring.
Qed.

Lemma boy_IntakeReference (step t : R) :
  5 <= t < 6 ->
  exists ir, IntakeReference (boy step) [t] = Ok [ir] /\ 1325 <= ir <= 1650.
Proof.
  intros Ht.
  destruct (boy_atoms step t ltac:(lra)) as (g & delta & eb & Eg & Ed & Ee & Hg & Hd & He).
  destruct (boy_references step t Ht) as [Ef Em].
  unfold IntakeReference. rewrite Ef, Em, Eg, Ed, Ee. cbn [bind].
  unfold K, cP, cP_C, cRhoFFM, rhoFM.
  cbn [boy Child_logistic sex map zip_with vadd vsub vmul vdiv
       sadd ssub smul sdiv vadds vsubs vdivs].
  eexists. split; [reflexivity|].
  assert (Hf : 14.85 <= 14.85 + (t - 5) * (16.09 - 14.85) <= 16.09) by lra.
  assert (Hm : 3.10 <= 3.10 + (t - 5) * (3.23 - 3.10) <= 3.23) by lra.
  set (rf := 14.85 + (t - 5) * (16.09 - 14.85)) in *.
  set (rm := 3.10 + (t - 5) * (3.23 - 3.10)) in *.
  clearbody rf rm.
  set (rho := 4.3 * rf + 837.0).
  set (C := 10.4 * rho / (9.4 * 1000.0)).
  assert (Hrho : 900 < rho) by (unfold rho; lra).
  assert (HC : 0 < C).
  { unfold C. apply Rdiv_lt_0_compat; lra. }
  pose proof (fraction_bounds C rm HC ltac:(lra)) as Hp.
  set (p := C / (C + rm)) in *.
  assert (Ha : 0 < 230.0 / rho < 0.26).
  { split; [apply Rdiv_lt_0_compat; lra|].
    unfold Rdiv.
    assert (Hi : / rho < / 900) by (apply Rinv_lt_contravar; lra).
    lra. }
  set (a := 230.0 / rho) in *.
  assert (Hb : 0 < 180.0 / (9.4 * 1000.0) <= 0.02) by lra.
  set (b := 180.0 / (9.4 * 1000.0)) in *.
  clearbody a b p. clear C HC rho Hrho.
  assert (H1 : 0 <= a * (p * eb + g) <= 0.26 * (72.6 + 22.9)).
  { split; [apply Rmult_le_pos; nra|]. apply Rmult_le_compat; nra. }
  assert (H2 : 0 <= b * ((1 - p) * eb) <= 0.02 * 72.6).
  { split; [apply Rmult_le_pos; nra|]. apply Rmult_le_compat; nra. }
  assert (H3 : 0 <= b * g <= 0.02 * 22.9).
  { split; [apply Rmult_le_pos; lra|]. apply Rmult_le_compat; lra. }
  split; nra.
Qed.

(** The two rows of [dMass] for the boy in the state [(F, M)], through the
    relations that define them: [rho = 4.3 F + 837], [a = 230 / rho],
    [b = 180 / 9400], [p = C / (C + M)] with [C = 10.4 rho / 9400],
    [w = a p + b (1 - p)], and [S] is intake minus expenditure. *)
Lemma boy_dMass_entries (step t F M g delta ir : R) :
  Growth_dynamic (boy step) [t] = [g] ->
  Delta (boy step) [t] = [delta] ->
  IntakeReference (boy step) [t] = Ok [ir] ->
  0 <= F -> 0 <= M ->
  exists u v p S,
    dMass (boy step) [t] [F] [M] = Ok [[u]; [v]] /\
    let rho := 4.3 * F + 837 in
    let a := 230 / rho in
    let b := 180 / 9400 in
    let w := a * p + b * (1 - p) in
    p * (10.4 * rho / 9400 + M) = 10.4 * rho / 9400 /\
    S * (1 + w) = 0.76 * 1600 - 800 - (22.4 + delta) * F - (4.5 + delta) * M +
                  0.24 * ir - g * (a - b) /\
    u * rho = p * S + g /\
    v * 9400 = (1 - p) * S - g.
Proof.
  intros Eg Ed Er HF HM.
  unfold dMass, Expenditure. rewrite Er, !boy_Intake, Eg, Ed. cbn [bind].
  unfold K, cP, cP_C, cRhoFFM, rhoFM.
  change (nind (boy step)) with 1%nat.
  cbn [boy Child_logistic sex map zip_with vadd vsub vmul vdiv
       sadd ssub smul sdiv vadds vsubs vdivs take firstn].
  replace 837.0 with 837 by lra. replace (9.4 * 1000.0) with 9400 by lra.
  replace 230.0 with 230 by lra. replace 180.0 with 180 by lra.
  replace 1.0 with 1 by lra.
  set (rho := 4.3 * F + 837).
  assert (Hrho : 0 < rho) by (unfold rho; lra).
  set (C := 10.4 * rho / 9400).
  assert (HC : 0 < C) by (unfold C; lra).
  pose proof (fraction_bounds C M HC HM) as Hp.
  set (p := C / (C + M)) in *.
  assert (Ha : 0 < 230 / rho) by (apply Rdiv_lt_0_compat; lra).
  set (a := 230 / rho) in *.
  set (b := 180 / 9400).
  assert (Hb : 0 < b) by (unfold b; lra).
  assert (Hw : 0 < 1 + a * p + b * (1 - p)) by nra.
  set (Num := _ + _ + _ + _ + _ * 1600 + _).
  set (Ex := Num / (1 + a * p + b * (1 - p))).
  exists ((1 * p * (1600 - Ex) + g) / rho), (((1 - p) * (1600 - Ex) - g) / 9400), p, (1600 - Ex).
  split; [reflexivity|]. cbv zeta. fold rho. fold a. fold b.
  repeat split.
  - unfold p. clearbody C. field. lra.
  - unfold Ex, Num. clearbody a b p.
    unfold Q2R; cbn [QArith_base.Qnum QArith_base.Qden]. field. lra.
  - clearbody rho. field. lra.
  - field.
Qed.

(** ** How intake minus expenditure moves with the state *)

(** Bounds in a state close to 15 kg of fat free mass and 3 kg of fat mass. *)
Lemma state_facts (g delta ir F M p S : R) :
  0 < g <= 22.9 -> 10 <= delta <= 19 -> 1325 <= ir <= 1650 ->
  15 <= F <= 15.2 -> 2.99 <= M <= 3.04 ->
  p * (10.4 * (4.3 * F + 837) / 9400 + M) = 10.4 * (4.3 * F + 837) / 9400 ->
  S * (1 + (230 / (4.3 * F + 837) * p + 180 / 9400 * (1 - p))) =
    0.76 * 1600 - 800 - (22.4 + delta) * F - (4.5 + delta) * M + 0.24 * ir -
    g * (230 / (4.3 * F + 837) - 180 / 9400) ->
  0.24 < p < 0.26 /\ 20 < S < 290.
Proof.
  intros Hg Hd Hir HF HM Hp HS.
  set (rho := 4.3 * F + 837) in *.
  assert (Hrho : 901.5 <= rho <= 902.36) by (unfold rho; lra).
  assert (Ha : 230 / rho * rho = 230) by (field; lra).
  set (a := 230 / rho) in *.
  assert (Ha' : 0.25 < a < 0.26) by (clearbody a rho; nra).
  assert (Hb : 0.019 < 180 / 9400 < 0.02) by lra.
  set (b := 180 / 9400) in *.
  assert (HC : 0.99 < 10.4 * rho / 9400 < 1) by lra.
  set (C := 10.4 * rho / 9400) in *.
  clearbody a b C rho.
  assert (Hp' : 0.24 < p < 0.26) by nra.
  split; [exact Hp'|].
  assert (Hw : 0 < a * p + b * (1 - p) < 0.09) by nra.
  set (w := a * p + b * (1 - p)) in *.
  assert (Hga : 0 <= g * (a - b) <= 22.9 * 0.26) by nra.
  set (X := 0.76 * 1600 - 800 - (22.4 + delta) * F - (4.5 + delta) * M +
            0.24 * ir - g * (a - b)) in *.
  assert (HX : 27 < X < 283).
  { unfold X. split; nra. }
  clearbody X w. nra.
Qed.

(** From the same relations: the slopes in such a state. *)
Lemma slope_bounds (g F p S u v : R) :
  0 < g <= 22.9 -> 15 <= F <= 15.2 -> 0.24 < p < 0.26 -> 20 < S < 290 ->
  u * (4.3 * F + 837) = p * S + g ->
  v * 9400 = (1 - p) * S - g ->
  0.005 < u < 0.11 /\ -0.001 < v < 0.031.
Proof.
  intros Hg HF Hp HS Hu Hv.
  assert (Hrho : 901.5 <= 4.3 * F + 837 <= 902.36) by lra.
  set (rho := 4.3 * F + 837) in *. clearbody rho.
  assert (HpS : 4.8 < p * S < 75.4) by nra.
  assert (HqS : 14.8 < (1 - p) * S < 220.4) by nra.
  split; split; nra.
Qed.

(** A state with more fat free mass, and with fat mass not much lower, has a
    smaller difference between intake and expenditure. *)
Lemma imbalance_decreases (g delta ir F1 M1 p1 S1 F2 M2 p2 S2 : R) :
  0 < g <= 22.9 -> 10 <= delta <= 19 -> 1325 <= ir <= 1650 ->
  15 <= F1 <= 15.2 -> 2.99 <= M1 <= 3.04 ->
  15 <= F2 <= 15.2 -> 2.99 <= M2 <= 3.04 ->
  0.0025 <= F2 - F1 -> -0.0005 <= M2 - M1 ->
  p1 * (10.4 * (4.3 * F1 + 837) / 9400 + M1) = 10.4 * (4.3 * F1 + 837) / 9400 ->
  S1 * (1 + (230 / (4.3 * F1 + 837) * p1 + 180 / 9400 * (1 - p1))) =
    0.76 * 1600 - 800 - (22.4 + delta) * F1 - (4.5 + delta) * M1 + 0.24 * ir -
    g * (230 / (4.3 * F1 + 837) - 180 / 9400) ->
  p2 * (10.4 * (4.3 * F2 + 837) / 9400 + M2) = 10.4 * (4.3 * F2 + 837) / 9400 ->
  S2 * (1 + (230 / (4.3 * F2 + 837) * p2 + 180 / 9400 * (1 - p2))) =
    0.76 * 1600 - 800 - (22.4 + delta) * F2 - (4.5 + delta) * M2 + 0.24 * ir -
    g * (230 / (4.3 * F2 + 837) - 180 / 9400) ->
  S2 < S1.
Proof.
  intros Hg Hd Hir HF1 HM1 HF2 HM2 HdF HdM Hp1 HS1 Hp2 HS2.
  destruct (state_facts g delta ir F1 M1 p1 S1 Hg Hd Hir HF1 HM1 Hp1 HS1) as [Bp1 BS1].
  destruct (state_facts g delta ir F2 M2 p2 S2 Hg Hd Hir HF2 HM2 Hp2 HS2) as [Bp2 BS2].
  set (dF := F2 - F1) in *. set (dM := M2 - M1) in *.
  assert (EF : F2 = F1 + dF) by (unfold dF; lra).
  assert (EM : M2 = M1 + dM) by (unfold dM; lra).
  clearbody dF dM. subst F2 M2.
  (* the two energy densities and their reciprocals *)
  assert (Ha1 : 230 / (4.3 * F1 + 837) * (4.3 * F1 + 837) = 230) by (field; lra).
  assert (Ha2 : 230 / (4.3 * (F1 + dF) + 837) * (4.3 * (F1 + dF) + 837) = 230)
    by (field; lra).
  set (a1 := 230 / (4.3 * F1 + 837)) in *.
  set (a2 := 230 / (4.3 * (F1 + dF) + 837)) in *.
  assert (Hb : 0.019 < 180 / 9400 < 0.02) by lra.
  set (b := 180 / 9400) in *.
  clearbody a1 a2 b.
  assert (Ba1 : 0.25 < a1 < 0.26) by (clear - Ha1 HF1; nra).
  assert (Ba2 : 0.25 < a2 < 0.26) by (clear - Ha2 HF2; nra).
  assert (Hda : 0 <= a1 - a2 <= 0.00125 * dF).
  { assert (E : (a1 - a2) * (4.3 * F1 + 837) = 4.3 * dF * a2)
      by (clear - Ha1 Ha2; nra).
    clear - E Ba2 HF1 HdF. split; nra. }
  (* the two partition fractions *)
  assert (EC : 10.4 * (4.3 * (F1 + dF) + 837) / 9400 =
               10.4 * (4.3 * F1 + 837) / 9400 + 10.4 * 4.3 / 9400 * dF) by lra.
  rewrite EC in Hp2.
  assert (BC : 0.99 < 10.4 * (4.3 * F1 + 837) / 9400 < 1) by lra.
  set (C1 := 10.4 * (4.3 * F1 + 837) / 9400) in *.
  assert (Bc : 0.0047 < 10.4 * 4.3 / 9400 < 0.0048) by lra.
  set (c := 10.4 * 4.3 / 9400) in *.
  clearbody C1 c.
  assert (Edp : (p1 - p2) * (C1 + M1) = p2 * dM - c * (1 - p2) * dF)
    by (clear - Hp1 Hp2; nra).
  (* the two weights of the denominator *)
  set (w1 := a1 * p1 + b * (1 - p1)) in *.
  set (w2 := a2 * p2 + b * (1 - p2)) in *.
  assert (Ew : w1 - w2 = (a1 - a2) * p1 + (a2 - b) * (p1 - p2))
    by (unfold w1, w2; ring).
  assert (Bw1 : 0 < w1 < 0.09) by (unfold w1; clear - Ba1 Bp1 Hb; nra).
  (* the numerators *)
  set (X1 := 0.76 * 1600 - 800 - (22.4 + delta) * F1 - (4.5 + delta) * M1 +
             0.24 * ir - g * (a1 - b)) in *.
  set (X2 := 0.76 * 1600 - 800 - (22.4 + delta) * (F1 + dF) -
             (4.5 + delta) * (M1 + dM) + 0.24 * ir - g * (a2 - b)) in *.
  assert (EX : X1 - X2 = (22.4 + delta) * dF + (4.5 + delta) * dM - g * (a1 - a2))
    by (unfold X1, X2; ring).
  assert (Hga : g * (a1 - a2) <= 22.9 * (0.00125 * dF))
    by (clear - Hg Hda; nra).
  clearbody X1 X2 w1 w2.
  assert (Key : (S1 - S2) * (1 + w1) = (X1 - X2) - S2 * (w1 - w2))
    by (clear - HS1 HS2; nra).
  assert (Hpos : 0 < (X1 - X2) - S2 * (w1 - w2)).
  { rewrite EX, Ew.
    assert (H0 : 0 <= (a1 - a2) * p1 <= 0.00125 * dF * 0.26)
      by (clear - Hda Bp1; nra).
    assert (H1 : S2 * ((a1 - a2) * p1) <= 290 * (0.00125 * dF * 0.26))
      by (clear - H0 BS2; nra).
    assert (Hdd : 32.4 * dF <= (22.4 + delta) * dF)
      by (clear - Hd HdF; nra).
    destruct (Rle_lt_dec 0 dM) as [HM0|HM0].
    - assert (H2 : p1 - p2 <= 0.07 * dM).
      { assert (Hcq : 0 <= c * (1 - p2)) by (clear - Bp2 Bc; nra).
        assert (H2a : (p1 - p2) * (C1 + M1) <= 0.26 * dM)
          by (rewrite Edp; clear - Bp2 HM0 Hcq HdF; nra).
        clear - H2a BC HM1 HM0. nra. }
      assert (H3 : S2 * ((a2 - b) * (p1 - p2)) <= 290 * (0.26 * (0.07 * dM))).
      { destruct (Rle_lt_dec 0 (p1 - p2)) as [Hq|Hq].
        - assert (H3a : 0 <= (a2 - b) * (p1 - p2) <= 0.26 * (0.07 * dM))
            by (clear - Hq H2 Ba2 Hb HM0; nra).
          clear - H3a BS2. nra.
        - assert (H3a : (a2 - b) * (p1 - p2) <= 0)
            by (clear - Hq Ba2 Hb; nra).
          assert (H3b : S2 * ((a2 - b) * (p1 - p2)) <= 0)
            by (clear - H3a BS2; nra).
          clear - H3b HM0. nra. }
      assert (Hdm : 14.5 * dM <= (4.5 + delta) * dM)
        by (clear - Hd HM0; nra).
      clear - H1 H3 Hdd Hdm Hga HdF HM0. lra.
    - assert (H2 : p1 - p2 <= 0).
      { assert (Hcq : 0 <= c * (1 - p2)) by (clear - Bp2 Bc; nra).
        assert (H2a : (p1 - p2) * (C1 + M1) <= 0)
          by (rewrite Edp; clear - Bp2 HM0 Hcq HdF; nra).
        clear - H2a BC HM1. nra. }
      assert (H3 : S2 * ((a2 - b) * (p1 - p2)) <= 0).
      { assert (H3a : (a2 - b) * (p1 - p2) <= 0)
          by (clear - H2 Ba2 Hb; nra).
        clear - H3a BS2. nra. }
      assert (Hdm : 23.5 * dM <= (4.5 + delta) * dM)
        by (clear - Hd HM0; nra).
      clear - H1 H3 Hdd Hdm Hga HdF HdM HM0. lra. }
  clear - Key Hpos Bw1. nra.
Qed.

(** ** Scaling of the stages *)

Lemma smul_1 (v : NumericVector) : 1 $* v = v.
Proof.
  unfold smul. rewrite <- (map_id v) at 2. apply map_ext. intros x. lra.
Qed.

(** With a step of one day the loop body is the scaled one. *)
Lemma rk4_body_scaled_unit_step (c : Child) (i : nat) (s : Arrays) :
  dt c = 1 -> rk4_body c i s = rk4_body_scaled c i s.
Proof.
  intros Hdt. unfold rk4_body, rk4_body_scaled. rewrite Hdt.
  replace (0.5 * 1) with 0.5 by lra.
  repeat match goal with
  | |- bind ?m _ = bind ?m _ =>
      destruct m; cbn [bind]; [rewrite ?smul_1 | reflexivity]
  end.
  reflexivity.
Qed.

(** C1.  On the boy integrated with a step of two days the first slope of
    fat free mass is positive, so the state [FFM + 0.5 * k1] at which the
    loop body evaluates the second stage is not the state
    [FFM + 0.5 * dt * k1] scaled by [dt], and the derivative differs between
    the two states: the second stage of the code is not the derivative at
    the scaled state. *)
Theorem rk4_stage2_not_scaled :
  exists k1_0 k1_1 k2 k2_scaled,
    dMass (boy 2) (age (boy 2)) (FFM (boy 2)) (FM (boy 2)) = Ok [k1_0; k1_1] /\
    dMass (boy 2) (age (boy 2) +$ 0.5 * dt (boy 2) / 365.0)
      (FFM (boy 2) .+ 0.5 $* k1_0) (FM (boy 2) .+ 0.5 $* k1_1) = Ok k2 /\
    dMass (boy 2) (age (boy 2) +$ 0.5 * dt (boy 2) / 365.0)
      (FFM (boy 2) .+ (0.5 * dt (boy 2)) $* k1_0)
      (FM (boy 2) .+ (0.5 * dt (boy 2)) $* k1_1) = Ok k2_scaled /\
    FFM (boy 2) .+ 0.5 $* k1_0 <> FFM (boy 2) .+ (0.5 * dt (boy 2)) $* k1_0 /\
    k2 <> k2_scaled.
Proof.
  (* the first stage *)
  destruct (boy_atoms 2 5.0 ltac:(lra)) as (g & delta & eb & Eg & Ed & _ & Hg & Hd & _).
  destruct (boy_IntakeReference 2 5.0 ltac:(lra)) as (ir & Er & Hir).
  destruct (boy_dMass_entries 2 5.0 15.0 3.0 g delta ir Eg Ed Er ltac:(lra) ltac:(lra))
    as (u & v & p & S & E1 & Hp & HS & Hu & Hv).
  cbv zeta in Hp, HS, Hu, Hv.
  destruct (state_facts g delta ir 15.0 3.0 p S Hg Hd Hir ltac:(lra) ltac:(lra) Hp HS)
    as [Bp BS].
  destruct (slope_bounds g 15.0 p S u v Hg ltac:(lra) Bp BS Hu Hv) as [Bu Bv].
  clear Hp HS Hu Hv Bp BS Eg Ed Er Hg Hd Hir g delta eb ir p S.
  (* the second stage, at the state of the code and at the scaled state *)
  set (t := 5.0 + 0.5 * 2 / 365.0).
  assert (Ht : 5 <= t < 6) by (unfold t; lra).
  destruct (boy_atoms 2 t ltac:(lra)) as (g & delta & eb & Eg & Ed & _ & Hg & Hd & _).
  destruct (boy_IntakeReference 2 t Ht) as (ir & Er & Hir).
  destruct (boy_dMass_entries 2 t (15.0 + 0.5 * u) (3.0 + 0.5 * v) g delta ir
              Eg Ed Er ltac:(lra) ltac:(lra))
    as (u1 & v1 & p1 & S1 & E2 & Hp1 & HS1 & Hu1 & Hv1).
  destruct (boy_dMass_entries 2 t (15.0 + 0.5 * 2 * u) (3.0 + 0.5 * 2 * v) g delta ir
              Eg Ed Er ltac:(lra) ltac:(lra))
    as (u2 & v2 & p2 & S2 & E3 & Hp2 & HS2 & Hu2 & Hv2).
  cbv zeta in Hp1, HS1, Hu1, Hv1, Hp2, HS2, Hu2, Hv2.
  exists [u], [v], [[u1]; [v1]], [[u2]; [v2]].
  split; [exact E1|]. split; [exact E2|]. split; [exact E3|]. split.
  - cbn [boy Child_logistic FFM dt map zip_with vadd smul].
    intros H. injection H as H. lra.
  - intros H. injection H as Hu12 Hv12.
    assert (HF1 : 15 <= 15.0 + 0.5 * u <= 15.2) by lra.
    assert (HM1 : 2.99 <= 3.0 + 0.5 * v <= 3.04) by lra.
    assert (HF2 : 15 <= 15.0 + 0.5 * 2 * u <= 15.2) by lra.
    assert (HM2 : 2.99 <= 3.0 + 0.5 * 2 * v <= 3.04) by lra.
    pose proof (imbalance_decreases g delta ir _ _ p1 S1 _ _ p2 S2
                  Hg Hd Hir HF1 HM1 HF2 HM2 ltac:(lra) ltac:(lra) Hp1 HS1 Hp2 HS2)
      as Hdec.
    destruct (state_facts g delta ir _ _ p1 S1 Hg Hd Hir HF1 HM1 Hp1 HS1) as [Bp1 BS1].
    destruct (slope_bounds g _ p1 S1 u1 v1 Hg HF1 Bp1 BS1 Hu1 Hv1) as [Bu1 _].
    subst u2 v2.
    clear - Hu1 Hv1 Hu2 Hv2 Hdec Bu1 Bu.
    assert (HS1 : S1 = u1 * (4.3 * (15.0 + 0.5 * u) + 837) + v1 * 9400) by lra.
    assert (HS2 : S2 = u1 * (4.3 * (15.0 + 0.5 * 2 * u) + 837) + v1 * 9400) by lra.
    nra.
Qed.

(** ** Values on the two example cohorts *)

Example boy_K : K (boy 1) = [800 * (1 - 0) + 700 * 0].
Proof. reflexivity. Qed.

Example boy_cRhoFFM : cRhoFFM (FFM (boy 1)) = [4.3 * 15.0 + 837.0].
Proof. reflexivity. Qed.

Example boy_references_at_5 :
  FFMReference (boy 1) [5.0] = Ok [14.85] /\ FMReference (boy 1) [5.0] = Ok [3.10].
Proof.
  destruct (boy_references 1 5.0 ltac:(lra)) as [-> ->].
  split; do 2 f_equal; lra.
Qed.

Example boy_references_at_5_5 :
  FFMReference (boy 1) [5.5] = Ok [15.47] /\ FMReference (boy 1) [5.5] = Ok [3.165].
Proof.
  destruct (boy_references 1 5.5 ltac:(lra)) as [-> ->].
  split; do 2 f_equal; lra.
Qed.

Example girl_references :
  FFMReference girl [18.0] = Ok [49.89] /\ FMReference girl [18.0] = Ok [29.10].
Proof.
  unfold FFMReference, FMReference.
  change (nind girl) with 1%nat. cbn [seq collect].
  rewrite !(reference_at_interpolated _ [18.0] 0%nat 18.0) by reflexivity.
  rewrite !interpolated_from_18 by lra. cbn [bind].
  unfold elem, ffm_ref, fm_ref. change (Z.to_nat 16) with 16%nat. cbn [nth].
  unfold ref_row, indicator, nind, girl, Child_logistic.
  cbn [age sex bmiCat length map zip_with take vadd vmul smul ssub firstn nth].
  destruct (Req_dec_T 4 1) as [E1|_]; [lra|].
  destruct (Req_dec_T 4 2) as [E2|_]; [lra|].
  destruct (Req_dec_T 4 3) as [E3|_]; [lra|].
  destruct (Req_dec_T 4 4) as [_|E4]; [|lra].
  split; do 2 f_equal; lra.
Qed.

Example girl_deltamax : deltamax girl = [19 * (1 - 1) + 17 * 1].
Proof. reflexivity. Qed.

(** ** The theorems at work on the boy *)

Lemma Int_part_nonneg (x : R) : 0 <= x -> (0 <= Int_part x)%Z.
Proof.
  intros Hx. destruct (base_Int_part x) as [_ H].
  assert (Hz : -1 < IZR (Int_part x)) by lra.
  apply lt_IZR in Hz. lia.
Qed.

(** Three days with a step of one day: the run returns. *)
Lemma boy_three_days : exists traj, rk4 (boy 1) 3 = Ok traj.
Proof.
  apply rk4_logistic_total.
  - reflexivity.
  - simpl. lra.
  - apply Int_part_nonneg. simpl. lra.
Qed.

Lemma reference_curves_interpolate_witness :
  exists vf vm,
    FFMReference (boy 1) [2] = Ok vf /\ FMReference (boy 1) [2] = Ok vm /\
    length vf = 1%nat /\ length vm = 1%nat /\
    forall i ti, (i < 1)%nat -> [2] !! i = Some ti ->
      vf !! i = Some (interpolated (ffm_ref (boy 1)) ti i) /\
      vm !! i = Some (interpolated (fm_ref (boy 1)) ti i) /\
      (ti = 2 -> vf !! i = Some (elem (ffm_ref (boy 1)) 0 i) /\
                 vm !! i = Some (elem (fm_ref (boy 1)) 0 i)) /\
      (ti >= 18 -> vf !! i = Some (elem (ffm_ref (boy 1)) 16 i) /\
                   vm !! i = Some (elem (fm_ref (boy 1)) 16 i)).
Proof.
  apply (reference_curves_interpolate (boy 1) [2]). unfold nind. simpl. lia.
Defined.

Lemma rk4_body_weight_is_sum_witness :
  exists traj nsims,
    rk4 (boy 1) 3 = Ok traj /\
    floor_quot 3 (dt (boy 1)) = Ok nsims /\ (0 <= nsims)%Z /\
    length (Body_Weight traj) = S (Z.to_nat nsims) /\
    forall i, (i <= Z.to_nat nsims)%nat ->
      exists f m bw,
        Fat_Free_Mass traj !! i = Some f /\ Fat_Mass traj !! i = Some m /\
        Body_Weight traj !! i = Some bw /\ bw = f .+ m /\
        forall j x y, f !! j = Some x -> m !! j = Some y -> bw !! j = Some (x + y).
Proof.
  destruct boy_three_days as [traj H].
  destruct (rk4_body_weight_is_sum (boy 1) 3 traj H) as [nsims Hn].
  exists traj, nsims. split; [exact H | exact Hn].
Defined.

Lemma Expenditure_closes_balance_witness :
  exists Ev Iref Ival E k delta I Ir p g,
    Expenditure (boy 1) [5.0] [15.0] [3.0] = Ok Ev /\
    IntakeReference (boy 1) [5.0] = Ok Iref /\ Intake (boy 1) [5.0] = Ok Ival /\
    length Ev = 1%nat /\ Ev !! 0%nat = Some E /\
    K (boy 1) !! 0%nat = Some k /\ Delta (boy 1) [5.0] !! 0%nat = Some delta /\
    Ival !! 0%nat = Some I /\ Iref !! 0%nat = Some Ir /\
    cP [15.0] [3.0] !! 0%nat = Some p /\
    Growth_dynamic (boy 1) [5.0] !! 0%nat = Some g /\
    let rho := 4.3 * 15.0 + 837.0 in
    E = k + (22.4 + delta) * 15.0 + (4.5 + delta) * 3.0 + 0.24 * (I - Ir) +
        (230 / rho * p + 180 / rhoFM * (1 - p)) * (I - E) +
        g * (230 / rho - 180 / rhoFM).
Proof.
  destruct (Expenditure_logistic_total (boy 1) [5.0] [15.0] [3.0] eq_refl (le_n 1))
    as (Ev & He).
  destruct (Expenditure_closes_balance (boy 1) [5.0] [15.0] [3.0] Ev He)
    as (Iref & Ival & HIr & HI & Hlen & Hall).
  destruct (boy_IntakeReference 1 5.0 ltac:(lra)) as (ir & Hir & _).
  pose proof HIr as HIr'. rewrite Hir in HIr'. injection HIr' as <-.
  pose proof HI as HI'. rewrite boy_Intake in HI'. injection HI' as <-.
  change (length Ev = 1%nat) in Hlen.
  destruct (Hall 0%nat) as (E & k & delta & f & m & I & Ir & p & rho & g & HE & Hk &
                            Hd & Hf & Hm & HIi & HIri & Hp & Hrho & Hg & Hid).
  { rewrite Hlen. apply le_n. }
  assert (Ef : f = 15.0) by (injection Hf as <-; reflexivity).
  assert (Em : m = 3.0) by (injection Hm as <-; reflexivity).
  assert (Erho : rho = 4.3 * 15.0 + 837.0) by (injection Hrho as <-; reflexivity).
  subst f m rho.
  exists Ev, [ir], (map (fun _ : R => 1600) [5.0]), E, k, delta, I, Ir, p, g.
  repeat (split; [assumption|]).
  cbv zeta. apply Hid.
  assert (Ep : p = 10.4 * (4.3 * 15.0 + 837.0) / rhoFM /
                   (10.4 * (4.3 * 15.0 + 837.0) / rhoFM + 3.0))
    by (injection Hp as <-; reflexivity).
  assert (HC : 0 < 10.4 * (4.3 * 15.0 + 837.0) / rhoFM) by (unfold rhoFM; lra).
  pose proof (fraction_bounds _ 3.0 HC ltac:(lra)) as Hb.
  rewrite <- Ep in Hb.
  assert (Ha : 0 < 230 / (4.3 * 15.0 + 837.0)) by lra.
  assert (Hc : 0 < 180 / rhoFM) by (unfold rhoFM; lra).
  clear - Hb Ha Hc. nra.
Defined.

Lemma Intake_table_checked_witness :
  Intake boy_short_table [5.0 + 1 / 365] = Err index_out_of_bounds.
Proof.
  apply (proj2 (Intake_table_checked boy_short_table [5.0 + 1 / 365] eq_refl)
           (5.0 + 1 / 365) 5.0 eq_refl eq_refl).
  - simpl. lra.
  - assert (E : Int_part (365 * (5.0 + 1 / 365 - 5.0) / dt boy_short_table) = 1%Z).
    { symmetry. apply Int_part_spec. simpl. lra. }
    rewrite E. simpl. lia.
Defined.

Lemma rk4_clock_witness :
  exists traj nsims,
    rk4 (boy 1) 3 = Ok traj /\
    floor_quot 3 (dt (boy 1)) = Ok nsims /\ (0 <= nsims)%Z /\
    Time traj = map (fun k => INR k * dt (boy 1)) (seq 0 (S (Z.to_nat nsims))) /\
    (forall i j ti tj, (i < j)%nat ->
       Time traj !! i = Some ti -> Time traj !! j = Some tj -> ti < tj) /\
    forall i, (i <= Z.to_nat nsims)%nat ->
      exists a, Age traj !! i = Some a /\ length a = nind (boy 1) /\
        forall j a0, age (boy 1) !! j = Some a0 ->
          a !! j = Some (a0 + INR i * dt (boy 1) / 365).
Proof.
  destruct boy_three_days as [traj H].
  assert (Hdt : 0 < dt (boy 1)) by (simpl; lra).
  destruct (rk4_clock (boy 1) 3 traj Hdt H) as [nsims Hn].
  exists traj, nsims. split; [exact H | exact Hn].
Defined.

Lemma Intake_logistic_constant_witness :
  exists v, Intake (boy 1) [5.0; 6.0] = Ok v /\ length v = 2%nat /\
    forall i, (i < 2)%nat ->
      v !! i = Some (1600 + (1600 - 1600) / Rpower 1 (1 / 1)).
Proof.
  apply (Intake_logistic_constant (boy 1) [5.0; 6.0]).
  - reflexivity.
  - reflexivity.
  - simpl. lra.
  - simpl. lra.
Defined.

Lemma rk4_Correct_Values_true_witness :
  exists traj, rk4 (boy 1) 3 = Ok traj /\ Correct_Values traj = true.
Proof.
  destruct boy_three_days as [traj H].
  exists traj. split; [exact H | exact (rk4_Correct_Values_true (boy 1) 3 traj H)].
Defined.

Lemma cP_fraction_bounds_witness :
  let C := 10.4 * (4.3 * 15.0 + 837) / 9400 in
  0 < C /\ 0 < C + 3.0 /\
  cP_C [15.0] !! 0%nat = Some C /\
  (cP_C [15.0] .+ [3.0]) !! 0%nat = Some (C + 3.0) /\
  cP [15.0] [3.0] !! 0%nat = Some (C / (C + 3.0)) /\
  0 < C / (C + 3.0) <= 1.
Proof.
  apply (cP_fraction_bounds [15.0] [3.0] 0 15.0 3.0).
  - reflexivity.
  - reflexivity.
  - lra.
  - lra.
Defined.

(** * Further properties of the driver *)

Lemma Int_part_negative (x : R) : x < 0 -> (Int_part x < 0)%Z.
Proof.
  intros Hx. destruct (base_Int_part x) as [H _].
  apply lt_IZR. lra.
Qed.

(** X1.  A horizon of the opposite sign of the step gives a negative number of
    steps: [rk4] ends with an error and returns no trajectory. *)
Theorem rk4_negative_horizon (c : Child) (days : R) :
  dt c <> 0 -> days / dt c < 0 -> exists e, rk4 c days = Err e.
Proof.
  intros Hdt Hneg.
  apply (rk4_negative c days (Int_part (days / dt c))).
  - apply floor_quot_Ok. auto.
  - now apply Int_part_negative.
Qed.

Lemma rk4_negative_horizon_witness : exists e, rk4 (boy 1) (-3) = Err e.
Proof.
  apply (rk4_negative_horizon (boy 1) (-3)).
  - simpl. lra.
  - simpl. lra.
Defined.

(** ** The shape of the result *)

Lemma rk4_body_columns (c : Child) (i : nat) (s s' : Arrays) :
  rk4_body c i s = Ok s' ->
  (forall col, col ∈ ModelFFM s ++ ModelFM s ++ ModelBW s ++ AGE s ->
               (length col <= nind c)%nat) ->
  forall col, col ∈ ModelFFM s' ++ ModelFM s' ++ ModelBW s' ++ AGE s' ->
              (length col <= nind c)%nat.
Proof.
  intros H Hall.
  apply rk4_body_Ok_inv in H
    as (a & f & m & tp & fi & mi & _ & _ & _ & _ & Hfi & Hmi & _ & _ & _ & _ & _ & ->).
  cbn [ModelFFM ModelFM ModelBW AGE]. intros col Hcol.
  assert (Hins : forall (M : list (list R)) (x : list R),
             (length x <= nind c)%nat ->
             col ∈ <[i := x]> M -> (length col <= nind c)%nat \/ col ∈ M).
  { intros M x Hx Hin. apply list_elem_of_lookup in Hin as [k Hk].
    destruct (decide (k = i)) as [->|Hne].
    - destruct (decide (i < length M)%nat) as [Hlt|Hge].
      + rewrite list_lookup_insert_eq in Hk by assumption. injection Hk as <-. now left.
      + rewrite list_insert_ge in Hk by lia. right. eapply list_elem_of_lookup_2; eassumption.
    - rewrite list_lookup_insert_ne in Hk by congruence.
      right. eapply list_elem_of_lookup_2; eassumption. }
  rewrite !elem_of_app in Hcol.
  destruct Hcol as [Hc|[Hc|[Hc|Hc]]];
    (apply Hins in Hc; [destruct Hc as [Hc|Hc]; [exact Hc|]|]);
    try (apply Hall; rewrite !elem_of_app; tauto);
    try assumption; sizes.
Qed.

Lemma initial_columns (c : Child) (n : nat) (col : list R) :
  col ∈ ModelFFM (initial_arrays c n) ++ ModelFM (initial_arrays c n) ++
        ModelBW (initial_arrays c n) ++ AGE (initial_arrays c n) ->
  (length col <= nind c)%nat.
Proof.
  unfold initial_arrays. cbn [ModelFFM ModelFM ModelBW AGE]. intros Hcol.
  assert (Hins : forall (x : list R),
             (length x <= nind c)%nat ->
             col ∈ <[0%nat := x]> (replicate n (replicate (nind c) 0)) ->
             (length col <= nind c)%nat).
  { intros x Hx Hin. apply list_elem_of_lookup in Hin as [k Hk].
    destruct (decide (k = 0%nat)) as [->|Hne].
    - destruct n as [|n]; [discriminate|]. simpl in Hk. now injection Hk as <-.
    - rewrite list_lookup_insert_ne in Hk by congruence.
      apply lookup_replicate in Hk as [-> _]. sizes. }
  rewrite !elem_of_app in Hcol.
  destruct Hcol as [Hc|[Hc|[Hc|Hc]]]; (eapply Hins; [|exact Hc]);
    unfold nind; sizes.
Qed.

(** X2.  A run that returns holds [nsims + 1] recorded steps in each of the
    five outputs, and no recorded column is longer than the cohort. *)
Theorem rk4_shape (c : Child) (days : R) (traj : Trajectory) :
  rk4 c days = Ok traj ->
  exists nsims,
    floor_quot days (dt c) = Ok nsims /\ (0 <= nsims)%Z /\
    length (Time traj) = S (Z.to_nat nsims) /\
    length (Age traj) = S (Z.to_nat nsims) /\
    length (Fat_Free_Mass traj) = S (Z.to_nat nsims) /\
    length (Fat_Mass traj) = S (Z.to_nat nsims) /\
    length (Body_Weight traj) = S (Z.to_nat nsims) /\
    forall col,
      col ∈ Fat_Free_Mass traj ++ Fat_Mass traj ++ Body_Weight traj ++ Age traj ->
      (length col <= nind c)%nat.
Proof.
  intros H.
  apply rk4_Ok_inv in H as (nsims & s & Hq & Hns & Hloop & ->).
  exists nsims. split; [assumption|]. split; [assumption|].
  pose proof (rk4_loop_allocated c _ _ _ _ _ Hloop (initial_allocated c _))
    as (L1 & L2 & L3 & L4 & L5).
  unfold packaged. cbn [Time Age Fat_Free_Mass Fat_Mass Body_Weight].
  repeat (split; [assumption|]).
  apply (rk4_loop_inv c
           (fun s _ => forall col,
                col ∈ ModelFFM s ++ ModelFM s ++ ModelBW s ++ AGE s ->
                (length col <= nind c)%nat)
           (fun i s s' _ Hb => rk4_body_columns c i s s' Hb)
           _ 1%nat _ s (Nat.le_refl 1) Hloop).
  apply initial_columns.
Qed.

Lemma rk4_shape_witness :
  exists traj nsims,
    rk4 (boy 1) 3 = Ok traj /\
    floor_quot 3 (dt (boy 1)) = Ok nsims /\ (0 <= nsims)%Z /\
    length (Time traj) = S (Z.to_nat nsims) /\
    length (Age traj) = S (Z.to_nat nsims) /\
    length (Fat_Free_Mass traj) = S (Z.to_nat nsims) /\
    length (Fat_Mass traj) = S (Z.to_nat nsims) /\
    length (Body_Weight traj) = S (Z.to_nat nsims) /\
    forall col,
      col ∈ Fat_Free_Mass traj ++ Fat_Mass traj ++ Body_Weight traj ++ Age traj ->
      (length col <= nind (boy 1))%nat.
Proof.
  destruct boy_three_days as [traj H].
  destruct (rk4_shape (boy 1) 3 traj H) as [nsims Hn].
  exists traj, nsims. split; [exact H | exact Hn].
Defined.

(** ** Every recorded step is the update of the one before *)

Lemma updated_preserved (c : Child) (s s' : Arrays) (i k : nat) :
  (1 <= k < i)%nat ->
  (forall j, j <> i -> ModelFFM s' !! j = ModelFFM s !! j) ->
  (forall j, j <> i -> ModelFM s' !! j = ModelFM s !! j) ->
  (forall j, j <> i -> AGE s' !! j = AGE s !! j) ->
  updated_from_previous c s k -> updated_from_previous c s' k.
Proof.
  intros Hk HF HM HA
    (a & f & m & k1 & k2 & k3 & k4 & k1_0 & k1_1 & k2_0 & k2_1 & k3_0 & k3_1 &
     k4_0 & k4_1 & H).
  exists a, f, m, k1, k2, k3, k4, k1_0, k1_1, k2_0, k2_1, k3_0, k3_1, k4_0, k4_1.
  rewrite !HF, !HM, !HA by lia. exact H.
Qed.

Lemma rk4_body_recurrence (c : Child) (i : nat) (s s' : Arrays) :
  (1 <= i)%nat ->
  rk4_body c i s = Ok s' -> recurrence_inv c s i -> recurrence_inv c s' (S i).
Proof.
  intros Hi H (H0f & H0m & Hprev).
  pose proof (rk4_body_stages c i s s' H) as Hst.
  apply rk4_body_Ok_inv in H
    as (a & f & m & tp & fi & mi & _ & _ & _ & _ & _ & _ & _ & _ & _ & _ & _ & Es).
  assert (HF : forall j, j <> i -> ModelFFM s' !! j = ModelFFM s !! j)
    by (intros j Hj; rewrite Es; cbn [ModelFFM]; now apply list_lookup_insert_ne).
  assert (HM : forall j, j <> i -> ModelFM s' !! j = ModelFM s !! j)
    by (intros j Hj; rewrite Es; cbn [ModelFM]; now apply list_lookup_insert_ne).
  assert (HA : forall j, j <> i -> AGE s' !! j = AGE s !! j)
    by (intros j Hj; rewrite Es; cbn [AGE]; now apply list_lookup_insert_ne).
  clear Es. split; [|split].
  - rewrite HF by lia. exact H0f.
  - rewrite HM by lia. exact H0m.
  - intros k Hk. destruct (decide (k = i)) as [->|Hne].
    + destruct Hst as
        (a' & f' & m' & k1 & k2 & k3 & k4 & k1_0 & k1_1 & k2_0 & k2_1 & k3_0 & k3_1 &
         k4_0 & k4_1 & Ha & Hf & Hm & Hrest).
      exists a', f', m', k1, k2, k3, k4, k1_0, k1_1, k2_0, k2_1, k3_0, k3_1, k4_0, k4_1.
      rewrite HF, HM, HA by lia. auto.
    + apply (updated_preserved c s s' i k); try assumption; [lia|].
      apply Hprev. lia.
Qed.

Lemma initial_recurrence (c : Child) (n : nat) :
  recurrence_inv c (initial_arrays c (S n)) 1.
Proof.
  split; [reflexivity|]. split; [reflexivity|]. intros k Hk. lia.
Qed.

(** X3.  In a run that returns, recorded step 0 is the initial state and every
    recorded step [1..nsims] is the update of the recorded step before it:
    its four slopes are taken at that step, and the new masses are the old
    ones plus [dt * (k1 + 2 k2 + 2 k3 + k4) / 6].  No pass rewrites an
    earlier step. *)
Theorem rk4_recurrence (c : Child) (days : R) (traj : Trajectory) :
  rk4 c days = Ok traj ->
  exists nsims s,
    floor_quot days (dt c) = Ok nsims /\ (0 <= nsims)%Z /\
    traj = packaged s /\
    Fat_Free_Mass traj !! 0%nat = Some (take (nind c) (FFM c)) /\
    Fat_Mass traj !! 0%nat = Some (take (nind c) (FM c)) /\
    forall k, (1 <= k <= Z.to_nat nsims)%nat -> updated_from_previous c s k.
Proof.
  intros H.
  apply rk4_Ok_inv in H as (nsims & s & Hq & Hns & Hloop & ->).
  exists nsims, s. split; [assumption|]. split; [assumption|]. split; [reflexivity|].
  destruct (rk4_loop_inv c (recurrence_inv c) (rk4_body_recurrence c)
              _ 1%nat _ s (Nat.le_refl 1) Hloop (initial_recurrence c _))
    as (H0f & H0m & Hall).
  unfold packaged. cbn [Fat_Free_Mass Fat_Mass].
  split; [assumption|]. split; [assumption|].
  intros k Hk. apply Hall. lia.
Qed.

Lemma rk4_recurrence_witness :
  exists traj nsims s,
    rk4 (boy 1) 3 = Ok traj /\
    floor_quot 3 (dt (boy 1)) = Ok nsims /\ (0 <= nsims)%Z /\
    traj = packaged s /\
    Fat_Free_Mass traj !! 0%nat = Some (take (nind (boy 1)) (FFM (boy 1))) /\
    Fat_Mass traj !! 0%nat = Some (take (nind (boy 1)) (FM (boy 1))) /\
    forall k, (1 <= k <= Z.to_nat nsims)%nat -> updated_from_previous (boy 1) s k.
Proof.
  destruct boy_three_days as [traj H].
  destruct (rk4_recurrence (boy 1) 3 traj H) as (nsims & s & Hn).
  exists traj, nsims, s. split; [exact H | exact Hn].
Defined.

(** X4.  With a step of one day the loop body is the classical scheme whose
    stage states are perturbed by [dt] times the slope: the missing factor
    is then 1. *)
Theorem rk4_body_unit_step_is_scaled (c : Child) (i : nat) (s : Arrays) :
  dt c = 1 -> rk4_body c i s = rk4_body_scaled c i s.
Proof.
  exact (rk4_body_scaled_unit_step c i s).
Qed.

Lemma rk4_body_unit_step_is_scaled_witness :
  rk4_body (boy 1) 1 (initial_arrays (boy 1) 4) =
  rk4_body_scaled (boy 1) 1 (initial_arrays (boy 1) 4).
Proof.
  apply (rk4_body_unit_step_is_scaled (boy 1) 1 (initial_arrays (boy 1) 4)).
  reflexivity.
Defined.

(** ** When a run returns *)

(** A pass returns as soon as the derivative returns at the three stage
    times. *)
Lemma rk4_body_total (c : Child) (i N : nat) (s : Arrays) :
  (1 <= i < N)%nat -> allocated s N -> clock_inv c s i ->
  (forall x f m, x = 0 \/ x = 0.5 * dt c / 365.0 \/ x = dt c / 365.0 ->
     exists r0 r1,
       dMass c ((age c +$ INR (i - 1) * dt c / 365) +$ x) f m = Ok [r0; r1]) ->
  exists s', rk4_body c i s = Ok s'.
Proof.
  intros Hi (L1 & L2 & L3 & L4 & L5) HC Hd.
  destruct (HC (i - 1)%nat ltac:(lia)) as [Ht Ha].
  destruct (get_lt (ModelFFM s) (i - 1)) as (f & Ef & _); [lia|].
  destruct (get_lt (ModelFM s) (i - 1)) as (m & Em & _); [lia|].
  apply get_Ok in Ht, Ha.
  unfold rk4_body. rewrite Ha, Ef, Em. cbn [bind].
  set (a := age c +$ INR (i - 1) * dt c / 365) in *.
  destruct (Hd 0 f m) as (k1_0 & k1_1 & E1); [tauto|].
  rewrite vadds_0 in E1 by reflexivity. rewrite E1.
  cbn [bind]. change (get [k1_0; k1_1] 0) with (Ok k1_0).
  change (get [k1_0; k1_1] 1) with (Ok k1_1). cbn [bind].
  destruct (Hd (0.5 * dt c / 365.0) (f .+ 0.5 $* k1_0) (m .+ 0.5 $* k1_1))
    as (k2_0 & k2_1 & ->); [tauto|].
  cbn [bind]. change (get [k2_0; k2_1] 0) with (Ok k2_0).
  change (get [k2_0; k2_1] 1) with (Ok k2_1). cbn [bind].
  destruct (Hd (0.5 * dt c / 365.0) (f .+ 0.5 $* k2_0) (m .+ 0.5 $* k2_1))
    as (k3_0 & k3_1 & ->); [tauto|].
  cbn [bind]. change (get [k3_0; k3_1] 0) with (Ok k3_0).
  change (get [k3_0; k3_1] 1) with (Ok k3_1). cbn [bind].
  destruct (Hd (dt c / 365.0) (f .+ k3_0) (m .+ k3_1))
    as (k4_0 & k4_1 & ->); [tauto|].
  cbn [bind]. change (get [k4_0; k4_1] 0) with (Ok k4_0).
  change (get [k4_0; k4_1] 1) with (Ok k4_1). cbn [bind].
  rewrite !set_lt by lia. cbn [bind].
  unfold get at 1 2. rewrite !list_lookup_insert_eq by lia. cbn [bind].
  rewrite set_lt by lia. cbn [bind].
  rewrite Ht. cbn [bind]. rewrite set_lt by lia. cbn [bind]. eauto.
Qed.

(** The row that the tabulated intake reads at stage offset [x] of step [i]. *)
Lemma Intake_table_stage (c : Child) (i : nat) (x : R) (z : Z) :
  generalized_logistic c = false -> dt c <> 0 -> (0 < nind c)%nat ->
  IZR z <= INR (i - 1) + 365 * x / dt c < IZR z + 1 ->
  Intake c ((age c +$ INR (i - 1) * dt c / 365) +$ x) = getZ (EIntake c) z.
Proof.
  intros Hg Hdt Hn Hz. unfold Intake. rewrite Hg.
  destruct (age c) as [|a0 rest] eqn:Ea; [unfold nind in Hn; rewrite Ea in Hn; simpl in Hn; lia|].
  cbn [vadds map get lookup list_lookup bind].
  unfold floor_quot. destruct (Req_dec_T (dt c) 0) as [E|_]; [contradiction|].
  cbn [bind]. f_equal. symmetry. apply Int_part_spec.
  replace 365.0 with 365 by lra.
  replace (365 * (a0 + INR (i - 1) * dt c / 365 + x - a0) / dt c)
    with (INR (i - 1) + 365 * x / dt c) by (field; assumption).
  lra.
Qed.

Lemma dMass_Ok_Intake (c : Child) (t FFM FM : NumericVector) (k : NumericMatrix) :
  dMass c t FFM FM = Ok k -> exists row, Intake c t = Ok row.
Proof.
  unfold dMass. intros H. do 2 bind_inv H. eauto.
Qed.

Lemma INR_pred_succ (i : nat) : (1 <= i)%nat -> INR (i - 1) + 1 = INR i.
Proof.
  intros Hi. replace i with (S (i - 1)) at 2 by lia. now rewrite S_INR.
Qed.

Lemma rk4_body_rows (c : Child) (i : nat) (s s' : Arrays) :
  generalized_logistic c = false -> dt c <> 0 ->
  (1 <= i)%nat ->
  rk4_body c i s = Ok s' -> rows_inv c s i -> rows_inv c s' (S i).
Proof.
  intros Hg Hdt Hi H [HC Hrows].
  split; [now apply (rk4_body_clock c i s s')|].
  intros k Hk. destruct (decide (k = i)) as [->|Hne]; [|apply Hrows; lia].
  apply rk4_body_stages in H as
    (a & f & m & k1 & k2 & k3 & k4 & k1_0 & k1_1 & k2_0 & k2_1 & k3_0 & k3_1 &
     k4_0 & k4_1 & Ha & _ & _ & _ & _ & _ & E2 & _).
  destruct (HC (i - 1)%nat ltac:(lia)) as [_ Ha'].
  rewrite Ha in Ha'. injection Ha' as ->.
  apply dMass_Ok_Intake in E2 as [row Hrow].
  assert (Hn : (0 < nind c)%nat).
  { unfold Intake in Hrow. rewrite Hg in Hrow.
    bind_inv Hrow. bind_inv Hrow. apply get_Ok, lookup_lt_Some in E0.
    exact E0. }
  split; [|exact Hn].
  rewrite (Intake_table_stage c i (0.5 * dt c / 365.0) (Z.of_nat (i - 1)) Hg Hdt Hn)
    in Hrow.
  - apply getZ_Ok in Hrow as [Hin _]. lia.
  - rewrite <- INR_IZR_INZ.
    replace (365 * (0.5 * dt c / 365.0) / dt c) with 0.5
      by (replace 365.0 with 365 by lra; field; assumption).
    lra.
Qed.

Lemma rk4_body_table_total (c : Child) (i N : nat) (s : Arrays) :
  generalized_logistic c = false -> dt c <> 0 -> (0 < nind c)%nat ->
  (1 <= i < N)%nat -> (i < length (EIntake c))%nat ->
  allocated s N -> clock_inv c s i ->
  exists s', rk4_body c i s = Ok s'.
Proof.
  intros Hg Hdt Hn Hi Hrows HA HC.
  apply (rk4_body_total c i N s Hi HA HC).
  intros x f m Hx.
  assert (Hz : exists z, (0 <= z < Z.of_nat (length (EIntake c)))%Z /\
                 IZR z <= INR (i - 1) + 365 * x / dt c < IZR z + 1).
  { pose proof (INR_pred_succ i ltac:(lia)) as Hs.
    destruct Hx as [-> | [-> | ->]].
    - exists (Z.of_nat (i - 1)). split; [lia|]. rewrite <- INR_IZR_INZ.
      replace (365 * 0 / dt c) with 0 by (field; assumption). lra.
    - exists (Z.of_nat (i - 1)). split; [lia|]. rewrite <- INR_IZR_INZ.
      replace (365 * (0.5 * dt c / 365.0) / dt c) with 0.5
        by (replace 365.0 with 365 by lra; field; assumption).
      lra.
    - exists (Z.of_nat i). split; [lia|]. rewrite <- INR_IZR_INZ.
      replace (365 * (dt c / 365.0) / dt c) with 1
        by (replace 365.0 with 365 by lra; field; assumption).
      lra. }
  destruct Hz as (z & Hin & Hz).
  destruct (lookup_lt_is_Some_2 (EIntake c) (Z.to_nat z) ltac:(lia)) as [row Hrow].
  apply (dMass_Intake_Ok c _ f m row).
  - rewrite (Intake_table_stage c i x z Hg Hdt Hn Hz). apply getZ_Ok. auto.
  - unfold nind. sizes.
Qed.

Lemma rk4_loop_table_total (c : Child) (n i N : nat) (s : Arrays) :
  generalized_logistic c = false -> dt c <> 0 -> (0 < nind c)%nat ->
  (1 <= i)%nat -> (i + n <= N)%nat -> (i + n <= length (EIntake c))%nat ->
  allocated s N -> clock_inv c s i ->
  exists s', rk4_loop c n i s = Ok s'.
Proof.
  intros Hg Hdt Hn. revert i s.
  induction n as [|n IH]; intros i s Hi HN Hrows HA HC; simpl.
  - eauto.
  - destruct (rk4_body_table_total c i N s Hg Hdt Hn ltac:(lia) ltac:(lia) HA HC)
      as [s1 E].
    rewrite E. cbn [bind].
    apply IH; [lia | lia | lia | |].
    + now apply (rk4_body_allocated c i N s s1).
    + now apply (rk4_body_clock c i s s1).
Qed.

(** X5.  Rows of the intake matrix that a tabulated run over at least one
    step needs.  With a cohort that is not empty, [nsims + 1] rows are
    enough for [rk4] to return.  A run that returns has a cohort that is not
    empty and at least [nsims] rows: the two midpoint stages of step [i] sit
    half a step inside row [i - 1].  (The last stage of step [i] sits on the
    boundary between row [i - 1] and row [i]; over the reals it reads row
    [i], and the one row in between is left open here.) *)
Theorem rk4_table_rows (c : Child) (days : R) (nsims : Z) :
  generalized_logistic c = false ->
  floor_quot days (dt c) = Ok nsims -> (1 <= nsims)%Z ->
  ((0 < nind c)%nat /\ (nsims < Z.of_nat (length (EIntake c)))%Z ->
   exists traj, rk4 c days = Ok traj) /\
  ((exists traj, rk4 c days = Ok traj) ->
   (0 < nind c)%nat /\ (nsims <= Z.of_nat (length (EIntake c)))%Z).
Proof.
  intros Hg Hq Hns.
  assert (Hdt : dt c <> 0) by (apply floor_quot_Ok in Hq; tauto).
  rewrite (rk4_unfold c days nsims Hq ltac:(lia)). split.
  - intros [Hn Hrows].
    destruct (rk4_loop_table_total c (Z.to_nat nsims) 1 (S (Z.to_nat nsims))
                (initial_arrays c (S (Z.to_nat nsims))) Hg Hdt Hn) as [s ->];
      try lia.
    + apply initial_allocated.
    + apply initial_clock_inv.
    + simpl. eauto.
  - intros [traj H]. bind_inv H. clear H.
    destruct (rk4_loop_inv c (rows_inv c)
                (fun i s s' => rk4_body_rows c i s s' Hg Hdt)
                _ 1%nat _ x (Nat.le_refl 1) E) as [_ Hrows].
    { split; [apply initial_clock_inv|]. intros k Hk. lia. }
    destruct (Hrows (Z.to_nat nsims) ltac:(lia)) as [Hr Hn].
    split; [exact Hn | lia].
Qed.

Lemma rk4_table_rows_witness :
  (exists traj, rk4 boy_table 1 = Ok traj) /\
  (0 < nind boy_table)%nat /\ (1 <= Z.of_nat (length (EIntake boy_table)))%Z.
Proof.
  assert (Hq : floor_quot 1 (dt boy_table) = Ok 1%Z).
  { apply floor_quot_Ok. simpl. split; [lra|].
    apply Int_part_spec. simpl. lra. }
  destruct (rk4_table_rows boy_table 1 1 eq_refl Hq ltac:(lia)) as [Hsuff Hnec].
  assert (Hret : exists traj, rk4 boy_table 1 = Ok traj).
  { apply Hsuff. split; [apply le_n | simpl; lia]. }
  split; [exact Hret | exact (Hnec Hret)].
Defined.

(** X6.  With a generalized-logistic intake, a positive step and a horizon
    of at most 2147483646 steps, none of them negative, [rk4] returns a
    trajectory for every cohort: the number of steps and [nsims + 1] fit the
    32-bit [int] that holds them, and none of the checked accessors of the
    loop is reached outside its bounds. *)
Theorem rk4_logistic_returns (c : Child) (days : R) :
  generalized_logistic c = true -> 0 < dt c -> 0 <= days ->
  days / dt c <= 2147483646 ->
  exists traj nsims,
    rk4 c days = Ok traj /\
    floor_quot days (dt c) = Ok nsims /\
    (0 <= nsims)%Z /\ (nsims + 1 <= 2147483647)%Z.
Proof.
  intros Hg Hdt Hd Hmax.
  assert (Hq : 0 <= days / dt c).
  { unfold Rdiv. apply Rmult_le_pos; [assumption|].
    left. now apply Rinv_0_lt_compat. }
  destruct (rk4_logistic_total c days Hg ltac:(lra) (Int_part_nonneg _ Hq))
    as [traj Htraj].
  exists traj, (Int_part (days / dt c)).
  split; [exact Htraj|].
  split; [apply floor_quot_Ok; split; [lra | reflexivity]|].
  split; [now apply Int_part_nonneg|].
  destruct (base_Int_part (days / dt c)) as [Hle _].
  assert (Hz : IZR (Int_part (days / dt c)) <= IZR 2147483646) by lra.
  apply le_IZR in Hz. revert Hz. generalize (Int_part (days / dt c)). intros z Hz. lia.
Qed.

Lemma rk4_logistic_returns_witness :
  exists traj nsims,
    rk4 (boy 0.5) 2 = Ok traj /\
    floor_quot 2 (dt (boy 0.5)) = Ok nsims /\
    (0 <= nsims)%Z /\ (nsims + 1 <= 2147483647)%Z.
Proof.
  apply (rk4_logistic_returns (boy 0.5) 2).
  - reflexivity.
  - simpl. lra.
  - lra.
  - simpl. lra.
Defined.

(** ** Further properties of the reference curves *)

(** Entry [i] of a returned reference column is the interpolation of
    individual [i]. *)
Lemma reference_entry (c : Child) (ref : NumericMatrix) (t v : NumericVector)
      (i : nat) (ti : R) :
  collect (reference_at ref t) (seq 0 (nind c)) = Ok v ->
  (i < nind c)%nat -> t !! i = Some ti ->
  v !! i = Some (interpolated ref ti i).
Proof.
  intros Hv Hi Hti.
  destruct (collect_Ok_inv _ _ _ Hv) as [_ Hall].
  destruct (Hall i i) as (x & Hx & Hvi); [now apply lookup_seq|].
  rewrite (reference_at_interpolated ref t i ti Hti) in Hx.
  now injection Hx as <-.
Qed.

Lemma reference_reads (c : Child) (ref : NumericMatrix) (t v : NumericVector) :
  collect (reference_at ref t) (seq 0 (nind c)) = Ok v ->
  (nind c <= length t)%nat /\ length v = nind c.
Proof.
  intros Hv. destruct (collect_Ok_inv _ _ _ Hv) as [Hl Hall].
  rewrite length_seq in Hl. split; [|exact Hl].
  destruct (nind c) as [|n] eqn:En; [lia|].
  destruct (Hall n n) as (x & Hx & _); [apply lookup_seq; lia|].
  unfold reference_at in Hx. bind_inv Hx.
  apply get_Ok, lookup_lt_Some in E. lia.
Qed.

(** X7.  [FFMReference], [FMReference] and [IntakeReference] read [t(i)] for
    every individual of the cohort: each returns exactly when the age vector
    has at least [nind] entries, and the two curves then have [nind]
    entries. *)
Theorem references_return_iff (c : Child) (t : NumericVector) :
  ((exists v, FFMReference c t = Ok v) <-> (nind c <= length t)%nat) /\
  ((exists v, FMReference c t = Ok v) <-> (nind c <= length t)%nat) /\
  ((exists v, IntakeReference c t = Ok v) <-> (nind c <= length t)%nat) /\
  (forall v, FFMReference c t = Ok v -> length v = nind c) /\
  (forall v, FMReference c t = Ok v -> length v = nind c).
Proof.
  repeat split.
  - intros [v Hv]. now apply (reference_reads c (ffm_ref c) t v).
  - intros H. destruct (FFMReference_total c t H) as (v & Hv & _). eauto.
  - intros [v Hv]. now apply (reference_reads c (fm_ref c) t v).
  - intros H. destruct (FMReference_total c t H) as (v & Hv & _). eauto.
  - intros [v Hv]. unfold IntakeReference in Hv. bind_inv Hv.
    now apply (reference_reads c (ffm_ref c) t x).
  - apply IntakeReference_total.
  - intros v Hv. now apply (reference_reads c (ffm_ref c) t v).
  - intros v Hv. now apply (reference_reads c (fm_ref c) t v).
Qed.

Lemma interpolated_year (ref : NumericMatrix) (ti : R) (n : Z) (i : nat) :
  (2 <= n <= 17)%Z -> IZR n <= ti < IZR n + 1 ->
  interpolated ref ti i =
    elem ref (n - 2) i + (ti - IZR n) * (elem ref (n - 1) i - elem ref (n - 2) i).
Proof.
  intros Hn Ht.
  assert (E : Int_part ti = n) by (symmetry; apply Int_part_spec; lra).
  assert (H17 : IZR n <= 17) by (apply IZR_le; lia).
  unfold interpolated.
  destruct (Rge_dec ti 18) as [Hge|_]; [lra|].
  rewrite E. cbv zeta.
  replace (Z.max n 2 - 2)%Z with (n - 2)%Z by lia.
  replace (Z.min (n - 2 + 1) 16) with (n - 1)%Z by lia.
  reflexivity.
Qed.

(** X8.  Within the year that starts at a whole age [n] from 2 to 17 the two
    curves run on the line from the row of [n] years to the row of [n + 1]
    years; at the whole age itself they return the row of [n] years. *)
Theorem reference_whole_years (c : Child) (t vf vm : NumericVector)
        (i : nat) (ti : R) (n : Z) :
  FFMReference c t = Ok vf -> FMReference c t = Ok vm ->
  (i < nind c)%nat -> t !! i = Some ti ->
  (2 <= n <= 17)%Z -> IZR n <= ti < IZR n + 1 ->
  vf !! i = Some (elem (ffm_ref c) (n - 2) i +
                  (ti - IZR n) * (elem (ffm_ref c) (n - 1) i - elem (ffm_ref c) (n - 2) i)) /\
  vm !! i = Some (elem (fm_ref c) (n - 2) i +
                  (ti - IZR n) * (elem (fm_ref c) (n - 1) i - elem (fm_ref c) (n - 2) i)) /\
  (ti = IZR n ->
   vf !! i = Some (elem (ffm_ref c) (n - 2) i) /\
   vm !! i = Some (elem (fm_ref c) (n - 2) i)).
Proof.
  intros Hf Hm Hi Hti Hn Ht.
  pose proof (reference_entry c (ffm_ref c) t vf i ti Hf Hi Hti) as Ef.
  pose proof (reference_entry c (fm_ref c) t vm i ti Hm Hi Hti) as Em.
  rewrite (interpolated_year _ ti n i Hn Ht) in Ef.
  rewrite (interpolated_year _ ti n i Hn Ht) in Em.
  split; [exact Ef|]. split; [exact Em|].
  intros ->. rewrite Ef, Em. split; f_equal; ring.
Qed.

Lemma interpolated_below_2 (ref : NumericMatrix) (ti : R) (i : nat) :
  ti < 2 ->
  interpolated ref ti i =
    elem ref 0 i + (ti - IZR (Int_part ti)) * (elem ref 1 i - elem ref 0 i).
Proof.
  intros Ht. unfold interpolated.
  destruct (Rge_dec ti 18) as [Hge|_]; [lra|].
  destruct (base_Int_part ti) as [Hle _].
  assert (Hz : (Int_part ti < 2)%Z) by (apply lt_IZR; lra).
  revert Hz. generalize (Int_part ti). intros z Hz. cbv zeta.
  replace (Z.max z 2 - 2)%Z with 0%Z by lia.
  reflexivity.
Qed.

(** X9.  Below two years the row index is clamped to the rows of two and
    three years but the fraction [t - floor t] is not: the curves repeat the
    segment between these two rows in every year, so an age [t < 1] and the
    age [t + 1] get the same reference, and just below two years the value
    approaches the row of three years. *)
Theorem reference_below_2 (c : Child) (t t' vf vf' vm vm' : NumericVector)
        (i : nat) (ti : R) :
  FFMReference c t = Ok vf -> FMReference c t = Ok vm ->
  FFMReference c t' = Ok vf' -> FMReference c t' = Ok vm' ->
  (i < nind c)%nat -> t !! i = Some ti -> t' !! i = Some (ti + 1) ->
  ti + 1 < 2 ->
  vf !! i = Some (elem (ffm_ref c) 0 i +
                  (ti - IZR (Int_part ti)) * (elem (ffm_ref c) 1 i - elem (ffm_ref c) 0 i)) /\
  vm !! i = Some (elem (fm_ref c) 0 i +
                  (ti - IZR (Int_part ti)) * (elem (fm_ref c) 1 i - elem (fm_ref c) 0 i)) /\
  vf' !! i = vf !! i /\ vm' !! i = vm !! i.
Proof.
  intros Hf Hm Hf' Hm' Hi Hti Hti' Ht.
  rewrite (reference_entry c (ffm_ref c) t vf i ti Hf Hi Hti).
  rewrite (reference_entry c (fm_ref c) t vm i ti Hm Hi Hti).
  rewrite (reference_entry c (ffm_ref c) t' vf' i (ti + 1) Hf' Hi Hti').
  rewrite (reference_entry c (fm_ref c) t' vm' i (ti + 1) Hm' Hi Hti').
  rewrite !(interpolated_below_2 _ ti) by lra.
  rewrite !(interpolated_below_2 _ (ti + 1)) by lra.
  assert (E : Int_part (ti + 1) = (Int_part ti + 1)%Z).
  { symmetry. apply Int_part_spec. rewrite plus_IZR.
    destruct (base_Int_part ti). lra. }
  rewrite E, plus_IZR.
  repeat split; f_equal; ring.
Qed.

(** Entry [i] of a row of a reference table. *)
Lemma ref_row_entry (c : Child) (um uf nm nf om of_ bm bf : R)
      (i : nat) (s b : R) :
  (i < nind c)%nat -> sex c !! i = Some s -> bmiCat c !! i = Some b ->
  ref_row c um uf nm nf om of_ bm bf !! i =
    Some ((if Req_dec_T b 1 then 1 else 0) * (um * (1 - s) + uf * s) +
          (if Req_dec_T b 2 then 1 else 0) * (nm * (1 - s) + nf * s) +
          (if Req_dec_T b 3 then 1 else 0) * (om * (1 - s) + of_ * s) +
          (if Req_dec_T b 4 then 1 else 0) * (bm * (1 - s) + bf * s)).
Proof.
  intros Hi Hs Hb. unfold ref_row. cbv zeta.
  rewrite lookup_take_lt by assumption.
  unfold vadd, vmul, smul, ssub, indicator.
  rewrite !lookup_zip_with, !lookup_map, Hs, Hb. reflexivity.
Qed.

Lemma ref_row_unclassified (c : Child) (um uf nm nf om of_ bm bf : R)
      (i : nat) (b : R) :
  bmiCat c !! i = Some b -> b <> 1 -> b <> 2 -> b <> 3 -> b <> 4 ->
  nth i (ref_row c um uf nm nf om of_ bm bf) 0 = 0.
Proof.
  intros Hb H1 H2 H3 H4. rewrite nth_lookup.
  destruct (ref_row c um uf nm nf om of_ bm bf !! i) as [z|] eqn:Hz; [|reflexivity].
  unfold ref_row in Hz. cbv zeta in Hz. entries.
  destruct (Req_dec_T b 1); [contradiction|].
  destruct (Req_dec_T b 2); [contradiction|].
  destruct (Req_dec_T b 3); [contradiction|].
  destruct (Req_dec_T b 4); [contradiction|].
  simpl. ring.
Qed.

Lemma elem_rows (M : NumericMatrix) (i : nat) (j : Z) :
  Forall (fun row => nth i row 0 = 0) M -> elem M j i = 0.
Proof.
  intros H. unfold elem. rewrite (nth_lookup M).
  destruct (M !! Z.to_nat j) as [row|] eqn:E; simpl.
  - exact (Forall_lookup_1 _ _ _ _ H E).
  - now destruct i.
Qed.

Lemma tables_unclassified (c : Child) (i : nat) (b : R) (j : Z) :
  bmiCat c !! i = Some b -> b <> 1 -> b <> 2 -> b <> 3 -> b <> 4 ->
  elem (ffm_ref c) j i = 0 /\ elem (fm_ref c) j i = 0.
Proof.
  intros Hb H1 H2 H3 H4. split; apply elem_rows.
  - unfold ffm_ref. repeat constructor; now apply (ref_row_unclassified c _ _ _ _ _ _ _ _ i b).
  - unfold fm_ref. repeat constructor; now apply (ref_row_unclassified c _ _ _ _ _ _ _ _ i b).
Qed.

(** X10.  The BMI category is not validated: for an individual whose category
    is none of 1, 2, 3, 4 all four indicators are 0, every row of both tables
    is 0 and both curves return 0 at every age. *)
Theorem reference_unclassified (c : Child) (t vf vm : NumericVector)
        (i : nat) (b : R) :
  FFMReference c t = Ok vf -> FMReference c t = Ok vm ->
  (i < nind c)%nat -> bmiCat c !! i = Some b ->
  b <> 1 -> b <> 2 -> b <> 3 -> b <> 4 ->
  vf !! i = Some 0 /\ vm !! i = Some 0.
Proof.
  intros Hf Hm Hi Hb H1 H2 H3 H4.
  destruct (reference_reads c _ t vf Hf) as [Hlen _].
  destruct (lookup_lt_is_Some_2 t i ltac:(lia)) as [ti Hti].
  rewrite (reference_entry c (ffm_ref c) t vf i ti Hf Hi Hti).
  rewrite (reference_entry c (fm_ref c) t vm i ti Hm Hi Hti).
  assert (Z : forall ref, (forall j, elem ref j i = 0) -> interpolated ref ti i = 0).
  { intros ref Hz. unfold interpolated.
    destruct (Rge_dec ti 18); cbv zeta; rewrite !Hz; ring. }
  split; f_equal; apply Z; intros j;
    now apply (tables_unclassified c i b j).
Qed.

(** The rows of two, three and four years hold the same value in all four
    categories. *)
Lemma early_rows (c : Child) (i : nat) (s b : R) (j : Z) :
  (i < nind c)%nat -> sex c !! i = Some s -> bmiCat c !! i = Some b ->
  b = 1 \/ b = 2 \/ b = 3 \/ b = 4 ->
  (0 <= j <= 2)%Z ->
  elem (ffm_ref c) j i =
    nth (Z.to_nat j) [10.134 * (1 - s) + 9.477 * s;
                      12.099 * (1 - s) + 11.494 * s;
                      14.0 * (1 - s) + 13.2 * s] 0 /\
  elem (fm_ref c) j i =
    nth (Z.to_nat j) [2.456 * (1 - s) + 2.433 * s;
                      2.576 * (1 - s) + 2.606 * s;
                      2.7 * (1 - s) + 2.8 * s] 0.
Proof.
  intros Hi Hs Hb Hcat Hj.
  assert (V : forall u v : R,
            (if Req_dec_T b 1 then 1 else 0) * (u * (1 - s) + v * s) +
            (if Req_dec_T b 2 then 1 else 0) * (u * (1 - s) + v * s) +
            (if Req_dec_T b 3 then 1 else 0) * (u * (1 - s) + v * s) +
            (if Req_dec_T b 4 then 1 else 0) * (u * (1 - s) + v * s) =
            u * (1 - s) + v * s).
  { intros u v.
    destruct (Req_dec_T b 1), (Req_dec_T b 2), (Req_dec_T b 3), (Req_dec_T b 4);
      lra. }
  assert (Hcases : j = 0%Z \/ j = 1%Z \/ j = 2%Z) by lia.
  unfold elem, ffm_ref, fm_ref.
  destruct Hcases as [-> | [-> | ->]];
    [change (Z.to_nat 0) with 0%nat | change (Z.to_nat 1) with 1%nat
     | change (Z.to_nat 2) with 2%nat];
    cbn [nth]; rewrite !nth_lookup, !(ref_row_entry c _ _ _ _ _ _ _ _ i s b Hi Hs Hb);
    cbn [default]; rewrite !V; split; reflexivity.
Qed.

(** X11.  Up to four years the BMI category plays no part: two cohorts whose
    individual [i] has the same sex and any two of the categories 1 to 4 get
    the same reference masses at every age below 4. *)
Theorem reference_category_free_below_4 (c c' : Child) (t vf vf' vm vm' : NumericVector)
        (i : nat) (ti s b b' : R) :
  FFMReference c t = Ok vf -> FMReference c t = Ok vm ->
  FFMReference c' t = Ok vf' -> FMReference c' t = Ok vm' ->
  (i < nind c)%nat -> (i < nind c')%nat -> t !! i = Some ti ->
  sex c !! i = Some s -> sex c' !! i = Some s ->
  bmiCat c !! i = Some b -> bmiCat c' !! i = Some b' ->
  b = 1 \/ b = 2 \/ b = 3 \/ b = 4 ->
  b' = 1 \/ b' = 2 \/ b' = 3 \/ b' = 4 ->
  ti < 4 ->
  vf !! i = vf' !! i /\ vm !! i = vm' !! i.
Proof.
  intros Hf Hm Hf' Hm' Hi Hi' Hti Hs Hs' Hb Hb' Hcat Hcat' Ht.
  rewrite (reference_entry c (ffm_ref c) t vf i ti Hf Hi Hti).
  rewrite (reference_entry c (fm_ref c) t vm i ti Hm Hi Hti).
  rewrite (reference_entry c' (ffm_ref c') t vf' i ti Hf' Hi' Hti).
  rewrite (reference_entry c' (fm_ref c') t vm' i ti Hm' Hi' Hti).
  unfold interpolated.
  destruct (Rge_dec ti 18) as [Hge|_]; [lra|]. cbv zeta.
  destruct (base_Int_part ti) as [Hle _].
  assert (Hz : (Int_part ti < 4)%Z) by (apply lt_IZR; lra).
  revert Hz. generalize (Int_part ti). intros z Hz.
  set (j := (Z.max z 2 - 2)%Z). set (jH := Z.min (j + 1) 16).
  assert (Hj : (0 <= j <= 2)%Z) by lia.
  assert (HjH : (0 <= jH <= 2)%Z) by lia.
  destruct (early_rows c i s b j Hi Hs Hb Hcat Hj) as [-> ->].
  destruct (early_rows c i s b jH Hi Hs Hb Hcat HjH) as [-> ->].
  destruct (early_rows c' i s b' j Hi' Hs' Hb' Hcat' Hj) as [-> ->].
  destruct (early_rows c' i s b' jH Hi' Hs' Hb' Hcat' HjH) as [-> ->].
  split; reflexivity.
Qed.

Lemma reference_whole_years_witness :
  exists vf vm,
    FFMReference (boy 1) [5.0] = Ok vf /\ FMReference (boy 1) [5.0] = Ok vm /\
    vf !! 0%nat = Some (elem (ffm_ref (boy 1)) (5 - 2) 0 +
                        (5.0 - 5) * (elem (ffm_ref (boy 1)) (5 - 1) 0 -
                                     elem (ffm_ref (boy 1)) (5 - 2) 0)) /\
    vm !! 0%nat = Some (elem (fm_ref (boy 1)) (5 - 2) 0 +
                        (5.0 - 5) * (elem (fm_ref (boy 1)) (5 - 1) 0 -
                                     elem (fm_ref (boy 1)) (5 - 2) 0)) /\
    (5.0 = 5 ->
     vf !! 0%nat = Some (elem (ffm_ref (boy 1)) (5 - 2) 0) /\
     vm !! 0%nat = Some (elem (fm_ref (boy 1)) (5 - 2) 0)).
Proof.
  destruct (boy_references 1 5.0 ltac:(lra)) as [Hf Hm].
  eexists _, _. split; [exact Hf|]. split; [exact Hm|].
  apply (reference_whole_years (boy 1) [5.0] _ _ 0 5.0 5 Hf Hm).
  - apply le_n.
  - reflexivity.
  - lia.
  - lra.
Defined.

Lemma reference_below_2_witness :
  exists vf vm vf' vm',
    FFMReference (toddler 4) [0.5] = Ok vf /\ FMReference (toddler 4) [0.5] = Ok vm /\
    FFMReference (toddler 4) [0.5 + 1] = Ok vf' /\
    FMReference (toddler 4) [0.5 + 1] = Ok vm' /\
    vf !! 0%nat =
      Some (elem (ffm_ref (toddler 4)) 0 0 +
            (0.5 - IZR (Int_part 0.5)) *
            (elem (ffm_ref (toddler 4)) 1 0 - elem (ffm_ref (toddler 4)) 0 0)) /\
    vm !! 0%nat =
      Some (elem (fm_ref (toddler 4)) 0 0 +
            (0.5 - IZR (Int_part 0.5)) *
            (elem (fm_ref (toddler 4)) 1 0 - elem (fm_ref (toddler 4)) 0 0)) /\
    vf' !! 0%nat = vf !! 0%nat /\ vm' !! 0%nat = vm !! 0%nat.
Proof.
  destruct (FFMReference_total (toddler 4) [0.5] (le_n 1)) as (vf & Hf & _).
  destruct (FMReference_total (toddler 4) [0.5] (le_n 1)) as (vm & Hm & _).
  destruct (FFMReference_total (toddler 4) [0.5 + 1] (le_n 1)) as (vf' & Hf' & _).
  destruct (FMReference_total (toddler 4) [0.5 + 1] (le_n 1)) as (vm' & Hm' & _).
  exists vf, vm, vf', vm'. repeat (split; [assumption|]).
  apply (reference_below_2 (toddler 4) [0.5] [0.5 + 1] vf vf' vm vm' 0 0.5
           Hf Hm Hf' Hm').
  - apply le_n.
  - reflexivity.
  - reflexivity.
  - lra.
Defined.

Lemma reference_unclassified_witness :
  exists vf vm,
    FFMReference unclassified [5.0] = Ok vf /\
    FMReference unclassified [5.0] = Ok vm /\
    vf !! 0%nat = Some 0 /\ vm !! 0%nat = Some 0.
Proof.
  destruct (FFMReference_total unclassified [5.0] (le_n 1)) as (vf & Hf & _).
  destruct (FMReference_total unclassified [5.0] (le_n 1)) as (vm & Hm & _).
  exists vf, vm. repeat (split; [assumption|]).
  apply (reference_unclassified unclassified [5.0] vf vm 0 7 Hf Hm).
  - apply le_n.
  - reflexivity.
  - lra.
  - lra.
  - lra.
  - lra.
Defined.

Lemma reference_category_free_below_4_witness :
  exists vf vm vf' vm',
    FFMReference (toddler 4) [3.5] = Ok vf /\ FMReference (toddler 4) [3.5] = Ok vm /\
    FFMReference (toddler 1) [3.5] = Ok vf' /\ FMReference (toddler 1) [3.5] = Ok vm' /\
    vf !! 0%nat = vf' !! 0%nat /\ vm !! 0%nat = vm' !! 0%nat.
Proof.
  destruct (FFMReference_total (toddler 4) [3.5] (le_n 1)) as (vf & Hf & _).
  destruct (FMReference_total (toddler 4) [3.5] (le_n 1)) as (vm & Hm & _).
  destruct (FFMReference_total (toddler 1) [3.5] (le_n 1)) as (vf' & Hf' & _).
  destruct (FMReference_total (toddler 1) [3.5] (le_n 1)) as (vm' & Hm' & _).
  exists vf, vm, vf', vm'. repeat (split; [assumption|]).
  apply (reference_category_free_below_4 (toddler 4) (toddler 1) [3.5]
           vf vf' vm vm' 0 3.5 1 4 1 Hf Hm Hf' Hm').
  - apply le_n.
  - apply le_n.
  - reflexivity.
  - reflexivity.
  - reflexivity.
  - reflexivity.
  - reflexivity.
  - right. right. right. reflexivity.
  - left. reflexivity.
  - lra.
Defined.

(** ** Further properties of the kernels and of the energy balance *)

Lemma cpow_10_nonneg (x : R) : 0 <= cpow x 10.0.
Proof.
  replace 10.0 with 10 by lra.
  unfold cpow. destruct (Rlt_dec 0 x) as [Hx|Hx].
  - left. apply exp_pos.
  - rewrite (Int_part_IZR 10).
    destruct (Req_dec_T 10 10) as [_|E]; [|lra].
    change (powerRZ x 10) with (x ^ 10).
    replace (x ^ 10) with ((x ^ 5) ^ 2) by ring.
    apply pow2_ge_0.
Qed.

(** A kernel whose three amplitudes are positive is positive. *)
Lemma general_ode_pos (t iA iB iD itA itB itD ita itb itd : NumericVector)
      (i : nat) (a b d g : R) :
  general_ode t iA iB iD itA itB itD ita itb itd !! i = Some g ->
  iA !! i = Some a -> iB !! i = Some b -> iD !! i = Some d ->
  0 < a -> 0 < b -> 0 < d -> 0 < g.
Proof.
  unfold general_ode. intros H HA HB HD Ha Hb Hd. entries.
  match goal with
  | |- 0 < _ * exp ?x + _ * exp ?y + _ * exp ?z =>
      pose proof (exp_pos x); pose proof (exp_pos y); pose proof (exp_pos z);
      generalize dependent (exp x); generalize dependent (exp y);
      generalize dependent (exp z)
  end.
  intros; nra.
Qed.

(** A blend [u * (1 - sex) + v * sex] of the value for boys and the value
    for girls. *)
Lemma blend_entry (c : Child) (u v : R) (i : nat) (s : R) :
  sex c !! i = Some s ->
  (u $* (1 $- sex c) .+ v $* sex c) !! i = Some (u * (1 - s) + v * s).
Proof.
  intros Hs. unfold vadd, smul, ssub.
  rewrite lookup_zip_with, !lookup_map, Hs. reflexivity.
Qed.

Lemma blend_pos (u v s : R) : 0 < u -> 0 < v -> 0 <= s <= 1 -> 0 < u * (1 - s) + v * s.
Proof. intros. nra. Qed.

Lemma Growth_dynamic_pos (c : Child) (t : NumericVector) (i : nat) (s g : R) :
  sex c !! i = Some s -> 0 <= s <= 1 ->
  Growth_dynamic c t !! i = Some g -> 0 < g.
Proof.
  intros Hs Hr H.
  apply (general_ode_pos _ _ _ _ _ _ _ _ _ _ i _ _ _ g H
           (blend_entry c _ _ i s Hs) (blend_entry c _ _ i s Hs)
           (blend_entry c _ _ i s Hs)); apply blend_pos; lra.
Qed.

(** X12.  For a sex code between 0 (boy) and 1 (girl) the three kernels built
    on [general_ode] are strictly positive at every age. *)
Theorem kernels_positive (c : Child) (t : NumericVector) (i : nat) (s g : R) :
  sex c !! i = Some s -> 0 <= s <= 1 ->
  Growth_dynamic c t !! i = Some g \/ Growth_impact c t !! i = Some g \/
  EB_impact c t !! i = Some g ->
  0 < g.
Proof.
  intros Hs Hr [H | [H | H]].
  - exact (Growth_dynamic_pos c t i s g Hs Hr H).
  - apply (general_ode_pos _ _ _ _ _ _ _ _ _ _ i _ _ _ g H
             (blend_entry c _ _ i s Hs) (blend_entry c _ _ i s Hs)
             (blend_entry c _ _ i s Hs)); apply blend_pos; lra.
  - apply (general_ode_pos _ _ _ _ _ _ _ _ _ _ i _ _ _ g H
             (blend_entry c _ _ i s Hs) (blend_entry c _ _ i s Hs)
             (blend_entry c _ _ i s Hs)); apply blend_pos; lra.
Qed.

Lemma kernels_positive_witness :
  exists g, EB_impact (boy 1) [5.0] !! 0%nat = Some g /\ 0 < g.
Proof.
  destruct (singleton_of_length (EB_impact (boy 1) [5.0]) eq_refl) as (g & _ & H).
  exists g. split; [exact H|].
  apply (kernels_positive (boy 1) [5.0] 0 0 g).
  - reflexivity.
  - lra.
  - right. right. exact H.
Defined.

(** X13.  For a sex code between 0 and 1, [Delta] lies above [deltamin = 10]
    and does not pass [deltamax = 19 (1 - sex) + 17 sex], at every age,
    negative ages included. *)
Theorem Delta_bounds (c : Child) (t : NumericVector) (i : nat) (s d : R) :
  sex c !! i = Some s -> 0 <= s <= 1 ->
  Delta c t !! i = Some d ->
  10 < d <= 19 * (1 - s) + 17 * s.
Proof.
  unfold Delta, deltamax, deltamin, P, h. intros Hs Hr H. entries.
  match goal with
  | |- context [cpow ?x 10.0] => pose proof (cpow_10_nonneg x) as Hw;
                                  generalize dependent (cpow x 10.0)
  end.
  intros w Hw.
  pose proof (fraction_bounds 1 w ltac:(lra) Hw) as Hf.
  replace (1.0 / (1.0 + w)) with (1 / (1 + w)) by (f_equal; lra).
  generalize dependent (1 / (1 + w)). intros q Hq. split; nra.
Qed.

Lemma Delta_bounds_witness :
  exists d, Delta (boy 1) [-3] !! 0%nat = Some d /\ 10 < d <= 19 * (1 - 0) + 17 * 0.
Proof.
  destruct (singleton_of_length (Delta (boy 1) [-3]) eq_refl) as (d & _ & H).
  exists d. split; [exact H|].
  apply (Delta_bounds (boy 1) [-3] 0 0 d).
  - reflexivity.
  - lra.
  - exact H.
Defined.

(** X14.  The two rows of [dMass] split the energy imbalance between the two
    compartments: for an individual with [FFM >= 0], with
    [rhoFFM = 4.3 FFM + 837] and [rhoFM = 9400],
    [rhoFFM * dFFM + rhoFM * dFM = Intake - Expenditure]; the growth term
    moves mass from one compartment to the other and cancels. *)
Theorem dMass_energy_split (c : Child) (t FFM FM d0 d1 : NumericVector)
        (i : nat) (f u v : R) :
  dMass c t FFM FM = Ok [d0; d1] ->
  FFM !! i = Some f -> 0 <= f ->
  d0 !! i = Some u -> d1 !! i = Some v ->
  exists Ival Ev I E,
    Intake c t = Ok Ival /\ Expenditure c t FFM FM = Ok Ev /\
    Ival !! i = Some I /\ Ev !! i = Some E /\
    (4.3 * f + 837) * u + 9400 * v = I - E.
Proof.
  unfold dMass. intros H Hf Hf0 Hu Hv.
  bind_inv H. rename x into Ev, E into HEv.
  bind_inv H. rename x into Ival, E into HI.
  bind_inv H. rewrite HI in E. injection E as <-.
  injection H as <- <-.
  unfold cRhoFFM, rhoFM in Hu, Hv. entries.
  exists Ival, Ev. do 2 eexists. split; [exact HI|]. split; [exact HEv|].
  split; [eassumption|]. split; [eassumption|].
  unfold Q2R; cbn [QArith_base.Qnum QArith_base.Qden].
  field. lra.
Qed.

Lemma dMass_energy_split_witness :
  exists u v Ival Ev I E,
    dMass (boy 1) [5.0] [15.0] [3.0] = Ok [[u]; [v]] /\
    Intake (boy 1) [5.0] = Ok Ival /\
    Expenditure (boy 1) [5.0] [15.0] [3.0] = Ok Ev /\
    Ival !! 0%nat = Some I /\ Ev !! 0%nat = Some E /\
    (4.3 * 15.0 + 837) * u + 9400 * v = I - E.
Proof.
  destruct (boy_atoms 1 5.0 ltac:(lra)) as (g & delta & eb & Eg & Ed & _).
  destruct (boy_IntakeReference 1 5.0 ltac:(lra)) as (ir & Er & _).
  destruct (boy_dMass_entries 1 5.0 15.0 3.0 g delta ir Eg Ed Er ltac:(lra) ltac:(lra))
    as (u & v & p & S & Hd & _).
  exists u, v.
  destruct (dMass_energy_split (boy 1) [5.0] [15.0] [3.0] [u] [v] 0 15.0 u v Hd)
    as (Ival & Ev & I & E & H).
  - reflexivity.
  - lra.
  - reflexivity.
  - reflexivity.
  - exists Ival, Ev, I, E. split; [exact Hd | exact H].
Defined.

(** X15.  Without fat mass the whole imbalance is assigned to the fat free
    mass ([p = 1]) and the derivative of the fat mass is [- growth / rhoFM],
    whatever the intake: strictly negative for a sex code between 0 and 1,
    so the fat mass leaves zero downwards. *)
Theorem dMass_without_fat_mass (c : Child) (t FFM FM d0 d1 : NumericVector)
        (i : nat) (f m s v : R) :
  dMass c t FFM FM = Ok [d0; d1] ->
  FFM !! i = Some f -> 0 <= f -> FM !! i = Some m -> m = 0 ->
  sex c !! i = Some s -> 0 <= s <= 1 ->
  d1 !! i = Some v ->
  exists g, Growth_dynamic c t !! i = Some g /\ v = - g / 9400 /\ v < 0.
Proof.
  unfold dMass. intros H Hf Hf0 Hm Hm0 Hs Hr Hv.
  bind_inv H. bind_inv H. bind_inv H. injection H as _ <-.
  unfold cP, cP_C, cRhoFFM, rhoFM in Hv. cbv zeta in Hv. entries.
  match goal with
  | G : Growth_dynamic c t !! i = Some ?g |- _ =>
      exists g; split; [exact G|];
      pose proof (Growth_dynamic_pos c t i s g Hs Hr G) as Hg
  end.
  subst m.
  match goal with
  | |- ?lhs = - ?g / 9400 /\ _ => assert (Ev : lhs = - g / 9400)
  end.
  { unfold Q2R; cbn [QArith_base.Qnum QArith_base.Qden]. field. lra. }
  split; [exact Ev|]. rewrite Ev. lra.
Qed.

Lemma dMass_without_fat_mass_witness :
  exists u v g,
    dMass (boy 1) [5.0] [15.0] [0] = Ok [[u]; [v]] /\
    Growth_dynamic (boy 1) [5.0] !! 0%nat = Some g /\ v = - g / 9400 /\ v < 0.
Proof.
  destruct (boy_atoms 1 5.0 ltac:(lra)) as (g0 & delta & eb & Eg & Ed & _).
  destruct (boy_IntakeReference 1 5.0 ltac:(lra)) as (ir & Er & _).
  destruct (boy_dMass_entries 1 5.0 15.0 0 g0 delta ir Eg Ed Er ltac:(lra) ltac:(lra))
    as (u & v & p & S & Hd & _).
  exists u, v.
  destruct (dMass_without_fat_mass (boy 1) [5.0] [15.0] [0] [u] [v] 0 15.0 0 0 v Hd)
    as (g & H).
  - reflexivity.
  - lra.
  - reflexivity.
  - reflexivity.
  - reflexivity.
  - lra.
  - reflexivity.
  - exists g. split; [exact Hd | exact H].
Defined.

(** X16.  The reference state is consistent with the reference intake: for
    an individual whose masses are the reference masses of age [t] (not
    negative) and whose intake is the reference intake of age [t], intake
    minus expenditure is [EB_impact t]. *)
Theorem reference_state_balance (c : Child)
        (t Fref Mref Ev Ival Iref : NumericVector) (i : nat) (f m I E : R) :
  FFMReference c t = Ok Fref -> FMReference c t = Ok Mref ->
  Expenditure c t Fref Mref = Ok Ev ->
  Intake c t = Ok Ival -> IntakeReference c t = Ok Iref ->
  Fref !! i = Some f -> Mref !! i = Some m -> 0 <= f -> 0 <= m ->
  Ival !! i = Some I -> Iref !! i = Some I -> Ev !! i = Some E ->
  exists eb, EB_impact c t !! i = Some eb /\ I - E = eb.
Proof.
  intros HF HM HE HI HIr Hf Hm Hf0 Hm0 HIi HIri HEi.
  unfold Expenditure in HE. rewrite HIr, HI in HE. cbn [bind] in HE.
  injection HE as <-.
  unfold cP, cP_C, cRhoFFM, rhoFM in HEi. cbv zeta in HEi. entries.
  unfold IntakeReference in HIr. rewrite HF, HM in HIr. cbn [bind] in HIr.
  injection HIr as <-.
  unfold cP, cP_C, cRhoFFM, rhoFM in HIri. cbv zeta in HIri. entries.
  eexists. split; [eassumption|].
  replace 837.0 with 837 by lra. replace (9.4 * 1000.0) with 9400 by lra.
  replace 230.0 with 230 by lra. replace 180.0 with 180 by lra.
  replace 1.0 with 1 by lra.
  set (rho := 4.3 * f + 837).
  assert (Hrho : 0 < rho) by (unfold rho; lra).
  set (C := 10.4 * rho / 9400).
  assert (HC : 0 < C) by (unfold C; lra).
  pose proof (fraction_bounds C m HC Hm0) as Hp.
  set (p := C / (C + m)) in *.
  assert (Ha : 0 < 230 / rho) by (apply Rdiv_lt_0_compat; lra).
  set (a := 230 / rho) in *.
  set (b := 180 / 9400).
  assert (Hb : 0 < b) by (unfold b; lra).
  assert (Hw : 1 + a * p + b * (1 - p) <> 0) by (clear - Ha Hb Hp; nra).
  clearbody a b p. clear - Hw.
  unfold Q2R; cbn [QArith_base.Qnum QArith_base.Qden]. field. exact Hw.
Qed.

Lemma reference_state_balance_witness :
  exists E eb,
    Expenditure fed_reference [5.0]
      [14.85 + (5.0 - 5) * (16.09 - 14.85)] [3.10 + (5.0 - 5) * (3.23 - 3.10)] = Ok [E] /\
    EB_impact fed_reference [5.0] !! 0%nat = Some eb /\
    reference_intake (boy 1) 5.0 - E = eb.
Proof.
  destruct (boy_references 1 5.0 ltac:(lra)) as [HF HM].
  destruct (boy_IntakeReference 1 5.0 ltac:(lra)) as (ir & Hir & _).
  assert (Eir : reference_intake (boy 1) 5.0 = ir)
    by (unfold reference_intake; rewrite Hir; reflexivity).
  assert (HIr : IntakeReference fed_reference [5.0] = Ok [reference_intake (boy 1) 5.0])
    by (rewrite Eir; exact Hir).
  assert (HI : Intake fed_reference [5.0] = Ok [reference_intake (boy 1) 5.0]).
  { rewrite Intake_logistic by reflexivity. cbn [map]. do 2 f_equal.
    change (A_logistic fed_reference) with (reference_intake (boy 1) 5.0).
    change (K_logistic fed_reference) with (reference_intake (boy 1) 5.0).
    unfold Rdiv. ring. }
  assert (HE : exists E,
             Expenditure fed_reference [5.0]
               [14.85 + (5.0 - 5) * (16.09 - 14.85)]
               [3.10 + (5.0 - 5) * (3.23 - 3.10)] = Ok [E]).
  { unfold Expenditure. rewrite HIr, HI. cbn [bind]. eexists. reflexivity. }
  destruct HE as [E HE]. exists E.
  destruct (reference_state_balance fed_reference [5.0] _ _ [E] _ _ 0
              (14.85 + (5.0 - 5) * (16.09 - 14.85)) (3.10 + (5.0 - 5) * (3.23 - 3.10))
              (reference_intake (boy 1) 5.0) E HF HM HE HI HIr)
    as (eb & Heb & Hbal).
  - reflexivity.
  - reflexivity.
  - lra.
  - lra.
  - reflexivity.
  - reflexivity.
  - reflexivity.
  - exists eb. split; [exact HE|]. split; [exact Heb | exact Hbal].
Defined.

(** ** Further properties of the intake *)

Lemma ln_nonneg (x : R) : 1 <= x -> 0 <= ln x.
Proof.
  intros [Hlt | <-].
  - left. rewrite <- ln_1. apply ln_increasing; lra.
  - rewrite ln_1. lra.
Qed.

Lemma Rpower_ge_1 (x y : R) : 1 <= x -> 0 < y -> 1 <= Rpower x y.
Proof.
  intros Hx Hy. unfold Rpower.
  pose proof (ln_nonneg x Hx) as Hl.
  pose proof (exp_ineq1_le (y * ln x)) as He.
  assert (0 <= y * ln x) by nra. lra.
Qed.

(** X17.  A generalized-logistic intake with [C >= 1], [Q >= 0], [nu > 0]
    and [A <= K] stays between its two asymptotes: [A <= Intake <= K] for
    every individual at every age. *)
Theorem Intake_logistic_between_asymptotes (c : Child) (t v : NumericVector)
        (i : nat) (x : R) :
  generalized_logistic c = true ->
  1 <= C_logistic c -> 0 <= Q_logistic c -> 0 < nu_logistic c ->
  A_logistic c <= K_logistic c ->
  Intake c t = Ok v -> v !! i = Some x ->
  A_logistic c <= x <= K_logistic c.
Proof.
  intros Hg HC HQ Hnu HAK Hv Hx.
  rewrite (Intake_logistic c t Hg) in Hv. injection Hv as <-.
  apply lookup_map_Some in Hx as (ti & _ & ->).
  pose proof (exp_pos (- B_logistic c * ti)) as He.
  assert (Hb : 1 <= C_logistic c + Q_logistic c * exp (- B_logistic c * ti)) by nra.
  rewrite cpow_pos_base by lra.
  assert (Hy : 0 < 1 / nu_logistic c).
  { unfold Rdiv. rewrite Rmult_1_l. now apply Rinv_0_lt_compat. }
  pose proof (Rpower_ge_1 _ _ Hb Hy) as Hw.
  generalize dependent (Rpower (C_logistic c + Q_logistic c * exp (- B_logistic c * ti))
                               (1 / nu_logistic c)).
  intros w Hw.
  assert (Hi : 0 < / w <= 1).
  { split; [apply Rinv_0_lt_compat; lra|].
    rewrite <- Rinv_1. apply Rinv_le_contravar; lra. }
  unfold Rdiv. generalize dependent (/ w). intros q Hq. split; nra.
Qed.

Lemma Intake_logistic_between_asymptotes_witness :
  exists v x, Intake growing_appetite [5.0] = Ok v /\ v !! 0%nat = Some x /\
              A_logistic growing_appetite <= x <= K_logistic growing_appetite.
Proof.
  pose proof (Intake_logistic growing_appetite [5.0] eq_refl) as Hv.
  eexists _, _. split; [exact Hv|]. split; [reflexivity|].
  eapply (Intake_logistic_between_asymptotes growing_appetite [5.0] _ 0 _ eq_refl).
  - simpl. lra.
  - simpl. lra.
  - simpl. lra.
  - simpl. lra.
  - exact Hv.
  - reflexivity.
Defined.
